(** * hid-switch2: protocol engine of the Nintendo Switch 2 controller driver

    A shallow embedding of [hid-switch2.c] / [hid-switch2.h]: the
    calibration codec, the command decoder, the initialization state
    machine, the report transforms and the rumble encoder.  Integers of the
    C code are [Z] with the conversions of the C types written out; a
    pointer into a receive buffer is the list of the bytes from that
    position on. *)

From Stdlib Require Import ZArith List Bool Lia.
Import ListNotations.

Local Open Scope Z_scope.

(** ** Machine integers *)

Module CInt.

(** Conversion to [uint8_t], [uint16_t], [unsigned int], [unsigned long]
    (64 bit) and to a 10-bit bit-field. *)
Definition u8 (v : Z) : Z := v mod 2 ^ 8.
Definition u16 (v : Z) : Z := v mod 2 ^ 16.
Definition u32 (v : Z) : Z := v mod 2 ^ 32.
Definition ulong (v : Z) : Z := v mod 2 ^ 64.
Definition u10 (v : Z) : Z := v mod 2 ^ 10.

(** Conversion to [int8_t] and to [int] (the kernel is built with
    wrapping signed arithmetic). *)
Definition s8 (v : Z) : Z := (v + 2 ^ 7) mod 2 ^ 8 - 2 ^ 7.
Definition int (v : Z) : Z := (v + 2 ^ 31) mod 2 ^ 32 - 2 ^ 31.

Definition U16_MAX : Z := 65535.
Definition U32_MAX : Z := 4294967295.

(** Truth value of a C scalar. *)
Definition truthy (v : Z) : bool := negb (v =? 0).

(** The kernel's [clamp(val, lo, hi)] is [min(max(val, lo), hi)]. *)
Definition clamp (val lo hi : Z) : Z := Z.min (Z.max val lo) hi.

Definition is_byte (b : Z) : Prop := 0 <= b < 256.

End CInt.
Import CInt.

(** Errno values returned (negated) by the driver. *)
Definition EINVAL : Z := 22.
Definition ENOMEM : Z := 12.
Definition ENODEV : Z := 19.
Definition ENOTCONN : Z := 107.

(** ** Constants of hid-switch2.h *)

Definition NS2_FLASH_ADDR_SERIAL : Z := 0x13002.
Definition NS2_FLASH_ADDR_FACTORY_PRIMARY_CALIB : Z := 0x130a8.
Definition NS2_FLASH_ADDR_FACTORY_SECONDARY_CALIB : Z := 0x130e8.
Definition NS2_FLASH_ADDR_FACTORY_TRIGGER_CALIB : Z := 0x13140.
Definition NS2_FLASH_ADDR_USER_PRIMARY_CALIB : Z := 0x1fc040.
Definition NS2_FLASH_ADDR_USER_SECONDARY_CALIB : Z := 0x1fc080.

Definition NS2_FLASH_SIZE_SERIAL : Z := 0x10.
Definition NS2_FLASH_SIZE_FACTORY_AXIS_CALIB : Z := 9.
Definition NS2_FLASH_SIZE_FACTORY_TRIGGER_CALIB : Z := 2.
Definition NS2_FLASH_SIZE_USER_AXIS_CALIB : Z := 11.

Definition NS2_USER_CALIB_MAGIC : Z := 0xa1b2.

Definition NS2_FEATURE_BUTTONS : Z := 1.
Definition NS2_FEATURE_ANALOG : Z := 2.
Definition NS2_FEATURE_IMU : Z := 4.
Definition NS2_FEATURE_RUMBLE : Z := 32.

Definition NS2_CMD_NFC : Z := 0x01.
Definition NS2_CMD_FLASH : Z := 0x02.
Definition NS2_CMD_INIT : Z := 0x03.
Definition NS2_CMD_GRIP : Z := 0x08.
Definition NS2_CMD_LED : Z := 0x09.
Definition NS2_CMD_FEATSEL : Z := 0x0c.
Definition NS2_CMD_FW_INFO : Z := 0x10.

Definition NS2_SUBCMD_FLASH_READ : Z := 0x04.
Definition NS2_SUBCMD_INIT_USB : Z := 0xd.
Definition NS2_SUBCMD_FEATSEL_SET_MASK : Z := 0x2.
Definition NS2_SUBCMD_FEATSEL_ENABLE : Z := 0x4.
Definition NS2_SUBCMD_GRIP_ENABLE_BUTTONS : Z := 0x2.
Definition NS2_SUBCMD_LED_PATTERN : Z := 0x7.
Definition NS2_SUBCMD_FW_INFO_GET : Z := 0x1.

Definition NS2_CTLR_TYPE_JCL : Z := 0x00.
Definition NS2_CTLR_TYPE_JCR : Z := 0x01.
Definition NS2_CTLR_TYPE_PRO : Z := 0x02.
Definition NS2_CTLR_TYPE_GC : Z := 0x03.

(** [enum switch2_init_step], with CONFIG_SWITCH2_FF defined (the Makefile
    passes -DCONFIG_SWITCH2_FF). *)
Definition NS2_INIT_STARTING : Z := 0.
Definition NS2_INIT_READ_SERIAL : Z := 1.
Definition NS2_INIT_READ_FACTORY_PRIMARY_CALIB : Z := 2.
Definition NS2_INIT_READ_FACTORY_SECONDARY_CALIB : Z := 3.
Definition NS2_INIT_READ_FACTORY_TRIGGER_CALIB : Z := 4.
Definition NS2_INIT_READ_USER_PRIMARY_CALIB : Z := 5.
Definition NS2_INIT_READ_USER_SECONDARY_CALIB : Z := 6.
Definition NS2_INIT_SET_FEATURE_MASK : Z := 7.
Definition NS2_INIT_ENABLE_FEATURES : Z := 8.
Definition NS2_INIT_GET_FIRMWARE_INFO : Z := 9.
Definition NS2_INIT_ENABLE_RUMBLE : Z := 10.
Definition NS2_INIT_GRIP_BUTTONS : Z := 11.
Definition NS2_INIT_SET_PLAYER_LEDS : Z := 12.
Definition NS2_INIT_INPUT : Z := 13.
Definition NS2_INIT_DONE : Z := 14.

(** Constants of hid-switch2.c *)
Definition NS2_TRIGGER_RANGE : Z := 4095.
Definition NS2_AXIS_MIN : Z := -32768.
Definition NS2_AXIS_MAX : Z := 32767.
Definition NS2_MAX_PLAYER_ID : Z := 8.
Definition RUMBLE_MAX : Z := 450.
Definition RUMBLE_HI_FREQ : Z := 0x187.
Definition RUMBLE_LO_FREQ : Z := 0x112.

Definition GC_RUMBLE_OFF : Z := 0.
Definition GC_RUMBLE_ON : Z := 1.
Definition GC_RUMBLE_STOP : Z := 2.

Definition switch2_ctlr_is_joycon (type : Z) : bool :=
  (type =? NS2_CTLR_TYPE_JCL) || (type =? NS2_CTLR_TYPE_JCR).

(** ** Buffers *)

(** [data[i]] for a pointer [data] into a buffer of bytes. *)
Definition byte_at (data : list Z) (i : nat) : Z := nth i data 0.

(** [__le16_to_cpu( *(__le16 * )data)] and [__le32_to_cpu( *(__le32 * )data)]. *)
Definition le16 (data : list Z) : Z :=
  Z.lor (byte_at data 0) (Z.shiftl (byte_at data 1) 8).

Definition le32 (data : list Z) : Z :=
  Z.lor (Z.lor (byte_at data 0) (Z.shiftl (byte_at data 1) 8))
        (Z.lor (Z.shiftl (byte_at data 2) 16) (Z.shiftl (byte_at data 3) 24)).

(** [__cpu_to_le32(v)] laid out as four bytes. *)
Definition cpu_to_le32 (v : Z) : list Z :=
  [Z.land v 0xFF; Z.land (Z.shiftr v 8) 0xFF;
   Z.land (Z.shiftr v 16) 0xFF; Z.land (Z.shiftr v 24) 0xFF].

(** [memcpy(dst, src, n)] on byte arrays: the first [n] bytes of [dst] are
    replaced by [src[0]] .. [src[n - 1]], the rest stays. *)
Definition memcpy (dst src : list Z) (n : nat) : list Z :=
  map (byte_at src) (seq 0 n) ++ skipn n dst.

(** ** Data model (hid-switch2.h) *)

Record switch2_axis_calibration := {
  neutral : Z;
  negative : Z;
  positive : Z
}.

Record switch2_stick_calibration := {
  x : switch2_axis_calibration;
  y : switch2_axis_calibration
}.

Record switch2_version_info := {
  major : Z;
  minor : Z;
  patch : Z;
  version_ctlr_type : Z;
  unk : Z;
  dsp_major : Z;
  dsp_minor : Z;
  dsp_patch : Z;
  dsp_type : Z
}.

(** [sizeof(struct switch2_version_info)]: 4 + 4 + 4 bytes. *)
Definition sizeof_version : Z := 12.

Record switch2_hd_rumble := {
  hi_freq : Z;
  hi_amp : Z;
  lo_freq : Z;
  lo_amp : Z
}.

Record switch2_erm_rumble := {
  error : Z;
  amplitude : Z
}.

(** ** Calibration codec *)

Definition UNCALIBRATED : list Z :=
  [0xFF; 0xFF; 0xFF; 0xFF; 0xFF; 0xFF; 0xFF; 0xFF; 0xFF].

(** [memcmp(a, b, n) == 0] *)
Definition memeq (a b : list Z) (n : nat) : bool :=
  forallb (fun i => byte_at a i =? byte_at b i) (seq 0 n).

(** The two 12-bit fields of a 3-byte group, as the source computes them
    into a [uint16_t]. *)
Definition unpack_lo (data : list Z) (i : nat) : Z :=
  u16 (Z.lor (u16 (byte_at data i))
             (Z.shiftl (Z.land (byte_at data (i + 1)) 0x0F) 8)).

Definition unpack_hi (data : list Z) (i : nat) : Z :=
  u16 (Z.lor (u16 (Z.shiftr (byte_at data (i + 1)) 4))
             (Z.shiftl (byte_at data (i + 2)) 4)).

(** [switch2_parse_stick_calibration(calib, data)]: the returned pair is
    the [bool] result and the contents of [*calib] afterwards. *)
Definition switch2_parse_stick_calibration
    (calib : switch2_stick_calibration) (data : list Z)
  : bool * switch2_stick_calibration :=
  if memeq UNCALIBRATED data 9 then (false, calib)
  else
    (true,
     {| x := {| neutral := unpack_lo data 0;
                positive := unpack_lo data 3;
                negative := unpack_lo data 6 |};
        y := {| neutral := unpack_hi data 0;
                positive := unpack_hi data 3;
                negative := unpack_hi data 6 |} |}).

(** ** The controller session (struct switch2_controller) *)

(** The [rumble] union: [hd] and [sd] are two views of the same storage.
    [hd] is packed, four bit-fields of ten bits in five bytes; [sd] is two
    [uint16_t] in the first four of these bytes.  Bit-fields are allocated
    from the least significant bit of a little-endian layout, so of the
    forty bits [hi_freq] holds 0 .. 9, [hi_amp] 10 .. 19, [lo_freq]
    20 .. 29, [lo_amp] 30 .. 39, [error] 0 .. 15 and [amplitude] 16 .. 31.
    The model keeps the storage as one number. *)
Record switch2_rumble := {
  storage : Z
}.

(** The [width] bits of [v] from bit [off] on, and [v] with these bits
    replaced by the low bits of [x]. *)
Definition bits (v off width : Z) : Z :=
  Z.land (Z.shiftr v off) (Z.ones width).

Definition set_bits (v off width x : Z) : Z :=
  Z.lor (Z.ldiff v (Z.shiftl (Z.ones width) off))
        (Z.shiftl (Z.land x (Z.ones width)) off).

(** [rumble.hd] and [rumble.sd] read. *)
Definition hd (r : switch2_rumble) : switch2_hd_rumble :=
  {| hi_freq := bits (storage r) 0 10;
     hi_amp := bits (storage r) 10 10;
     lo_freq := bits (storage r) 20 10;
     lo_amp := bits (storage r) 30 10 |}.

Definition sd (r : switch2_rumble) : switch2_erm_rumble :=
  {| error := bits (storage r) 0 16;
     amplitude := bits (storage r) 16 16 |}.

(** Assignments to one member: [rumble.hd.hi_freq = v] and so on.  The
    value is truncated to the width of the member; the other bits of the
    storage stay. *)
Definition set_hi_freq (r : switch2_rumble) (v : Z) : switch2_rumble :=
  {| storage := set_bits (storage r) 0 10 v |}.
Definition set_hi_amp (r : switch2_rumble) (v : Z) : switch2_rumble :=
  {| storage := set_bits (storage r) 10 10 v |}.
Definition set_lo_freq (r : switch2_rumble) (v : Z) : switch2_rumble :=
  {| storage := set_bits (storage r) 20 10 v |}.
Definition set_lo_amp (r : switch2_rumble) (v : Z) : switch2_rumble :=
  {| storage := set_bits (storage r) 30 10 v |}.
Definition set_error (r : switch2_rumble) (v : Z) : switch2_rumble :=
  {| storage := set_bits (storage r) 0 16 v |}.
Definition set_amplitude (r : switch2_rumble) (v : Z) : switch2_rumble :=
  {| storage := set_bits (storage r) 16 16 v |}.

(** [hdev] and [cfg] record whether the data-path and the command-path
    handles are bound, [input] whether an input device is registered.
    [rumble_work] is the delayed work: [Some d] when it is queued with
    delay [d], [None] when it is not pending. *)
Record switch2_controller := {
  hdev : bool;
  cfg : bool;
  ctlr_type : Z;
  init_step : Z;
  input : bool;
  serial : list Z;
  version : switch2_version_info;
  stick_calib : switch2_stick_calibration * switch2_stick_calibration;
  lt_zero : Z;
  rt_zero : Z;
  player_id : Z;
  rumble_seq : Z;
  rumble : switch2_rumble;
  last_rumble_work : Z;
  rumble_work : option Z
}.

Definition zero_axis : switch2_axis_calibration :=
  {| neutral := 0; negative := 0; positive := 0 |}.

Definition zero_stick : switch2_stick_calibration :=
  {| x := zero_axis; y := zero_axis |}.

Definition zero_version : switch2_version_info :=
  {| major := 0; minor := 0; patch := 0; version_ctlr_type := 0; unk := 0;
     dsp_major := 0; dsp_minor := 0; dsp_patch := 0; dsp_type := 0 |}.

(** A session as [switch2_get_controller] creates it with [kzalloc]. *)
Definition zero_controller : switch2_controller :=
  {| hdev := false; cfg := false; ctlr_type := 0; init_step := 0;
     input := false; serial := repeat 0 17; version := zero_version;
     stick_calib := (zero_stick, zero_stick); lt_zero := 0; rt_zero := 0;
     player_id := 0; rumble_seq := 0;
     rumble := {| storage := 0 |};
     last_rumble_work := 0; rumble_work := None |}.

(** Field assignments. *)
Definition set_init_step (ns2 : switch2_controller) (v : Z) :=
  {| hdev := hdev ns2; cfg := cfg ns2; ctlr_type := ctlr_type ns2;
     init_step := v; input := input ns2; serial := serial ns2;
     version := version ns2; stick_calib := stick_calib ns2;
     lt_zero := lt_zero ns2; rt_zero := rt_zero ns2;
     player_id := player_id ns2; rumble_seq := rumble_seq ns2;
     rumble := rumble ns2; last_rumble_work := last_rumble_work ns2;
     rumble_work := rumble_work ns2 |}.

Definition set_input (ns2 : switch2_controller) (v : bool) :=
  {| hdev := hdev ns2; cfg := cfg ns2; ctlr_type := ctlr_type ns2;
     init_step := init_step ns2; input := v; serial := serial ns2;
     version := version ns2; stick_calib := stick_calib ns2;
     lt_zero := lt_zero ns2; rt_zero := rt_zero ns2;
     player_id := player_id ns2; rumble_seq := rumble_seq ns2;
     rumble := rumble ns2; last_rumble_work := last_rumble_work ns2;
     rumble_work := rumble_work ns2 |}.

Definition set_serial (ns2 : switch2_controller) (v : list Z) :=
  {| hdev := hdev ns2; cfg := cfg ns2; ctlr_type := ctlr_type ns2;
     init_step := init_step ns2; input := input ns2; serial := v;
     version := version ns2; stick_calib := stick_calib ns2;
     lt_zero := lt_zero ns2; rt_zero := rt_zero ns2;
     player_id := player_id ns2; rumble_seq := rumble_seq ns2;
     rumble := rumble ns2; last_rumble_work := last_rumble_work ns2;
     rumble_work := rumble_work ns2 |}.

(** [memcpy(&ns2->version, ...)] followed by
    [ns2->ctlr_type = ns2->version.ctlr_type]. *)
Definition set_version (ns2 : switch2_controller) (v : switch2_version_info) :=
  {| hdev := hdev ns2; cfg := cfg ns2; ctlr_type := version_ctlr_type v;
     init_step := init_step ns2; input := input ns2; serial := serial ns2;
     version := v; stick_calib := stick_calib ns2;
     lt_zero := lt_zero ns2; rt_zero := rt_zero ns2;
     player_id := player_id ns2; rumble_seq := rumble_seq ns2;
     rumble := rumble ns2; last_rumble_work := last_rumble_work ns2;
     rumble_work := rumble_work ns2 |}.

Definition set_stick_calibs (ns2 : switch2_controller)
    (v : switch2_stick_calibration * switch2_stick_calibration) :=
  {| hdev := hdev ns2; cfg := cfg ns2; ctlr_type := ctlr_type ns2;
     init_step := init_step ns2; input := input ns2; serial := serial ns2;
     version := version ns2; stick_calib := v;
     lt_zero := lt_zero ns2; rt_zero := rt_zero ns2;
     player_id := player_id ns2; rumble_seq := rumble_seq ns2;
     rumble := rumble ns2; last_rumble_work := last_rumble_work ns2;
     rumble_work := rumble_work ns2 |}.

Definition set_trigger_zero (ns2 : switch2_controller) (lt rt : Z) :=
  {| hdev := hdev ns2; cfg := cfg ns2; ctlr_type := ctlr_type ns2;
     init_step := init_step ns2; input := input ns2; serial := serial ns2;
     version := version ns2; stick_calib := stick_calib ns2;
     lt_zero := lt; rt_zero := rt;
     player_id := player_id ns2; rumble_seq := rumble_seq ns2;
     rumble := rumble ns2; last_rumble_work := last_rumble_work ns2;
     rumble_work := rumble_work ns2 |}.

(** The rumble sub-state, the part guarded by [rumble_lock]. *)
Definition set_rumble_state (ns2 : switch2_controller) (seq : Z)
    (r : switch2_rumble) (last : Z) (work : option Z) :=
  {| hdev := hdev ns2; cfg := cfg ns2; ctlr_type := ctlr_type ns2;
     init_step := init_step ns2; input := input ns2; serial := serial ns2;
     version := version ns2; stick_calib := stick_calib ns2;
     lt_zero := lt_zero ns2; rt_zero := rt_zero ns2;
     player_id := player_id ns2; rumble_seq := seq;
     rumble := r; last_rumble_work := last; rumble_work := work |}.

(** [ns2->stick_calib[i]] and the assignment to it. *)
Definition stick_calib_at (ns2 : switch2_controller) (i : nat) :=
  match i with
  | O => fst (stick_calib ns2)
  | _ => snd (stick_calib ns2)
  end.

Definition set_stick_calib (ns2 : switch2_controller) (i : nat)
    (c : switch2_stick_calibration) :=
  match i with
  | O => set_stick_calibs ns2 (c, snd (stick_calib ns2))
  | _ => set_stick_calibs ns2 (fst (stick_calib ns2), c)
  end.

(** The stick branch shared by the four calibration addresses: parse into
    [stick_calib[i]]; the result of the parse only selects a debug message. *)
Definition parse_into (ns2 : switch2_controller) (i : nat) (data : list Z) :=
  set_stick_calib ns2 i
    (snd (switch2_parse_stick_calibration (stick_calib_at ns2 i) data)).

(** [switch2_handle_flash_read(ns2, size, address, data)] *)
Definition switch2_handle_flash_read (ns2 : switch2_controller)
    (size address : Z) (data : list Z) : switch2_controller :=
  if address =? NS2_FLASH_ADDR_SERIAL then
    if negb (size =? NS2_FLASH_SIZE_SERIAL) then ns2
    else set_serial ns2 (memcpy (serial ns2) data (Z.to_nat size))
  else if address =? NS2_FLASH_ADDR_FACTORY_PRIMARY_CALIB then
    if negb (size =? NS2_FLASH_SIZE_FACTORY_AXIS_CALIB) then ns2
    else parse_into ns2 0 data
  else if address =? NS2_FLASH_ADDR_FACTORY_SECONDARY_CALIB then
    if negb (size =? NS2_FLASH_SIZE_FACTORY_AXIS_CALIB) then ns2
    else parse_into ns2 1 data
  else if address =? NS2_FLASH_ADDR_FACTORY_TRIGGER_CALIB then
    if negb (size =? NS2_FLASH_SIZE_FACTORY_TRIGGER_CALIB) then ns2
    else if negb (byte_at data 0 =? 0xFF) && negb (byte_at data 1 =? 0xFF)
         then set_trigger_zero ns2 (byte_at data 0) (byte_at data 1)
         else ns2
  else if address =? NS2_FLASH_ADDR_USER_PRIMARY_CALIB then
    if negb (size =? NS2_FLASH_SIZE_USER_AXIS_CALIB) then ns2
    else if negb (le16 data =? NS2_USER_CALIB_MAGIC) then ns2
         else parse_into ns2 0 (skipn 2 data)
  else if address =? NS2_FLASH_ADDR_USER_SECONDARY_CALIB then
    if negb (size =? NS2_FLASH_SIZE_USER_AXIS_CALIB) then ns2
    else if negb (le16 data =? NS2_USER_CALIB_MAGIC) then ns2
         else parse_into ns2 1 (skipn 2 data)
  else ns2.

(** ** The command path *)

(** A command handed to [cfg->send_command]: command id, subcommand id and
    message bytes. *)
Record command := {
  cmd : Z;
  subcmd : Z;
  payload : list Z
}.

(** What the collaborators answer during one call: the return value of
    [cfg->send_command] for a command, and the outcomes of the input-layer
    calls made by [switch2_init_input]. *)
Record environment := {
  send_command : Z -> Z -> list Z -> Z;
  input_allocate_device : bool;
  input_ff_create_memless : Z;
  input_register_device : Z
}.

Definition switch2_init_cmd_data : list Z :=
  [0x01; 0x00; 0xFF; 0xFF; 0xFF; 0xFF; 0xFF; 0xFF].
Definition switch2_one_data : list Z := [0x01; 0x00; 0x00; 0x00].
Definition switch2_zero_data : list Z := [0x00; 0x00; 0x00; 0x00].
Definition switch2_player_pattern : list Z :=
  [0x1; 0x3; 0x7; 0xf; 0x9; 0x5; 0xd; 0x6].
Definition switch2_feature_mask : list Z :=
  [Z.lor (Z.lor NS2_FEATURE_BUTTONS NS2_FEATURE_ANALOG)
         (Z.lor NS2_FEATURE_IMU NS2_FEATURE_RUMBLE); 0x00; 0x00; 0x00].

(** The result of a function of the command path: return value, session
    afterwards, commands sent. *)
Definition outcome : Type := Z * switch2_controller * list command.

Definition ret_of (o : outcome) : Z := fst (fst o).
Definition state_of (o : outcome) : switch2_controller := snd (fst o).
Definition sent_of (o : outcome) : list command := snd o.

Section CommandPath.

Variable env : environment.

(** [ns2->cfg->send_command(command, subcommand, message, length, ns2->cfg)] *)
Definition send (ns2 : switch2_controller) (c sc : Z) (message : list Z)
  : outcome :=
  (send_command env c sc message, ns2,
   [{| cmd := c; subcmd := sc; payload := message |}]).

Definition switch2_features_enable (ns2 : switch2_controller) (features : Z)
  : outcome :=
  if negb (cfg ns2) then (- ENOTCONN, ns2, [])
  else send ns2 NS2_CMD_FEATSEL NS2_SUBCMD_FEATSEL_ENABLE (cpu_to_le32 features).

Definition switch2_read_flash (ns2 : switch2_controller) (address size : Z)
  : outcome :=
  let message := [size; 0x7e; 0; 0] ++ cpu_to_le32 address in
  if negb (cfg ns2) then (- ENOTCONN, ns2, [])
  else send ns2 NS2_CMD_FLASH NS2_SUBCMD_FLASH_READ message.

Definition switch2_set_player_id (ns2 : switch2_controller) (id : Z)
  : outcome :=
  let id := u32 id mod NS2_MAX_PLAYER_ID in
  let message := [byte_at switch2_player_pattern (Z.to_nat id);
                  0; 0; 0; 0; 0; 0; 0] in
  if negb (cfg ns2) then (- ENOTCONN, ns2, [])
  else send ns2 NS2_CMD_LED NS2_SUBCMD_LED_PATTERN message.

Definition known_ctlr_type (type : Z) : bool :=
  (type =? NS2_CTLR_TYPE_JCL) || (type =? NS2_CTLR_TYPE_JCR)
  || (type =? NS2_CTLR_TYPE_GC) || (type =? NS2_CTLR_TYPE_PRO).

(** [switch2_init_input(ns2)]: the capabilities set on the new input device
    are left out; what the session keeps is whether a device is attached. *)
Definition switch2_init_input (ns2 : switch2_controller) : outcome :=
  if input ns2 then (0, ns2, [])
  else if negb (input_allocate_device env) then (- ENOMEM, ns2, [])
  else if negb (known_ctlr_type (ctlr_type ns2)) then (- EINVAL, ns2, [])
  else if negb (input_ff_create_memless env =? 0)
       then (input_ff_create_memless env, ns2, [])
  else (input_register_device env, set_input ns2 true, []).

(** One pass through the [switch] of [switch2_init_controller]: either the
    function returns, or the [switch] is left and the loop goes on. *)
Inductive step_result :=
| Return (o : outcome)
| Break (ns2 : switch2_controller).

Definition init_step_action (ns2 : switch2_controller) : step_result :=
  let st := init_step ns2 in
  if st =? NS2_INIT_READ_SERIAL then
    Return (switch2_read_flash ns2 NS2_FLASH_ADDR_SERIAL NS2_FLASH_SIZE_SERIAL)
  else if st =? NS2_INIT_GET_FIRMWARE_INFO then
    Return (send ns2 NS2_CMD_FW_INFO NS2_SUBCMD_FW_INFO_GET [])
  else if st =? NS2_INIT_READ_FACTORY_PRIMARY_CALIB then
    Return (switch2_read_flash ns2 NS2_FLASH_ADDR_FACTORY_PRIMARY_CALIB
              NS2_FLASH_SIZE_FACTORY_AXIS_CALIB)
  else if st =? NS2_INIT_READ_FACTORY_SECONDARY_CALIB then
    if switch2_ctlr_is_joycon (ctlr_type ns2) then Break ns2
    else Return (switch2_read_flash ns2 NS2_FLASH_ADDR_FACTORY_SECONDARY_CALIB
                   NS2_FLASH_SIZE_FACTORY_AXIS_CALIB)
  else if st =? NS2_INIT_READ_FACTORY_TRIGGER_CALIB then
    if negb (ctlr_type ns2 =? NS2_CTLR_TYPE_GC) then Break ns2
    else Return (switch2_read_flash ns2 NS2_FLASH_ADDR_FACTORY_TRIGGER_CALIB
                   NS2_FLASH_SIZE_FACTORY_TRIGGER_CALIB)
  else if st =? NS2_INIT_READ_USER_PRIMARY_CALIB then
    Return (switch2_read_flash ns2 NS2_FLASH_ADDR_USER_PRIMARY_CALIB
              NS2_FLASH_SIZE_USER_AXIS_CALIB)
  else if st =? NS2_INIT_READ_USER_SECONDARY_CALIB then
    if switch2_ctlr_is_joycon (ctlr_type ns2) then Break ns2
    else Return (switch2_read_flash ns2 NS2_FLASH_ADDR_USER_SECONDARY_CALIB
                   NS2_FLASH_SIZE_USER_AXIS_CALIB)
  else if st =? NS2_INIT_SET_FEATURE_MASK then
    Return (send ns2 NS2_CMD_FEATSEL NS2_SUBCMD_FEATSEL_SET_MASK
              switch2_feature_mask)
  else if st =? NS2_INIT_ENABLE_FEATURES then
    Return (switch2_features_enable ns2
              (Z.lor (Z.lor NS2_FEATURE_BUTTONS NS2_FEATURE_ANALOG)
                     NS2_FEATURE_RUMBLE))
  else if st =? NS2_INIT_ENABLE_RUMBLE then
    Return (send ns2 NS2_CMD_NFC 1 switch2_zero_data)
  else if st =? NS2_INIT_GRIP_BUTTONS then
    if negb (switch2_ctlr_is_joycon (ctlr_type ns2)) then Break ns2
    else Return (send ns2 NS2_CMD_GRIP NS2_SUBCMD_GRIP_ENABLE_BUTTONS
                   switch2_one_data)
  else if st =? NS2_INIT_SET_PLAYER_LEDS then
    Return (switch2_set_player_id ns2 (player_id ns2))
  else if st =? NS2_INIT_INPUT then
    Return (send ns2 NS2_CMD_INIT NS2_SUBCMD_INIT_USB switch2_init_cmd_data)
  else if st =? NS2_INIT_DONE then
    if hdev ns2 then Return (switch2_init_input ns2) else Break ns2
  else Break ns2.

(** The [while (ns2->init_step < NS2_INIT_DONE)] loop.  [n] is the number of
    steps left, [NS2_INIT_DONE - init_step]: the condition holds exactly
    when it is not zero, and each pass increments [init_step]. *)
Fixpoint init_loop (n : nat) (ns2 : switch2_controller) : outcome :=
  match n with
  | O => (0, ns2, [])
  | S n' =>
      let ns2 := set_init_step ns2 (init_step ns2 + 1) in
      match init_step_action ns2 with
      | Return o => o
      | Break ns2 => init_loop n' ns2
      end
  end.

Definition switch2_init_controller (ns2 : switch2_controller) : outcome :=
  if init_step ns2 =? NS2_INIT_DONE then (0, ns2, [])
  else if negb (cfg ns2) then (- ENOTCONN, ns2, [])
  else init_loop (Z.to_nat (NS2_INIT_DONE - init_step ns2)) ns2.

(** [memcpy(&ns2->version, message, sizeof(ns2->version))] reads the twelve
    bytes at [message]. *)
Definition read_version (message : list Z) : switch2_version_info :=
  {| major := byte_at message 0;
     minor := byte_at message 1;
     patch := byte_at message 2;
     version_ctlr_type := byte_at message 3;
     unk := le32 (skipn 4 message);
     dsp_major := s8 (byte_at message 8);
     dsp_minor := s8 (byte_at message 9);
     dsp_patch := s8 (byte_at message 10);
     dsp_type := s8 (byte_at message 11) |}.

(** [switch2_receive_command(ns2, message, length)].  [message] is the
    receive buffer the frame was delivered in and [length] the number of
    bytes received into it. *)
Definition switch2_receive_command (ns2 : switch2_controller)
    (message : list Z) (length : Z) : outcome :=
  if length <? 8 then (- EINVAL, ns2, [])
  else
    let kick :=
      if init_step ns2 <? NS2_INIT_DONE then switch2_init_controller ns2
      else (0, ns2, []) in
    let ns2 := state_of kick in
    let sent := sent_of kick in
    let command := byte_at message 0 in
    let subcommand := byte_at message 3 in
    let message := skipn 8 message in
    if command =? NS2_CMD_FLASH then
      if subcommand =? NS2_SUBCMD_FLASH_READ then
        if length <? 16 then (- EINVAL, ns2, sent)
        else
          let read_size := byte_at message 0 in
          let read_address := le32 (skipn 4 message) in
          if length <? read_size + 16 then (- EINVAL, ns2, sent)
          else (0, switch2_handle_flash_read ns2 read_size read_address
                     (skipn 8 message), sent)
      else (0, ns2, sent)
    else if command =? NS2_CMD_FW_INFO then
      if subcommand =? NS2_SUBCMD_FW_INFO_GET then
        if length <? sizeof_version then (- EINVAL, ns2, sent)
        else (0, set_version ns2 (read_version message), sent)
      else (0, ns2, sent)
    else (0, ns2, sent).

End CommandPath.

(** ** Report transforms *)

(** An [input_report_abs(input, code, value)] call. *)
Record abs_event := {
  abs_code : Z;
  abs_value : Z
}.

Definition ABS_X : Z := 0x00.
Definition ABS_Y : Z := 0x01.
Definition ABS_Z : Z := 0x02.
Definition ABS_RX : Z := 0x03.
Definition ABS_RY : Z := 0x04.
Definition ABS_RZ : Z := 0x05.

Definition calibrated (calib : switch2_axis_calibration) : bool :=
  truthy (neutral calib) && truthy (negative calib) && truthy (positive calib).

(** [switch2_report_axis(input, calib, axis, value, negate)]; [calib] is a
    pointer that may be null. *)
Definition switch2_report_axis (calib : option switch2_axis_calibration)
    (axis value : Z) (negate : bool) : abs_event :=
  let value :=
    match calib with
    | Some c =>
        if calibrated c then
          let value := int (value - neutral c) in
          let value := int (value * (NS2_AXIS_MAX + 1)) in
          if value <? 0 then int (Z.quot value (negative c))
          else int (Z.quot value (positive c))
        else int (int (value - 2048) * 16)
    | None => int (int (value - 2048) * 16)
    end in
  let value := if negate then int (- value) else value in
  {| abs_code := axis; abs_value := clamp value NS2_AXIS_MIN NS2_AXIS_MAX |}.

(** The two raw samples packed in the three stick bytes of a report. *)
Definition stick_raw_x (data : list Z) : Z :=
  Z.lor (byte_at data 0) (Z.shiftl (Z.land (byte_at data 1) 0x0F) 8).

Definition stick_raw_y (data : list Z) : Z :=
  Z.lor (Z.shiftr (byte_at data 1) 4) (Z.shiftl (byte_at data 2) 4).

(** [switch2_report_stick(input, calib, x, y, data)] *)
Definition switch2_report_stick (calib : switch2_stick_calibration)
    (x_code y_code : Z) (data : list Z) : list abs_event :=
  [switch2_report_axis (Some (x calib)) x_code (stick_raw_x data) false;
   switch2_report_axis (Some (y calib)) y_code (stick_raw_y data) true].

(** [switch2_report_trigger(input, zero, abs, data)].  The division is an
    [int] division; with a zero divisor the function does not return a
    value (the processor raises a divide error), which is [None]. *)
Definition switch2_report_trigger (zero abs data : Z) : option abs_event :=
  let divisor := 232 - zero in
  if divisor =? 0 then None
  else
    let value := int (Z.quot (int ((NS2_TRIGGER_RANGE + 1) * (data - zero)))
                             divisor) in
    Some {| abs_code := abs; abs_value := clamp value 0 NS2_TRIGGER_RANGE |}.

(** ** Rumble encoder *)

Definition FF_RUMBLE : Z := 0x50.

Record ff_effect := {
  effect_type : Z;
  strong_magnitude : Z;
  weak_magnitude : Z
}.

(** [buffer[i] = v] on a byte buffer. *)
Fixpoint store (buffer : list Z) (i : nat) (v : Z) : list Z :=
  match buffer, i with
  | [], _ => []
  | _ :: rest, O => u8 v :: rest
  | b :: rest, S i' => b :: store rest i' v
  end.

(** [switch2_encode_rumble(rumble, &buffer[off])] *)
Definition switch2_encode_rumble (r : switch2_hd_rumble) (buffer : list Z)
    (off : nat) : list Z :=
  let buffer := store buffer off (hi_freq r) in
  let buffer := store buffer (off + 1)
                  (Z.lor (Z.shiftr (hi_freq r) 8) (Z.shiftl (hi_amp r) 2)) in
  let buffer := store buffer (off + 2)
                  (Z.lor (Z.shiftr (hi_amp r) 6) (Z.shiftl (lo_freq r) 4)) in
  let buffer := store buffer (off + 3)
                  (Z.lor (Z.shiftr (lo_freq r) 4) (Z.shiftl (lo_amp r) 6)) in
  store buffer (off + 4) (Z.shiftr (lo_amp r) 2).

(** [schedule_delayed_work(&ns2->rumble_work, delay)] queues the work unless
    it is pending already; [cancel_delayed_work] removes it. *)
Definition schedule_delayed_work (work : option Z) (delay : Z) : option Z :=
  match work with
  | Some d => Some d
  | None => Some delay
  end.

(** [switch2_play_effect(dev, data, effect)] *)
Definition switch2_play_effect (ns2 : switch2_controller) (effect : ff_effect)
  : Z * switch2_controller :=
  if negb (effect_type effect =? FF_RUMBLE) then (0, ns2)
  else
    let r := rumble ns2 in
    let r :=
      if ctlr_type ns2 =? NS2_CTLR_TYPE_GC then
        set_amplitude r (Z.max (strong_magnitude effect)
                           (Z.shiftr (weak_magnitude effect) 1))
      else
        let r := set_hi_amp r
                   (Z.shiftr (u32 (weak_magnitude effect * RUMBLE_MAX)) 16) in
        set_lo_amp r
          (Z.shiftr (u32 (strong_magnitude effect * RUMBLE_MAX)) 16) in
    (0, set_rumble_state ns2 (rumble_seq ns2) r (last_rumble_work ns2)
          (schedule_delayed_work (rumble_work ns2) 0)).

Section RumbleWork.

(** [msecs_to_jiffies(4)], which depends on the kernel's HZ. *)
Variable interval : Z.

(** The body of [switch2_rumble_work].  [buffer_ok] tells whether the
    64-byte packet buffer could be allocated and [current_ms] is the time
    read at entry.  The result is the session afterwards and the output
    reports handed to [hid_hw_output_report]. *)
Definition switch2_rumble_work (buffer_ok : bool) (current_ms : Z)
    (ns2 : switch2_controller) : switch2_controller * list (list Z) :=
  if negb buffer_ok then (ns2, [])
  else
    let buffer := repeat 0 64 in
    let buffer := store buffer 0x1 (Z.lor 0x50 (rumble_seq ns2)) in
    let r := rumble ns2 in
    let '(buffer, r, active) :=
      if ctlr_type ns2 =? NS2_CTLR_TYPE_GC then
        let buffer := store buffer 0 3 in
        if amplitude (sd r) =? 0 then
          (store buffer 2 GC_RUMBLE_STOP, set_error r 0, false)
        else if error (sd r) <? amplitude (sd r) then
          (store buffer 2 GC_RUMBLE_ON,
           set_error r (error (sd r) + (U16_MAX - amplitude (sd r))),
           true)
        else
          (store buffer 2 GC_RUMBLE_OFF,
           set_error r (error (sd r) - amplitude (sd r)),
           true)
      else
        let buffer := store buffer 0 1 in
        let buffer := switch2_encode_rumble (hd r) buffer 0x2 in
        let active := truthy (hi_amp (hd r)) || truthy (lo_amp (hd r)) in
        if ctlr_type ns2 =? NS2_CTLR_TYPE_PRO then
          let buffer := store buffer 0 2 in
          let buffer := store buffer 0x11 (Z.lor 0x50 (rumble_seq ns2)) in
          (switch2_encode_rumble (hd r) buffer 0x12, r, active)
        else (buffer, r, active) in
    let seq := u8 (Z.land (rumble_seq ns2 + 1) 0xF) in
    let '(last, work) :=
      if active then
        let last := if last_rumble_work ns2 =? 0 then ulong current_ms
                    else ulong (last_rumble_work ns2 + interval) in
        (last, schedule_delayed_work (rumble_work ns2)
                 (ulong (last + interval - current_ms)))
      else (0, rumble_work ns2) in
    if negb (hdev ns2) then (set_rumble_state ns2 seq r last None, [])
    else (set_rumble_state ns2 seq r last work, [buffer]).

(** The workqueue runs the work only when it is pending, and the work stops
    being pending when its function starts. *)
Definition run_rumble_work (buffer_ok : bool) (current_ms : Z)
    (ns2 : switch2_controller) : switch2_controller * list (list Z) :=
  match rumble_work ns2 with
  | None => (ns2, [])
  | Some _ =>
      switch2_rumble_work buffer_ok current_ms
        (set_rumble_state ns2 (rumble_seq ns2) (rumble ns2)
           (last_rumble_work ns2) None)
  end.

(** Events on the rumble encoder: a force-feedback request, or the timer of
    the delayed work firing. *)
Inductive rumble_event :=
| SetIntensity (effect : ff_effect)
| Tick (buffer_ok : bool) (current_ms : Z).

Definition rumble_step (ns2 : switch2_controller) (ev : rumble_event)
  : switch2_controller * list (list Z) :=
  match ev with
  | SetIntensity effect => (snd (switch2_play_effect ns2 effect), [])
  | Tick buffer_ok current_ms => run_rumble_work buffer_ok current_ms ns2
  end.

(** Running a list of events, collecting the reports emitted. *)
Fixpoint rumble_run (ns2 : switch2_controller) (evs : list rumble_event)
  : switch2_controller * list (list Z) :=
  match evs with
  | [] => (ns2, [])
  | ev :: evs' =>
      let '(ns2', out) := rumble_step ns2 ev in
      let '(ns2'', out') := rumble_run ns2' evs' in
      (ns2'', out ++ out')
  end.

End RumbleWork.

(** ** Attaching and detaching the two paths *)

Definition set_hdev (ns2 : switch2_controller) (v : bool) :=
  {| hdev := v; cfg := cfg ns2; ctlr_type := ctlr_type ns2;
     init_step := init_step ns2; input := input ns2; serial := serial ns2;
     version := version ns2; stick_calib := stick_calib ns2;
     lt_zero := lt_zero ns2; rt_zero := rt_zero ns2;
     player_id := player_id ns2; rumble_seq := rumble_seq ns2;
     rumble := rumble ns2; last_rumble_work := last_rumble_work ns2;
     rumble_work := rumble_work ns2 |}.

Definition set_cfg (ns2 : switch2_controller) (v : bool) :=
  {| hdev := hdev ns2; cfg := v; ctlr_type := ctlr_type ns2;
     init_step := init_step ns2; input := input ns2; serial := serial ns2;
     version := version ns2; stick_calib := stick_calib ns2;
     lt_zero := lt_zero ns2; rt_zero := rt_zero ns2;
     player_id := player_id ns2; rumble_seq := rumble_seq ns2;
     rumble := rumble ns2; last_rumble_work := last_rumble_work ns2;
     rumble_work := rumble_work ns2 |}.

Definition set_player_id (ns2 : switch2_controller) (v : Z) :=
  {| hdev := hdev ns2; cfg := cfg ns2; ctlr_type := ctlr_type ns2;
     init_step := init_step ns2; input := input ns2; serial := serial ns2;
     version := version ns2; stick_calib := stick_calib ns2;
     lt_zero := lt_zero ns2; rt_zero := rt_zero ns2;
     player_id := v; rumble_seq := rumble_seq ns2;
     rumble := rumble ns2; last_rumble_work := last_rumble_work ns2;
     rumble_work := rumble_work ns2 |}.

(** The part of [switch2_probe] that runs once the session is found.
    [ida] is the player id handed out by the allocator, if any. *)
Definition switch2_probe (env : environment) (ida : option Z)
    (ns2 : switch2_controller) : outcome :=
  let ns2 := set_hdev ns2 true in
  let ns2 := set_player_id ns2 (match ida with Some id => id | None => U32_MAX end) in
  let r := rumble ns2 in
  let r :=
    if negb (ctlr_type ns2 =? NS2_CTLR_TYPE_GC) then
      set_lo_freq (set_hi_freq r RUMBLE_HI_FREQ) RUMBLE_LO_FREQ
    else r in
  let ns2 := set_rumble_state ns2 (rumble_seq ns2) r (last_rumble_work ns2) None in
  if cfg ns2 then switch2_init_controller env ns2 else (0, ns2, []).

(** The part of [switch2_usb_probe] that runs once the session is found. *)
Definition switch2_usb_probe (env : environment) (ns2 : switch2_controller)
  : outcome :=
  let ns2 := set_cfg ns2 true in
  if hdev ns2 then switch2_init_controller env ns2 else (0, ns2, []).

(** The states in which the driver calls [switch2_init_controller]:
    [switch2_probe] and [switch2_usb_probe] call it with both handles
    bound, [switch2_receive_command] while [init_step] is below
    NS2_INIT_DONE. *)
Inductive init_called : switch2_controller -> Prop :=
| called_by_probe ns2 :
    hdev ns2 = true -> cfg ns2 = true -> init_called ns2
| called_by_receive_command ns2 :
    init_step ns2 < NS2_INIT_DONE -> init_called ns2.

(** [switch2_controller_put(ns2)]: [None] when the session is freed. *)
Definition switch2_controller_put (ns2 : switch2_controller)
  : option switch2_controller :=
  let ns2 := set_input ns2 false in
  let ns2 := set_init_step ns2 0 in
  if hdev ns2 || cfg ns2 then Some ns2 else None.

(** [switch2_remove] and [switch2_usb_disconnect] clear their handle
    under [ns2->lock], release the lock and then call
    [switch2_controller_put]: the state in between is visible to the other
    entry points. *)
Definition unbind_hdev (ns2 : switch2_controller) : switch2_controller :=
  let ns2 := set_rumble_state ns2 (rumble_seq ns2) (rumble ns2)
               (last_rumble_work ns2) None in
  set_hdev ns2 false.

Definition unbind_cfg (ns2 : switch2_controller) : switch2_controller :=
  set_cfg ns2 false.

Definition switch2_remove (ns2 : switch2_controller)
  : option switch2_controller :=
  switch2_controller_put (unbind_hdev ns2).

Definition switch2_usb_disconnect (ns2 : switch2_controller)
  : option switch2_controller :=
  switch2_controller_put (unbind_cfg ns2).

(** A frame as the transport delivers it: a 64-byte receive buffer
    (NS2_BULK_SIZE) of which the first [length] bytes were received. *)
Definition delivered (message : list Z) (length : Z) : Prop :=
  List.length message = 64%nat /\ Forall is_byte message /\ 0 <= length <= 64.

(** Session states that the driver's entry points can produce, one entry
    point at a time: the two probes, the two halves of a removal (the
    handle is cleared; later [switch2_controller_put] runs), a received
    frame, a force-feedback request, which needs the input device, and a
    run of the rumble work. *)
Inductive reachable : switch2_controller -> Prop :=
| reach_new : reachable zero_controller
| reach_probe env ida ns2 :
    reachable ns2 -> reachable (state_of (switch2_probe env ida ns2))
| reach_usb_probe env ns2 :
    reachable ns2 -> reachable (state_of (switch2_usb_probe env ns2))
| reach_unbind_hdev ns2 :
    reachable ns2 -> reachable (unbind_hdev ns2)
| reach_unbind_cfg ns2 :
    reachable ns2 -> reachable (unbind_cfg ns2)
| reach_put ns2 ns2' :
    reachable ns2 -> hdev ns2 = false \/ cfg ns2 = false ->
    switch2_controller_put ns2 = Some ns2' -> reachable ns2'
| reach_receive env ns2 message length :
    reachable ns2 -> delivered message length ->
    reachable (state_of (switch2_receive_command env ns2 message length))
| reach_play_effect ns2 effect :
    reachable ns2 -> input ns2 = true ->
    reachable (snd (switch2_play_effect ns2 effect))
| reach_rumble_work interval buffer_ok current_ms ns2 :
    reachable ns2 ->
    reachable (fst (run_rumble_work interval buffer_ok current_ms ns2)).

(** ** Definitions used to state the properties *)

(** The two 12-bit values [a], [b] laid out in three bytes, the layout
    [switch2_parse_stick_calibration] reads back: the round trip of the
    specification synthesizes a block with it. *)
Definition pack_pair (a b : Z) : list Z :=
  [Z.land a 0xFF;
   Z.lor (Z.shiftr a 8) (Z.shiftl (Z.land b 0x0F) 4);
   Z.shiftr b 4].

Definition synthesize_stick_block (c : switch2_stick_calibration) : list Z :=
  pack_pair (neutral (x c)) (neutral (y c))
  ++ pack_pair (positive (x c)) (positive (y c))
  ++ pack_pair (negative (x c)) (negative (y c)).

Definition is_12bit (v : Z) : Prop := 0 <= v < 4096.

Definition axis_12bit (a : switch2_axis_calibration) : Prop :=
  is_12bit (neutral a) /\ is_12bit (negative a) /\ is_12bit (positive a).

Definition stick_12bit (c : switch2_stick_calibration) : Prop :=
  axis_12bit (x c) /\ axis_12bit (y c).

Definition is_u16 (v : Z) : Prop := 0 <= v <= 65535.

Definition axis_u16 (a : switch2_axis_calibration) : Prop :=
  is_u16 (neutral a) /\ is_u16 (negative a) /\ is_u16 (positive a).

(** An axis calibration with some but not all of its three values zero. *)
Definition partial (a : switch2_axis_calibration) : bool :=
  negb (calibrated a)
  && negb ((neutral a =? 0) && (negative a =? 0) && (positive a =? 0)).

(** The normalization of the specification, on unbounded integers. *)
Definition normalize (calib : switch2_axis_calibration) (raw : Z) : Z :=
  if calibrated calib then
    let v := (raw - neutral calib) * (NS2_AXIS_MAX + 1) in
    if v <? 0 then Z.quot v (negative calib) else Z.quot v (positive calib)
  else (raw - 2048) * 16.

Definition flip (negate : bool) (v : Z) : Z := if negate then - v else v.


Definition is_tick (ev : rumble_event) : Prop :=
  match ev with
  | Tick _ _ => True
  | SetIntensity _ => False
  end.

(** An environment in which every call succeeds. *)
Definition env_ok : environment :=
  {| send_command := fun _ _ _ => 0;
     input_allocate_device := true;
     input_ff_create_memless := 0;
     input_register_device := 0 |}.

(** Repeated calls of [switch2_init_controller], each in the environment of
    its time. *)
Fixpoint init_calls (envs : list environment) (ns2 : switch2_controller)
  : switch2_controller :=
  match envs with
  | [] => ns2
  | env :: envs' => init_calls envs' (state_of (switch2_init_controller env ns2))
  end.

(** The six values of a nine-byte block, by arithmetic on its bytes: in each
    group of three bytes the first value is the first byte plus the low
    nibble of the second as bits 8..11, the second value is the high nibble
    of the second byte plus the third byte as bits 4..11. *)
Definition lo12 (data : list Z) (i : nat) : Z :=
  byte_at data i + 256 * (byte_at data (i + 1) mod 16).

Definition hi12 (data : list Z) (i : nat) : Z :=
  byte_at data (i + 1) / 16 + 16 * byte_at data (i + 2).

Definition decoded (data : list Z) : switch2_stick_calibration :=
  {| x := {| neutral := lo12 data 0; negative := lo12 data 6;
             positive := lo12 data 3 |};
     y := {| neutral := hi12 data 0; negative := hi12 data 6;
             positive := hi12 data 3 |} |}.

(** The calibration all of whose six values are 0xFFF. *)
Definition all_ones_stick : switch2_stick_calibration :=
  {| x := {| neutral := 0xFFF; negative := 0xFFF; positive := 0xFFF |};
     y := {| neutral := 0xFFF; negative := 0xFFF; positive := 0xFFF |} |}.

(** A calibration block as the specification's scenario has it, and a
    calibration of six different values. *)
Definition sample_block : list Z :=
  [0x00; 0x08; 0x00; 0x00; 0x08; 0x00; 0x00; 0x08; 0x00].

Definition sample_stick : switch2_stick_calibration :=
  {| x := {| neutral := 2048; negative := 1500; positive := 1400 |};
     y := {| neutral := 2000; negative := 1300; positive := 1200 |} |}.

(** The flash addresses of the calibration of stick [i]. *)
Definition factory_calib_address (i : nat) : Z :=
  match i with
  | O => NS2_FLASH_ADDR_FACTORY_PRIMARY_CALIB
  | _ => NS2_FLASH_ADDR_FACTORY_SECONDARY_CALIB
  end.

Definition user_calib_address (i : nat) : Z :=
  match i with
  | O => NS2_FLASH_ADDR_USER_PRIMARY_CALIB
  | _ => NS2_FLASH_ADDR_USER_SECONDARY_CALIB
  end.

(** A user calibration block with the magic in front of [sample_block], and
    one without it. *)
Definition sample_user_block : list Z := [0xb2; 0xa1] ++ sample_block.
Definition sample_unmarked_block : list Z := [0x00; 0x00] ++ sample_block.

(** The update of the accumulated error on unbounded integers. *)
Definition diffuse (e a : Z) : Z :=
  if a =? 0 then 0
  else if e <? a then e + (U16_MAX - a)
  else e - a.

(** What stays true of a GameCube rumble state. *)
Definition gc_invariant (ns2 : switch2_controller) : Prop :=
  ctlr_type ns2 = NS2_CTLR_TYPE_GC
  /\ 0 <= error (sd (rumble ns2)) <= 65534
  /\ is_u16 (amplitude (sd (rumble ns2))).

(** ** Sample frames and sessions *)

(** A 64-byte receive buffer that holds [bytes] followed by [fill]. *)
Definition in_buffer (bytes : list Z) (fill : Z) : list Z :=
  bytes ++ repeat fill (64 - List.length bytes).

(** A reply to a flash read of [size] bytes at [address] carrying [data]:
    the 8-byte header, the size, three bytes, the address, the data. *)
Definition flash_reply (size address : Z) (data : list Z) : list Z :=
  [NS2_CMD_FLASH; 0x01; 0x00; NS2_SUBCMD_FLASH_READ; 0x00; 0x10; 0x00; 0x00]
  ++ [size; 0x00; 0x00; 0x00] ++ cpu_to_le32 address ++ data.

(** A session whose command path is attached. *)
Definition attached_session : switch2_controller :=
  state_of (switch2_usb_probe env_ok zero_controller).

(** The device answers the read of the factory calibration of the primary
    stick with a block that holds 1 as x-neutral and 0 elsewhere. *)
Definition lone_neutral_block : list Z :=
  [0x01; 0x00; 0x00; 0x00; 0x00; 0x00; 0x00; 0x00; 0x00].

Definition lone_neutral_session : switch2_controller :=
  state_of (switch2_receive_command env_ok attached_session
              (in_buffer (flash_reply 9 NS2_FLASH_ADDR_FACTORY_PRIMARY_CALIB
                            lone_neutral_block) 0) 25).

(** The device answers the read of the trigger calibration with the zero
    points 232 and 232. *)
Definition trigger_232_session : switch2_controller :=
  state_of (switch2_receive_command env_ok attached_session
              (in_buffer (flash_reply 2 NS2_FLASH_ADDR_FACTORY_TRIGGER_CALIB
                            [232; 232]) 0) 18).

(** The session after the initialization kick at the head of
    [switch2_receive_command]. *)
Definition kicked (env : environment) (ns2 : switch2_controller)
  : switch2_controller :=
  if init_step ns2 <? NS2_INIT_DONE
  then state_of (switch2_init_controller env ns2)
  else ns2.

(** A complete firmware-info reply (header and the twelve bytes of the
    version structure: 1.2.3, a Pro Controller, DSP 4.5.6 of type 0), and
    the session that has received it. *)
Definition fw_info_reply : list Z :=
  [NS2_CMD_FW_INFO; 0x01; 0x00; NS2_SUBCMD_FW_INFO_GET; 0x00; 0x0c; 0x00; 0x00]
  ++ [1; 2; 3; NS2_CTLR_TYPE_PRO; 0; 0; 0; 0; 4; 5; 6; 0].

Definition versioned_session : switch2_controller :=
  state_of (switch2_receive_command env_ok attached_session
              (in_buffer fw_info_reply 0) 20).

(** A firmware-info reply cut after twelve bytes -- the header and the
    first four bytes of the version structure -- received into a buffer
    whose other bytes still hold 0xAA from earlier traffic. *)
Definition short_fw_info_reply : list Z :=
  [NS2_CMD_FW_INFO; 0x01; 0x00; NS2_SUBCMD_FW_INFO_GET; 0x00; 0x0c; 0x00; 0x00]
  ++ [9; 9; 9; NS2_CTLR_TYPE_GC].

Definition short_fw_info_session : switch2_controller :=
  state_of (switch2_receive_command env_ok versioned_session
              (in_buffer short_fw_info_reply 0xAA) 12).

(** The same twelve bytes received into a buffer that holds 0x55. *)
Definition short_fw_info_session_55 : switch2_controller :=
  state_of (switch2_receive_command env_ok versioned_session
              (in_buffer short_fw_info_reply 0x55) 12).

(** The session of a Pro Controller whose initialization has run to the
    end. *)
Definition done_session : switch2_controller :=
  init_calls (repeat env_ok 14)
    (state_of (switch2_probe env_ok (Some 0) versioned_session)).

(** A Pro Controller with both paths attached; a strong request and a tick
    make its rumble encoder active, a zero request and a tick idle again. *)
Definition pro_session : switch2_controller :=
  state_of (switch2_probe env_ok (Some 0) versioned_session).

Definition strong_effect : ff_effect :=
  {| effect_type := FF_RUMBLE; strong_magnitude := 65535; weak_magnitude := 0 |}.

Definition active_session : switch2_controller :=
  fst (rumble_run 4 pro_session [SetIntensity strong_effect; Tick true 1000]).


(** A GameCube controller with both paths attached and a zeroed rumble
    state, and a request of amplitude 40000. *)
Definition gc_session : switch2_controller :=
  set_version (set_hdev attached_session true)
    (read_version [0; 0; 0; NS2_CTLR_TYPE_GC]).

Definition gc_effect : ff_effect :=
  {| effect_type := FF_RUMBLE; strong_magnitude := 40000; weak_magnitude := 0 |}.

(** A firmware-info reply of a GameCube controller. *)
Definition gc_fw_info_reply : list Z :=
  [NS2_CMD_FW_INFO; 0x01; 0x00; NS2_SUBCMD_FW_INFO_GET; 0x00; 0x0c; 0x00; 0x00]
  ++ [1; 2; 3; NS2_CTLR_TYPE_GC; 0; 0; 0; 0; 4; 5; 6; 0].

(** A GameCube controller as the driver sets it up when the data path is
    probed first: the session is new, its type still reads 0, so
    [switch2_probe] writes the two frequencies; then the command path is
    probed and the firmware information arrives. *)
Definition gc_probed_session : switch2_controller :=
  state_of (switch2_receive_command env_ok
              (state_of (switch2_usb_probe env_ok
                           (state_of (switch2_probe env_ok (Some 0)
                                        zero_controller))))
              (in_buffer gc_fw_info_reply 0) 20).

(** The same frame received [n] times. *)
Fixpoint receive_times (n : nat) (env : environment) (message : list Z)
    (length : Z) (ns2 : switch2_controller) : switch2_controller :=
  match n with
  | O => ns2
  | S n' =>
      receive_times n' env message length
        (state_of (switch2_receive_command env ns2 message length))
  end.

(** A session whose device reports three types in a row.  It is set up as
    a GameCube controller: the command path is probed, the firmware
    information arrives, the data path is probed and fourteen more
    replies complete the initialization.  A request of amplitude 64512 and
    one emission leave an error of 1023.  Then the device reports the type
    of a Pro Controller, a weak request writes 63 into [hi_amp], and the
    device reports a GameCube controller again. *)
Definition gc_ready_session : switch2_controller :=
  receive_times 14 env_ok (in_buffer gc_fw_info_reply 0) 20
    (state_of (switch2_probe env_ok (Some 0)
                 (state_of (switch2_receive_command env_ok attached_session
                              (in_buffer gc_fw_info_reply 0) 20)))).

Definition gc_emitted_session : switch2_controller :=
  fst (run_rumble_work 4 true 1000
         (snd (switch2_play_effect gc_ready_session
                 {| effect_type := FF_RUMBLE; strong_magnitude := 64512;
                    weak_magnitude := 0 |}))).

Definition gc_aliased_session : switch2_controller :=
  state_of (switch2_receive_command env_ok
              (snd (switch2_play_effect
                      (state_of (switch2_receive_command env_ok
                                   gc_emitted_session
                                   (in_buffer fw_info_reply 0) 20))
                      {| effect_type := FF_RUMBLE; strong_magnitude := 0;
                         weak_magnitude := 9176 |}))
              (in_buffer gc_fw_info_reply 0) 20).

(** ** Report decoder *)

(** The key codes the driver reports (linux/input-event-codes.h); the
    tables below end where the source has its zero sentinel. *)
Inductive key_code :=
| BTN_SOUTH | BTN_EAST | BTN_NORTH | BTN_WEST | BTN_C
| BTN_TL | BTN_TR | BTN_TL2 | BTN_TR2 | BTN_SELECT | BTN_START | BTN_MODE
| BTN_THUMBL | BTN_THUMBR | BTN_GRIPL | BTN_GRIPR | KEY_RECORD.

Definition key_code_eqb (a b : key_code) : bool :=
  match a, b with
  | BTN_SOUTH, BTN_SOUTH | BTN_EAST, BTN_EAST | BTN_NORTH, BTN_NORTH
  | BTN_WEST, BTN_WEST | BTN_C, BTN_C | BTN_TL, BTN_TL | BTN_TR, BTN_TR
  | BTN_TL2, BTN_TL2 | BTN_TR2, BTN_TR2 | BTN_SELECT, BTN_SELECT
  | BTN_START, BTN_START | BTN_MODE, BTN_MODE | BTN_THUMBL, BTN_THUMBL
  | BTN_THUMBR, BTN_THUMBR | BTN_GRIPL, BTN_GRIPL | BTN_GRIPR, BTN_GRIPR
  | KEY_RECORD, KEY_RECORD => true
  | _, _ => false
  end.

Definition NS2_BTNR_B : Z := 1.
Definition NS2_BTNR_A : Z := 2.
Definition NS2_BTNR_Y : Z := 4.
Definition NS2_BTNR_X : Z := 8.
Definition NS2_BTNR_R : Z := 16.
Definition NS2_BTNR_ZR : Z := 32.
Definition NS2_BTNR_PLUS : Z := 64.
Definition NS2_BTNR_RS : Z := 128.

Definition NS2_BTNL_DOWN : Z := 1.
Definition NS2_BTNL_RIGHT : Z := 2.
Definition NS2_BTNL_LEFT : Z := 4.
Definition NS2_BTNL_UP : Z := 8.
Definition NS2_BTNL_L : Z := 16.
Definition NS2_BTNL_ZL : Z := 32.
Definition NS2_BTNL_MINUS : Z := 64.
Definition NS2_BTNL_LS : Z := 128.

Definition NS2_BTN3_C : Z := 16.
Definition NS2_BTN3_SR : Z := 64.
Definition NS2_BTN3_SL : Z := 128.

Definition NS2_BTN_JCR_HOME : Z := 1.
Definition NS2_BTN_JCR_GR : Z := 4.
Definition NS2_BTN_JCR_C : Z := NS2_BTN3_C.

Definition NS2_BTN_JCL_CAPTURE : Z := 1.
Definition NS2_BTN_JCL_GL : Z := 4.

Definition NS2_BTN_PRO_HOME : Z := 1.
Definition NS2_BTN_PRO_CAPTURE : Z := 2.
Definition NS2_BTN_PRO_GR : Z := 4.
Definition NS2_BTN_PRO_GL : Z := 8.
Definition NS2_BTN_PRO_C : Z := NS2_BTN3_C.

Definition NS2_BTN_GC_HOME : Z := 1.
Definition NS2_BTN_GC_CAPTURE : Z := 2.
Definition NS2_BTN_GC_C : Z := NS2_BTN3_C.

Record switch2_ctlr_button_mapping := {
  code : key_code;
  byte : nat;
  bit : Z
}.

Definition left_joycon_button_mappings : list switch2_ctlr_button_mapping :=
  [ {| code := BTN_TL; byte := 0; bit := NS2_BTNL_L |};
    {| code := BTN_TL2; byte := 0; bit := NS2_BTNL_ZL |};
    {| code := BTN_SELECT; byte := 0; bit := NS2_BTNL_MINUS |};
    {| code := BTN_THUMBL; byte := 0; bit := NS2_BTNL_LS |};
    {| code := BTN_GRIPL; byte := 1; bit := NS2_BTN_JCL_GL |};
    {| code := KEY_RECORD; byte := 1; bit := NS2_BTN_JCL_CAPTURE |} ].

Definition right_joycon_button_mappings : list switch2_ctlr_button_mapping :=
  [ {| code := BTN_SOUTH; byte := 0; bit := NS2_BTNR_A |};
    {| code := BTN_EAST; byte := 0; bit := NS2_BTNR_B |};
    {| code := BTN_NORTH; byte := 0; bit := NS2_BTNR_X |};
    {| code := BTN_WEST; byte := 0; bit := NS2_BTNR_Y |};
    {| code := BTN_TR; byte := 0; bit := NS2_BTNR_R |};
    {| code := BTN_TR2; byte := 0; bit := NS2_BTNR_ZR |};
    {| code := BTN_START; byte := 0; bit := NS2_BTNR_PLUS |};
    {| code := BTN_THUMBR; byte := 0; bit := NS2_BTNR_RS |};
    {| code := BTN_C; byte := 1; bit := NS2_BTN_JCR_C |};
    {| code := BTN_GRIPR; byte := 1; bit := NS2_BTN_JCR_GR |};
    {| code := BTN_MODE; byte := 1; bit := NS2_BTN_JCR_HOME |} ].

Definition procon_mappings : list switch2_ctlr_button_mapping :=
  [ {| code := BTN_SOUTH; byte := 0; bit := NS2_BTNR_A |};
    {| code := BTN_EAST; byte := 0; bit := NS2_BTNR_B |};
    {| code := BTN_NORTH; byte := 0; bit := NS2_BTNR_X |};
    {| code := BTN_WEST; byte := 0; bit := NS2_BTNR_Y |};
    {| code := BTN_TL; byte := 1; bit := NS2_BTNL_L |};
    {| code := BTN_TR; byte := 0; bit := NS2_BTNR_R |};
    {| code := BTN_TL2; byte := 1; bit := NS2_BTNL_ZL |};
    {| code := BTN_TR2; byte := 0; bit := NS2_BTNR_ZR |};
    {| code := BTN_SELECT; byte := 1; bit := NS2_BTNL_MINUS |};
    {| code := BTN_START; byte := 0; bit := NS2_BTNR_PLUS |};
    {| code := BTN_THUMBL; byte := 1; bit := NS2_BTNL_LS |};
    {| code := BTN_THUMBR; byte := 0; bit := NS2_BTNR_RS |};
    {| code := BTN_MODE; byte := 2; bit := NS2_BTN_PRO_HOME |};
    {| code := KEY_RECORD; byte := 2; bit := NS2_BTN_PRO_CAPTURE |};
    {| code := BTN_GRIPR; byte := 2; bit := NS2_BTN_PRO_GR |};
    {| code := BTN_GRIPL; byte := 2; bit := NS2_BTN_PRO_GL |};
    {| code := BTN_C; byte := 2; bit := NS2_BTN_PRO_C |} ].

Definition gccon_mappings : list switch2_ctlr_button_mapping :=
  [ {| code := BTN_SOUTH; byte := 0; bit := NS2_BTNR_A |};
    {| code := BTN_EAST; byte := 0; bit := NS2_BTNR_B |};
    {| code := BTN_NORTH; byte := 0; bit := NS2_BTNR_X |};
    {| code := BTN_WEST; byte := 0; bit := NS2_BTNR_Y |};
    {| code := BTN_TL; byte := 1; bit := NS2_BTNL_L |};
    {| code := BTN_TR; byte := 0; bit := NS2_BTNR_R |};
    {| code := BTN_TL2; byte := 1; bit := NS2_BTNL_ZL |};
    {| code := BTN_TR2; byte := 0; bit := NS2_BTNR_ZR |};
    {| code := BTN_SELECT; byte := 1; bit := NS2_BTNL_MINUS |};
    {| code := BTN_START; byte := 0; bit := NS2_BTNR_PLUS |};
    {| code := BTN_MODE; byte := 2; bit := NS2_BTN_GC_HOME |};
    {| code := KEY_RECORD; byte := 2; bit := NS2_BTN_GC_CAPTURE |};
    {| code := BTN_C; byte := 2; bit := NS2_BTN_GC_C |} ].

Definition ABS_HAT0X : Z := 0x10.
Definition ABS_HAT0Y : Z := 0x11.

Definition HID_INPUT_REPORT : Z := 0.

Definition NS2_REPORT_UNIFIED : Z := 0x05.
Definition NS2_REPORT_JCL : Z := 0x07.
Definition NS2_REPORT_JCR : Z := 0x08.
Definition NS2_REPORT_PRO : Z := 0x09.
Definition NS2_REPORT_GC : Z := 0x0a.

(** What the decoder hands to the input layer: [input_report_abs],
    [input_report_key] (which passes on [!!value]) and [input_sync]. *)
Inductive input_event :=
| ReportAbs (e : abs_event)
| ReportKey (c : key_code) (value : Z)
| InputSync.

(** [!!v] *)
Definition bang2 (v : Z) : Z := if truthy v then 1 else 0.

(** [switch2_report_buttons(input, bytes, button_mappings)] *)
Definition switch2_report_buttons (bytes : list Z)
    (button_mappings : list switch2_ctlr_button_mapping) : list input_event :=
  map (fun button =>
         ReportKey (code button)
           (bang2 (Z.land (byte_at bytes (byte button)) (bit button))))
      button_mappings.

(** The two [input_report_abs] calls for the directional pad, read from the
    byte [b]. *)
Definition report_hat (b : Z) : list input_event :=
  [ReportAbs {| abs_code := ABS_HAT0X;
                abs_value := bang2 (Z.land b NS2_BTNL_RIGHT)
                             - bang2 (Z.land b NS2_BTNL_LEFT) |};
   ReportAbs {| abs_code := ABS_HAT0Y;
                abs_value := bang2 (Z.land b NS2_BTNL_DOWN)
                             - bang2 (Z.land b NS2_BTNL_UP) |}].

Definition report_stick_events (calib : switch2_stick_calibration)
    (x_code y_code : Z) (data : list Z) : list input_event :=
  map ReportAbs (switch2_report_stick calib x_code y_code data).

(** [switch2_event(hdev, report, raw_data, size)]: the return value and the
    calls made on the input device, or [None] when a trigger division
    faults. *)
Definition switch2_event (ns2 : switch2_controller)
    (report_type report_id : Z) (raw_data : list Z) (size : Z)
  : option (Z * list input_event) :=
  if negb (report_type =? HID_INPUT_REPORT) then Some (0, [])
  else if size <? 15 then Some (- EINVAL, [])
  else if negb (input ns2) then Some (0, [])
  else if report_id =? NS2_REPORT_UNIFIED then Some (0, [InputSync])
  else if report_id =? NS2_REPORT_JCL then
    Some (0, report_hat (byte_at raw_data 3)
             ++ report_stick_events (stick_calib_at ns2 0) ABS_X ABS_Y
                  (skipn 6 raw_data)
             ++ switch2_report_buttons (skipn 3 raw_data)
                  left_joycon_button_mappings
             ++ [InputSync])
  else if report_id =? NS2_REPORT_JCR then
    Some (0, report_stick_events (stick_calib_at ns2 0) ABS_RX ABS_RY
               (skipn 6 raw_data)
             ++ switch2_report_buttons (skipn 3 raw_data)
                  right_joycon_button_mappings
             ++ [InputSync])
  else if report_id =? NS2_REPORT_GC then
    match switch2_report_trigger (lt_zero ns2) ABS_Z (byte_at raw_data 13),
          switch2_report_trigger (rt_zero ns2) ABS_RZ (byte_at raw_data 14) with
    | Some lt, Some rt =>
        Some (0, report_hat (byte_at raw_data 4)
                 ++ switch2_report_buttons (skipn 3 raw_data) gccon_mappings
                 ++ report_stick_events (stick_calib_at ns2 0) ABS_X ABS_Y
                      (skipn 6 raw_data)
                 ++ report_stick_events (stick_calib_at ns2 1) ABS_RX ABS_RY
                      (skipn 9 raw_data)
                 ++ [ReportAbs lt; ReportAbs rt; InputSync])
    | _, _ => None
    end
  else if report_id =? NS2_REPORT_PRO then
    Some (0, report_hat (byte_at raw_data 4)
             ++ switch2_report_buttons (skipn 3 raw_data) procon_mappings
             ++ report_stick_events (stick_calib_at ns2 0) ABS_X ABS_Y
                  (skipn 6 raw_data)
             ++ report_stick_events (stick_calib_at ns2 1) ABS_RX ABS_RY
                  (skipn 9 raw_data)
             ++ [InputSync])
  else Some (- EINVAL, []).

(** The capabilities that [switch2_init_input] declares for a controller
    type: the axes with their ranges ([input_set_abs_params]) and the keys
    ([switch2_config_buttons]). *)
Definition stick_params (c : Z) : Z * (Z * Z) := (c, (NS2_AXIS_MIN, NS2_AXIS_MAX)).
Definition hat_params (c : Z) : Z * (Z * Z) := (c, (-1, 1)).
Definition trigger_params (c : Z) : Z * (Z * Z) := (c, (0, NS2_TRIGGER_RANGE)).

Definition input_abs_params (type : Z) : list (Z * (Z * Z)) :=
  if type =? NS2_CTLR_TYPE_JCL then
    [stick_params ABS_X; stick_params ABS_Y;
     hat_params ABS_HAT0X; hat_params ABS_HAT0Y]
  else if type =? NS2_CTLR_TYPE_JCR then
    [stick_params ABS_RX; stick_params ABS_RY]
  else if type =? NS2_CTLR_TYPE_GC then
    [stick_params ABS_X; stick_params ABS_Y;
     stick_params ABS_RX; stick_params ABS_RY;
     trigger_params ABS_Z; trigger_params ABS_RZ;
     hat_params ABS_HAT0X; hat_params ABS_HAT0Y]
  else if type =? NS2_CTLR_TYPE_PRO then
    [stick_params ABS_X; stick_params ABS_Y;
     stick_params ABS_RX; stick_params ABS_RY;
     hat_params ABS_HAT0X; hat_params ABS_HAT0Y]
  else [].

Definition input_key_capabilities (type : Z) : list key_code :=
  if type =? NS2_CTLR_TYPE_JCL then map code left_joycon_button_mappings
  else if type =? NS2_CTLR_TYPE_JCR then map code right_joycon_button_mappings
  else if type =? NS2_CTLR_TYPE_GC then map code gccon_mappings
  else if type =? NS2_CTLR_TYPE_PRO then map code procon_mappings
  else [].

(** The report id that a controller of a type sends. *)
Definition report_id_of (type : Z) : Z :=
  if type =? NS2_CTLR_TYPE_JCL then NS2_REPORT_JCL
  else if type =? NS2_CTLR_TYPE_JCR then NS2_REPORT_JCR
  else if type =? NS2_CTLR_TYPE_GC then NS2_REPORT_GC
  else NS2_REPORT_PRO.

(** An event stays within what was declared: an axis value within the range
    of its code, a key among the declared keys with value 0 or 1. *)
Definition event_declared (type : Z) (ev : input_event) : bool :=
  match ev with
  | ReportAbs e =>
      existsb (fun p => (fst p =? abs_code e)
                        && (fst (snd p) <=? abs_value e)
                        && (abs_value e <=? snd (snd p)))
              (input_abs_params type)
  | ReportKey c v =>
      existsb (key_code_eqb c) (input_key_capabilities type)
      && ((v =? 0) || (v =? 1))
  | InputSync => true
  end.

(** The keys that a list of events reports, and whether it is some events
    followed by one final [InputSync]. *)
Definition event_keys (evs : list input_event) : list key_code :=
  flat_map (fun ev => match ev with ReportKey c _ => [c] | _ => [] end) evs.

Definition is_sync (ev : input_event) : bool :=
  match ev with InputSync => true | _ => false end.

Definition ends_with_one_sync (evs : list input_event) : Prop :=
  exists body, evs = body ++ [InputSync] /\ existsb is_sync body = false.

(** The value that the trigger transform reports, 0 standing in when it
    returns none. *)
Definition trigger_value (zero data : Z) : Z :=
  match switch2_report_trigger zero ABS_Z data with
  | Some ev => abs_value ev
  | None => 0
  end.

(** A Pro Controller report: buttons A and L held, the pad pushed up and
    left, both sticks at 2048. *)
Definition sample_pro_report : list Z :=
  [0x09; 0x00; 0x00; 0x02; 0x1c; 0x00; 0x00; 0x08; 0x80; 0x00; 0x08; 0x80;
   0x00; 0x00; 0x00].

Definition pro_input_session : switch2_controller :=
  set_input pro_session true.

(** A GameCube controller whose initialization is complete and whose
    trigger calibration reads 232 for both zero points. *)
Definition gc_232_session : switch2_controller :=
  state_of (switch2_receive_command env_ok gc_ready_session
              (in_buffer (flash_reply 2 NS2_FLASH_ADDR_FACTORY_TRIGGER_CALIB
                            [232; 232]) 0) 18).

(** ** Reading rumble packets back *)

(** The four 10-bit fields held by the five bytes at [off], by arithmetic
    on the bytes. *)
Definition decode_rumble (buffer : list Z) (off : nat) : switch2_hd_rumble :=
  {| hi_freq := byte_at buffer off + 256 * (byte_at buffer (off + 1) mod 4);
     hi_amp := byte_at buffer (off + 1) / 4
               + 64 * (byte_at buffer (off + 2) mod 16);
     lo_freq := byte_at buffer (off + 2) / 16
                + 16 * (byte_at buffer (off + 3) mod 64);
     lo_amp := byte_at buffer (off + 3) / 64 + 4 * byte_at buffer (off + 4) |}.

Definition is_10bit (v : Z) : Prop := 0 <= v < 1024.

Definition hd_10bit (r : switch2_hd_rumble) : Prop :=
  is_10bit (hi_freq r) /\ is_10bit (hi_amp r)
  /\ is_10bit (lo_freq r) /\ is_10bit (lo_amp r).

(** The number of "on" packets among the output reports of a GameCube
    controller. *)
Definition on_packets (out : list (list Z)) : Z :=
  Z.of_nat (List.length
              (filter (fun p => byte_at p 2 =? GC_RUMBLE_ON) out)).

(** Ticks at the given times, each with its packet buffer allocated. *)
Definition ticks_at (times : list Z) : list rumble_event :=
  map (Tick true) times.

(** The rumble fields the probe of a Pro Controller leaves, with amplitudes
    set. *)
Definition sample_hd : switch2_hd_rumble :=
  {| hi_freq := RUMBLE_HI_FREQ; hi_amp := 449;
     lo_freq := RUMBLE_LO_FREQ; lo_amp := 300 |}.

(** A GameCube session with a request of amplitude 40000 pending. *)
Definition gc_requested_session : switch2_controller :=
  fst (rumble_step 4 gc_session (SetIntensity gc_effect)).

(** The first byte of an output report, by controller type. *)
Definition rumble_report_kind (type : Z) : Z :=
  if type =? NS2_CTLR_TYPE_GC then 3
  else if type =? NS2_CTLR_TYPE_PRO then 2
  else 1.

(** The report that a run of the rumble work builds in its buffer. *)
Definition rumble_packet (ns2 : switch2_controller) : list Z :=
  let buffer := store (repeat 0 64) 0x1 (Z.lor 0x50 (rumble_seq ns2)) in
  let r := rumble ns2 in
  if ctlr_type ns2 =? NS2_CTLR_TYPE_GC then
    store (store buffer 0 3) 2
      (if amplitude (sd r) =? 0 then GC_RUMBLE_STOP
       else if error (sd r) <? amplitude (sd r) then GC_RUMBLE_ON
       else GC_RUMBLE_OFF)
  else
    let buffer := switch2_encode_rumble (hd r) (store buffer 0 1) 0x2 in
    if ctlr_type ns2 =? NS2_CTLR_TYPE_PRO then
      switch2_encode_rumble (hd r)
        (store (store buffer 0 2) 0x11 (Z.lor 0x50 (rumble_seq ns2))) 0x12
    else buffer.

(** Whether a run of the rumble work finds something to play: the value of
    [active] in [switch2_rumble_work]. *)
Definition rumble_requested (ns2 : switch2_controller) : bool :=
  if ctlr_type ns2 =? NS2_CTLR_TYPE_GC
  then negb (amplitude (sd (rumble ns2)) =? 0)
  else truthy (hi_amp (hd (rumble ns2))) || truthy (lo_amp (hd (rumble ns2))).

(** A Pro Controller whose rumble work runs for the second time, one
    interval after the first. *)
Definition second_run_session : switch2_controller :=
  set_rumble_state active_session (rumble_seq active_session)
    (rumble active_session) (last_rumble_work active_session) None.

(** ** Reading the commands of the initialization *)

(** The address that a flash-read request asks for: bytes 4 to 7 of its
    message. *)
Definition flash_request_address (c : command) : Z := le32 (skipn 4 (payload c)).

(** An environment in which sending a command and registering the input
    device fail. *)
Definition env_failing : environment :=
  {| send_command := fun _ _ _ => - 105;
     input_allocate_device := true;
     input_ff_create_memless := 0;
     input_register_device := - ENOMEM |}.

(** A Pro Controller with both paths attached whose initialization is one
    step before the end. *)
Definition last_step_session : switch2_controller :=
  set_init_step pro_session NS2_INIT_INPUT.

(** A command agrees with a controller type when it is not one of the
    commands the initialization leaves out for that type: the reads of the
    secondary stick and the grip buttons depend on the controller being a
    Joy-Con, the read of the trigger calibration on its being a GameCube
    controller. *)
Definition command_fits_type (type : Z) (c : command) : Prop :=
  (cmd c = NS2_CMD_FLASH ->
   flash_request_address c = NS2_FLASH_ADDR_FACTORY_SECONDARY_CALIB
   \/ flash_request_address c = NS2_FLASH_ADDR_USER_SECONDARY_CALIB ->
   switch2_ctlr_is_joycon type = false)
  /\ (cmd c = NS2_CMD_FLASH ->
      flash_request_address c = NS2_FLASH_ADDR_FACTORY_TRIGGER_CALIB ->
      type = NS2_CTLR_TYPE_GC)
  /\ (cmd c = NS2_CMD_GRIP -> switch2_ctlr_is_joycon type = true).

(** What one call hands to the transport: nothing, or one command with a
    message of at most eight bytes that agrees with the controller type. *)
Definition modest_send (type : Z) (sent : list command) : Prop :=
  sent = []
  \/ exists c, sent = [c] /\ (List.length (payload c) <= 8)%nat
               /\ command_fits_type type c.

(** A GameCube controller with both paths attached, about to ask for the
    trigger calibration. *)
Definition gc_before_trigger_session : switch2_controller :=
  set_init_step gc_session NS2_INIT_READ_FACTORY_SECONDARY_CALIB.

(** ** What holds of a session between two entry points *)

(** [b] differs from [a] in [init_step] and [input] at most. *)
Definition init_only (a b : switch2_controller) : Prop :=
  b = set_input (set_init_step a (init_step b)) (input b).

(** The initialization state and the input device: [init_step] is one of
    the steps, and the input device is registered at the last one only. *)
Definition lifecycle_invariant (ns2 : switch2_controller) : Prop :=
  0 <= init_step ns2 <= NS2_INIT_DONE
  /\ (input ns2 = true -> init_step ns2 = NS2_INIT_DONE).

(** The data read from the flash: [serial] is a C string in its seventeen
    bytes, the calibration values are 12-bit numbers and the trigger zero
    points are bytes other than 0xFF. *)
Definition data_invariant (ns2 : switch2_controller) : Prop :=
  List.length (serial ns2) = 17%nat
  /\ Forall is_byte (serial ns2)
  /\ byte_at (serial ns2) 16 = 0
  /\ stick_12bit (fst (stick_calib ns2))
  /\ stick_12bit (snd (stick_calib ns2))
  /\ (is_byte (lt_zero ns2) /\ lt_zero ns2 <> 0xFF)
  /\ (is_byte (rt_zero ns2) /\ rt_zero ns2 <> 0xFF).

(** ** The USB transport (switch2-usb.c): sending commands *)

Module Usb.

Definition NS2_BULK_SIZE : Z := 64.
Definition NS2_OUT_URBS : nat := 4.

Definition NS2_FLAG_OK : Z := 1.
Definition NS2_DIR_OUT : Z := 0x90.
Definition NS2_TRANS_USB : Z := 0x00.

Definition ENOBUFS : Z := 105.

(** [struct switch2_urb]: the transfer buffer, the [active] flag and, of
    the URB, the [transfer_buffer_length]. *)
Record switch2_urb := {
  data : list Z;
  active : bool;
  transfer_buffer_length : Z
}.

Definition set_active (urb : switch2_urb) (v : bool) : switch2_urb :=
  {| data := data urb; active := v;
     transfer_buffer_length := transfer_buffer_length urb |}.

(** [bulk_out[i] = urb] *)
Fixpoint set_urb (bulk_out : list switch2_urb) (i : nat) (urb : switch2_urb)
  : list switch2_urb :=
  match bulk_out, i with
  | [], _ => []
  | _ :: rest, O => urb :: rest
  | u :: rest, S i' => u :: set_urb rest i' urb
  end.

(** [struct switch2_cmd_header] as the eight bytes it occupies, initialised
    with [{command, NS2_DIR_OUT | NS2_FLAG_OK, NS2_TRANS_USB, subcommand, 0,
    size}]; the fields are [uint8_t], [unk2] is left zero. *)
Definition switch2_cmd_header (command subcommand size : Z) : list Z :=
  [u8 command; u8 (Z.lor NS2_DIR_OUT NS2_FLAG_OK); u8 NS2_TRANS_USB;
   u8 subcommand; u8 0; u8 size; 0; 0].

(** The loop that looks for a URB that is not active: the index of the
    first one, counting from [i]. *)
Fixpoint first_inactive (bulk_out : list switch2_urb) (i : nat) : option nat :=
  match bulk_out with
  | [] => None
  | urb :: rest => if active urb then first_inactive rest (S i) else Some i
  end.

(** The result of [switch2_usb_send_cmd]: return value, the output URBs
    afterwards and the transfer handed to [usb_submit_urb], if the function
    got that far. *)
Definition send_result : Type := Z * list switch2_urb * option (list Z).

(** [switch2_usb_send_cmd(command, subcommand, message, size, cfg)].
    [message] is [None] for a null pointer; [usb_submit_urb] is the result
    of submitting the URB. *)
Definition switch2_usb_send_cmd (usb_submit_urb : Z)
    (bulk_out : list switch2_urb) (command subcommand : Z)
    (message : option (list Z)) (size : Z) : send_result :=
  let header := switch2_cmd_header command subcommand size in
  if size >? 56 then (- EINVAL, bulk_out, None)
  else
    match first_inactive (firstn NS2_OUT_URBS bulk_out) 0 with
    | None => (- ENOBUFS, bulk_out, None)
    | Some i =>
        let urb := nth i bulk_out {| data := []; active := false;
                                     transfer_buffer_length := 0 |} in
        let buffer := memcpy (data urb) header 8 in
        let buffer :=
          match message with
          | Some m =>
              if negb (size =? 0)
              then firstn 8 buffer ++ memcpy (skipn 8 buffer) m (Z.to_nat size)
              else buffer
          | None => buffer
          end in
        let urb := {| data := buffer; active := true;
                      transfer_buffer_length := size + 8 |} in
        let transfer := Some (firstn (Z.to_nat (size + 8)) buffer) in
        if negb (usb_submit_urb =? 0)
        then (usb_submit_urb, set_urb bulk_out i (set_active urb false),
              transfer)
        else (0, set_urb bulk_out i urb, transfer)
    end.

(** [switch2_bulk_out(urb)], the completion of the output URB at index
    [i], with [urb->status]. *)
Definition switch2_bulk_out (status : Z) (i : nat)
    (bulk_out : list switch2_urb) : list switch2_urb :=
  if status =? 0 then
    match nth_error (firstn NS2_OUT_URBS bulk_out) i with
    | Some urb => set_urb bulk_out i (set_active urb false)
    | None => bulk_out
    end
  else bulk_out.

(** The number of output URBs in flight. *)
Definition in_flight (bulk_out : list switch2_urb) : nat :=
  List.length (filter active bulk_out).

(** Output URBs as [switch2_usb_probe] sets them up: four, each with a
    buffer of NS2_BULK_SIZE bytes. *)
Definition out_urbs (bulk_out : list switch2_urb) : Prop :=
  List.length bulk_out = NS2_OUT_URBS
  /\ Forall (fun urb => List.length (data urb) = 64%nat) bulk_out.

(** The transport as the command path sees it: [cfg->send_command] with
    the length of the message as its size. *)
Definition send_command (usb_submit_urb : Z) (bulk_out : list switch2_urb)
    (command subcommand : Z) (message : list Z) : Z :=
  fst (fst (switch2_usb_send_cmd usb_submit_urb bulk_out command subcommand
              (Some message) (Z.of_nat (List.length message)))).

End Usb.

(** An idle output URB with a zeroed buffer, and the four output URBs with
    the first two in flight. *)
Definition idle_urb : Usb.switch2_urb :=
  {| Usb.data := repeat 0 64; Usb.active := false;
     Usb.transfer_buffer_length := 0 |}.

Definition busy_out : list Usb.switch2_urb :=
  [Usb.set_active idle_urb true; Usb.set_active idle_urb true;
   idle_urb; idle_urb].

(** The outcome of a call that sent nothing, or sent one command, with
    ids that fit a byte, and returned what the transport returned. *)
Definition answered (env : environment) (o : outcome) : Prop :=
  sent_of o = []
  \/ exists c,
       sent_of o = [c]
       /\ ret_of o = send_command env (cmd c) (subcmd c) (payload c)
       /\ is_byte (cmd c) /\ is_byte (subcmd c).

(** The command path on top of the USB transport. *)
Definition usb_environment (usb_submit_urb : Z)
    (bulk_out : list Usb.switch2_urb) (env : environment) : environment :=
  {| send_command := Usb.send_command usb_submit_urb bulk_out;
     input_allocate_device := input_allocate_device env;
     input_ff_create_memless := input_ff_create_memless env;
     input_register_device := input_register_device env |}.

(** ** The list of sessions *)

Module Registry.

(** [strncmp(cs, ct, count)], reading both arrays from index [i]. *)
Fixpoint strncmp (cs ct : list Z) (i count : nat) : Z :=
  match count with
  | O => 0
  | S count' =>
      let c1 := byte_at cs i in
      let c2 := byte_at ct i in
      if negb (c1 =? c2) then (if c1 <? c2 then -1 else 1)
      else if c1 =? 0 then 0
      else strncmp cs ct (S i) count'
  end.

(** [strscpy(dest, src, count)]: the contents of [dest] afterwards, [res]
    being the number of bytes copied so far.  The copy stops behind the
    first NUL; when [count] bytes were copied without one, the last of them
    is replaced by NUL. *)
Fixpoint strscpy (dest src : list Z) (res count : nat) : list Z :=
  match count with
  | O =>
      match res with
      | O => dest
      | S last => store dest last 0
      end
  | S count' =>
      let c := byte_at src res in
      let dest := store dest res c in
      if c =? 0 then dest else strscpy dest src (S res) count'
  end.

(** A session on the list: its [phys], a [char] array of 64 bytes, and the
    rest of [struct switch2_controller]. *)
Record entry := {
  phys : list Z;
  controller : switch2_controller
}.

(** The loop over [switch2_controllers]: the position of the first entry
    whose [phys] compares equal, counting from [i]. *)
Fixpoint find_phys (switch2_controllers : list entry) (p : list Z) (i : nat)
  : option nat :=
  match switch2_controllers with
  | [] => None
  | ns2 :: rest =>
      if strncmp (phys ns2) p 0 64 =? 0 then Some i
      else find_phys rest p (S i)
  end.

(** [switch2_get_controller(phys)]: the position on the list of the session
    returned, or the error, and the list afterwards.  [kzalloc] tells
    whether the allocation succeeds; a new session is zeroed and added at
    the head of the list. *)
Definition switch2_get_controller (kzalloc : bool)
    (switch2_controllers : list entry) (p : list Z)
  : (nat + Z) * list entry :=
  match find_phys switch2_controllers p 0 with
  | Some i => (inl i, switch2_controllers)
  | None =>
      if negb kzalloc then (inr (- ENOMEM), switch2_controllers)
      else (inl O,
            {| phys := strscpy (repeat 0 64) p 0 64;
               controller := zero_controller |} :: switch2_controllers)
  end.

(** [switch2_controller_put(ns2)] for the session at position [i]: it
    stays on the list while a handle is bound, and is taken off the list
    and freed otherwise. *)
Definition switch2_controller_put (switch2_controllers : list entry) (i : nat)
  : list entry :=
  match nth_error switch2_controllers i with
  | None => switch2_controllers
  | Some ns2 =>
      match switch2_controller_put (controller ns2) with
      | Some ns2' =>
          firstn i switch2_controllers
          ++ {| phys := phys ns2; controller := ns2' |}
             :: skipn (S i) switch2_controllers
      | None => firstn i switch2_controllers ++ skipn (S i) switch2_controllers
      end
  end.

(** A [char] array with a NUL among its first 64 bytes, and one that holds
    a string of fewer than 64 characters. *)
Definition terminated (p : list Z) : Prop :=
  exists n, (n < 64)%nat /\ byte_at p n = 0.

Definition is_path (p : list Z) : Prop := Forall is_byte p /\ terminated p.

(** No two sessions of the list have the same [phys]. *)
Fixpoint distinct_phys (switch2_controllers : list entry) : Prop :=
  match switch2_controllers with
  | [] => True
  | ns2 :: rest =>
      Forall (fun other => strncmp (phys ns2) (phys other) 0 64 <> 0) rest
      /\ distinct_phys rest
  end.

Definition well_formed (switch2_controllers : list entry) : Prop :=
  Forall (fun ns2 => terminated (phys ns2)) switch2_controllers
  /\ distinct_phys switch2_controllers.

End Registry.

(** The path of a USB device as [usb_make_path] writes it into a 64-byte
    array: here the string usb-1.2 . *)
Definition sample_phys : list Z :=
  [117; 115; 98; 45; 49; 46; 50] ++ repeat 0 57.

(** Two sessions on the list: the one of the device at usb-1.3, whose
    command path is bound, in front of the one at usb-1.2, which has just
    been created. *)
Definition sample_sessions : list Registry.entry :=
  [{| Registry.phys := [117; 115; 98; 45; 49; 46; 51] ++ repeat 0 57;
      Registry.controller := attached_session |};
   {| Registry.phys := sample_phys;
      Registry.controller := zero_controller |}].

(** * Properties *)

(** ** Bit arithmetic *)

Lemma land_shiftl_disjoint a b n :
  0 <= n -> 0 <= a < 2 ^ n -> Z.land a (Z.shiftl b n) = 0.
Proof.
  intros Hn Ha. apply Z.bits_inj'. intros m Hm.
  rewrite Z.land_spec, Z.bits_0.
  destruct (Z.lt_ge_cases m n) as [Hlt | Hge].
  - rewrite (Z.shiftl_spec_low b n m Hlt). apply andb_false_r.
  - rewrite <- (Z.mod_small a (2 ^ n)) by exact Ha.
    rewrite Z.mod_pow2_bits_high by lia. reflexivity.
Qed.

Lemma lor_shiftl_add a b n :
  0 <= n -> 0 <= a < 2 ^ n -> Z.lor a (Z.shiftl b n) = a + b * 2 ^ n.
Proof.
  intros Hn Ha.
  pose proof (Z.add_lor_land a (Z.shiftl b n)) as E.
  rewrite (land_shiftl_disjoint a b n Hn Ha), Z.add_0_r in E.
  rewrite E, Z.shiftl_mul_pow2 by exact Hn. reflexivity.
Qed.

Lemma nibble_bounds b : is_byte b -> 0 <= b mod 16 < 16 /\ 0 <= b / 16 < 16.
Proof.
  unfold is_byte. intros Hb. split.
  - apply Z.mod_pos_bound. lia.
  - split; [apply Z.div_pos; lia | apply Z.div_lt_upper_bound; lia].
Qed.

Lemma lor_low_nibble a b :
  is_byte a -> is_byte b ->
  Z.lor a (Z.shiftl (Z.land b 0x0F) 8) = a + 256 * (b mod 16).
Proof.
  unfold is_byte. intros Ha Hb.
  change 0x0F with (Z.ones 4). rewrite Z.land_ones by lia.
  rewrite lor_shiftl_add by lia.
  change (2 ^ 4) with 16. change (2 ^ 8) with 256. lia.
Qed.

Lemma lor_high_nibble b c :
  is_byte b -> Z.lor (Z.shiftr b 4) (Z.shiftl c 4) = b / 16 + 16 * c.
Proof.
  intros Hb. destruct (nibble_bounds b Hb) as [_ Hd].
  rewrite Z.shiftr_div_pow2 by lia. change (2 ^ 4) with 16.
  rewrite lor_shiftl_add by (change (2 ^ 4) with 16; lia).
  change (2 ^ 4) with 16. lia.
Qed.

(** ** Calibration codec *)

Lemma byte_at_in_range data i :
  Forall is_byte data -> is_byte (byte_at data i).
Proof.
  intros Hall. unfold byte_at.
  destruct (Nat.lt_ge_cases i (List.length data)) as [Hlt | Hge].
  - rewrite Forall_forall in Hall. apply Hall. apply nth_In. exact Hlt.
  - rewrite nth_overflow by exact Hge. unfold is_byte. lia.
Qed.

Lemma unpack_lo_arith data i :
  Forall is_byte data -> unpack_lo data i = lo12 data i /\ is_12bit (lo12 data i).
Proof.
  intros Hall. unfold unpack_lo, lo12, is_12bit, u16.
  pose proof (byte_at_in_range data i Hall) as Ha.
  pose proof (byte_at_in_range data (i + 1) Hall) as Hb.
  destruct (nibble_bounds _ Hb) as [Hm _]. unfold is_byte in Ha.
  rewrite (Z.mod_small (byte_at data i)) by lia.
  rewrite lor_low_nibble by assumption.
  rewrite Z.mod_small by lia. lia.
Qed.

Lemma unpack_hi_arith data i :
  Forall is_byte data -> unpack_hi data i = hi12 data i /\ is_12bit (hi12 data i).
Proof.
  intros Hall. unfold unpack_hi, hi12, is_12bit, u16.
  pose proof (byte_at_in_range data (i + 1) Hall) as Hb.
  pose proof (byte_at_in_range data (i + 2) Hall) as Hc.
  destruct (nibble_bounds _ Hb) as [_ Hd]. unfold is_byte in Hc.
  replace (Z.shiftr (byte_at data (i + 1)) 4 mod 2 ^ 16)
    with (Z.shiftr (byte_at data (i + 1)) 4)
    by (rewrite Z.shiftr_div_pow2 by lia; change (2 ^ 4) with 16;
        rewrite Z.mod_small; lia).
  rewrite lor_high_nibble by assumption.
  rewrite Z.mod_small by lia. lia.
Qed.

(** On nine bytes the comparison with the sentinel decides equality. *)
Lemma memeq_uncalibrated data :
  List.length data = 9%nat ->
  memeq UNCALIBRATED data 9 = true <-> data = UNCALIBRATED.
Proof.
  intros Hlen.
  do 9 (destruct data as [| ? data]; [discriminate Hlen |]).
  destruct data; [| discriminate Hlen].
  unfold memeq, UNCALIBRATED, byte_at. cbn [seq forallb nth].
  rewrite !andb_true_iff, !Z.eqb_eq. split.
  - intros H. decompose [and] H. subst. reflexivity.
  - intros H. injection H as -> -> -> -> -> -> -> -> ->. tauto.
Qed.

Lemma parse_present calib data :
  List.length data = 9%nat -> Forall is_byte data -> data <> UNCALIBRATED ->
  switch2_parse_stick_calibration calib data = (true, decoded data)
  /\ stick_12bit (decoded data).
Proof.
  intros Hlen Hall Hne. unfold switch2_parse_stick_calibration.
  destruct (memeq UNCALIBRATED data 9) eqn:E.
  - apply memeq_uncalibrated in E; [contradiction | exact Hlen].
  - unfold decoded, stick_12bit, axis_12bit. cbn [x y neutral negative positive].
    pose proof (unpack_lo_arith data 0 Hall) as [-> ?].
    pose proof (unpack_lo_arith data 3 Hall) as [-> ?].
    pose proof (unpack_lo_arith data 6 Hall) as [-> ?].
    pose proof (unpack_hi_arith data 0 Hall) as [-> ?].
    pose proof (unpack_hi_arith data 3 Hall) as [-> ?].
    pose proof (unpack_hi_arith data 6 Hall) as [-> ?].
    tauto.
Qed.

Lemma pack_pair_arith a b :
  is_12bit a -> is_12bit b ->
  pack_pair a b = [a mod 256; a / 256 + 16 * (b mod 16); b / 16].
Proof.
  unfold is_12bit, pack_pair. intros Ha Hb.
  change 0xFF with (Z.ones 8). change 0x0F with (Z.ones 4).
  rewrite !Z.land_ones, !Z.shiftr_div_pow2 by lia.
  change (2 ^ 8) with 256. change (2 ^ 4) with 16.
  assert (0 <= a / 256 < 16)
    by (split; [apply Z.div_pos; lia | apply Z.div_lt_upper_bound; lia]).
  rewrite lor_shiftl_add by (change (2 ^ 4) with 16; lia).
  change (2 ^ 4) with 16. rewrite (Z.mul_comm (b mod 16) 16). reflexivity.
Qed.

Lemma unpack_pair a b :
  is_12bit a -> is_12bit b ->
  a mod 256 + 256 * ((a / 256 + 16 * (b mod 16)) mod 16) = a
  /\ (a / 256 + 16 * (b mod 16)) / 16 + 16 * (b / 16) = b
  /\ is_byte (a mod 256) /\ is_byte (a / 256 + 16 * (b mod 16))
  /\ is_byte (b / 16).
Proof.
  unfold is_12bit, is_byte. intros Ha Hb.
  Z.div_mod_to_equations. lia.
Qed.

Lemma synthesize_decoded c :
  stick_12bit c ->
  decoded (synthesize_stick_block c) = c
  /\ List.length (synthesize_stick_block c) = 9%nat
  /\ Forall is_byte (synthesize_stick_block c).
Proof.
  destruct c as [[xn xm xp] [yn ym yp]].
  unfold stick_12bit, axis_12bit, synthesize_stick_block.
  cbn [x y neutral negative positive].
  intros [(Hxn & Hxm & Hxp) (Hyn & Hym & Hyp)].
  rewrite !pack_pair_arith by assumption.
  destruct (unpack_pair xn yn Hxn Hyn) as (E1 & E2 & B1 & B2 & B3).
  destruct (unpack_pair xp yp Hxp Hyp) as (E3 & E4 & B4 & B5 & B6).
  destruct (unpack_pair xm ym Hxm Hym) as (E5 & E6 & B7 & B8 & B9).
  split; [| split].
  - unfold decoded, lo12, hi12, byte_at. cbn [app nth Nat.add].
    rewrite E1, E2, E3, E4, E5, E6. reflexivity.
  - reflexivity.
  - cbn [app]. repeat (apply Forall_cons; [assumption |]). apply Forall_nil.
Qed.

Lemma synthesize_sentinel c :
  stick_12bit c -> synthesize_stick_block c = UNCALIBRATED -> c = all_ones_stick.
Proof.
  intros H12 E. destruct (synthesize_decoded c H12) as [D _].
  rewrite E in D. rewrite <- D. reflexivity.
Qed.

(** C3 (as amended): the sentinel block of nine 0xFF bytes parses to
    absent and leaves the calibration as it was; every other block of nine
    bytes parses to present, with the six values x-neutral, y-neutral,
    x-positive, y-positive, x-negative, y-negative taken in this order from
    the three byte groups, each a 12-bit value; and parsing the block
    synthesized from six 12-bit values gives back exactly these values,
    unless all six are 0xFFF, the values whose block is the sentinel. *)
Theorem parse_stick_calibration_codec :
  (forall calib,
     switch2_parse_stick_calibration calib UNCALIBRATED = (false, calib))
  /\ (forall calib data,
        List.length data = 9%nat -> Forall is_byte data ->
        data <> UNCALIBRATED ->
        switch2_parse_stick_calibration calib data = (true, decoded data)
        /\ stick_12bit (decoded data))
  /\ (forall calib c,
        stick_12bit c -> c <> all_ones_stick ->
        switch2_parse_stick_calibration calib (synthesize_stick_block c)
        = (true, c)).
Proof.
  split; [| split].
  - intros calib. reflexivity.
  - exact parse_present.
  - intros calib c H12 Hne.
    destruct (synthesize_decoded c H12) as (D & Hlen & Hall).
    destruct (parse_present calib (synthesize_stick_block c) Hlen Hall) as [P _].
    + intros E. apply Hne. apply synthesize_sentinel; assumption.
    + rewrite P, D. reflexivity.
Qed.

Lemma is_byte_decide b : (0 <=? b) && (b <? 256) = true -> is_byte b.
Proof. unfold is_byte. lia. Qed.

(** Every element of a closed list is a byte. *)
Ltac bytes :=
  repeat (apply Forall_cons; [apply is_byte_decide; reflexivity |]);
  apply Forall_nil.

Lemma parse_stick_calibration_codec_witness :
  (List.length sample_block = 9%nat /\ Forall is_byte sample_block
   /\ sample_block <> UNCALIBRATED
   /\ switch2_parse_stick_calibration zero_stick sample_block
      = (true, decoded sample_block)
   /\ stick_12bit (decoded sample_block))
  /\ (stick_12bit sample_stick /\ sample_stick <> all_ones_stick
      /\ switch2_parse_stick_calibration zero_stick
           (synthesize_stick_block sample_stick) = (true, sample_stick)).
Proof.
  assert (H9 : List.length sample_block = 9%nat) by reflexivity.
  assert (Hb : Forall is_byte sample_block) by (unfold sample_block; bytes).
  assert (Hs : sample_block <> UNCALIBRATED) by discriminate.
  assert (H12 : stick_12bit sample_stick)
    by (unfold stick_12bit, axis_12bit, is_12bit; cbn; lia).
  assert (Hn : sample_stick <> all_ones_stick) by discriminate.
  split.
  - repeat (split; [assumption |]).
    apply (proj1 (proj2 parse_stick_calibration_codec) zero_stick sample_block);
      assumption.
  - repeat (split; [assumption |]).
    apply (proj2 (proj2 parse_stick_calibration_codec) zero_stick sample_stick);
      assumption.
Defined.

(** The six values 0xFFF are 12-bit values, and the block synthesized from
    them is the sentinel: parsing it does not give the values back. *)
Lemma all_ones_block_parses_absent :
  stick_12bit all_ones_stick
  /\ synthesize_stick_block all_ones_stick = UNCALIBRATED
  /\ switch2_parse_stick_calibration zero_stick
       (synthesize_stick_block all_ones_stick) = (false, zero_stick)
  /\ switch2_parse_stick_calibration zero_stick
       (synthesize_stick_block all_ones_stick) <> (true, all_ones_stick).
Proof.
  split; [| split; [| split]].
  - unfold stick_12bit, axis_12bit, is_12bit; cbn; lia.
  - reflexivity.
  - reflexivity.
  - discriminate.
Qed.

(** ** User calibration *)

Lemma le16_magic d0 d1 rest :
  is_byte d0 -> is_byte d1 ->
  le16 (d0 :: d1 :: rest) = NS2_USER_CALIB_MAGIC <-> d0 = 0xb2 /\ d1 = 0xa1.
Proof.
  unfold is_byte, le16, byte_at, NS2_USER_CALIB_MAGIC. cbn [nth].
  intros H0 H1. rewrite lor_shiftl_add by lia. change (2 ^ 8) with 256. lia.
Qed.

(** C4: a user calibration block (size 11, at the user address of either
    stick) whose first two bytes are not the little-endian magic 0xa1b2
    leaves the session, and so the stored calibration, as it was, whatever
    the nine bytes after them are; with the magic in place the nine bytes
    after it are handled exactly as a factory block of the same stick. *)
Theorem user_calibration_magic :
  forall ns2 data i,
    (le16 data <> NS2_USER_CALIB_MAGIC ->
     switch2_handle_flash_read ns2 NS2_FLASH_SIZE_USER_AXIS_CALIB
       (user_calib_address i) data = ns2)
    /\ (le16 data = NS2_USER_CALIB_MAGIC ->
        switch2_handle_flash_read ns2 NS2_FLASH_SIZE_USER_AXIS_CALIB
          (user_calib_address i) data
        = switch2_handle_flash_read ns2 NS2_FLASH_SIZE_FACTORY_AXIS_CALIB
            (factory_calib_address i) (skipn 2 data)
        /\ stick_calib_at
             (switch2_handle_flash_read ns2 NS2_FLASH_SIZE_USER_AXIS_CALIB
                (user_calib_address i) data) i
           = snd (switch2_parse_stick_calibration (stick_calib_at ns2 i)
                    (skipn 2 data))).
Proof.
  intros ns2 data i. split.
  - intros Hne. apply Z.eqb_neq in Hne.
    destruct i; unfold switch2_handle_flash_read, user_calib_address;
      cbn [Z.eqb Pos.eqb negb]; rewrite Hne; reflexivity.
  - intros He. apply Z.eqb_eq in He.
    destruct i; unfold switch2_handle_flash_read, user_calib_address,
      factory_calib_address; cbn [Z.eqb Pos.eqb negb]; rewrite He;
      cbn [negb]; (split; [reflexivity |]);
      unfold parse_into, set_stick_calib, stick_calib_at; reflexivity.
Qed.

Lemma user_calibration_magic_witness :
  (le16 sample_unmarked_block <> NS2_USER_CALIB_MAGIC
   /\ switch2_handle_flash_read zero_controller NS2_FLASH_SIZE_USER_AXIS_CALIB
        (user_calib_address 0) sample_unmarked_block = zero_controller)
  /\ (le16 sample_user_block = NS2_USER_CALIB_MAGIC
      /\ switch2_handle_flash_read zero_controller
           NS2_FLASH_SIZE_USER_AXIS_CALIB (user_calib_address 1)
           sample_user_block
         = switch2_handle_flash_read zero_controller
             NS2_FLASH_SIZE_FACTORY_AXIS_CALIB (factory_calib_address 1)
             (skipn 2 sample_user_block)).
Proof.
  split.
  - assert (H : le16 sample_unmarked_block <> NS2_USER_CALIB_MAGIC)
      by (vm_compute; discriminate).
    split; [exact H |].
    exact (proj1 (user_calibration_magic zero_controller sample_unmarked_block 0) H).
  - assert (H : le16 sample_user_block = NS2_USER_CALIB_MAGIC) by reflexivity.
    split; [exact H |].
    exact (proj1 (proj2 (user_calibration_magic zero_controller
                           sample_user_block 1) H)).
Defined.

(** ** Report transforms *)

Lemma int_small v : - 2147483648 <= v < 2147483648 -> int v = v.
Proof.
  intros H. unfold int.
  change (2 ^ 31) with 2147483648. change (2 ^ 32) with 4294967296.
  rewrite Z.mod_small by lia. lia.
Qed.

Lemma clamp_range v lo hi : lo <= hi -> lo <= clamp v lo hi <= hi.
Proof. unfold clamp. lia. Qed.

(** Truncating division by a positive divisor does not leave a symmetric
    interval. *)
Lemma quot_within a d m :
  0 < d -> - m <= a <= m -> - m <= Z.quot a d <= m.
Proof.
  intros Hd Ha. destruct (Z.le_gt_cases 0 a) as [Hpos | Hneg].
  - pose proof (Z.quot_pos a d Hpos Hd).
    assert (Z.quot a d <= a); [| lia].
    rewrite Z.quot_div_nonneg by lia.
    apply Z.div_le_upper_bound; nia.
  - assert (E : Z.quot a d = - Z.quot (- a) d)
      by (rewrite Z.quot_opp_l by lia; lia).
    pose proof (Z.quot_pos (- a) d ltac:(lia) Hd).
    assert (Z.quot (- a) d <= - a); [| lia].
    rewrite Z.quot_div_nonneg by lia.
    apply Z.div_le_upper_bound; nia.
Qed.

Lemma calibrated_nonzero c :
  calibrated c = true <->
  neutral c <> 0 /\ negative c <> 0 /\ positive c <> 0.
Proof.
  unfold calibrated, truthy.
  rewrite !andb_true_iff, !negb_true_iff, !Z.eqb_neq. tauto.
Qed.

(** The calibrated branch on machine integers agrees with the
    normalization on unbounded integers and stays far inside [int]. *)
Lemma calibrated_branch c raw :
  is_u16 raw -> axis_u16 c -> calibrated c = true ->
  (let value := int (int (raw - neutral c) * (NS2_AXIS_MAX + 1)) in
   if value <? 0 then int (Z.quot value (negative c))
   else int (Z.quot value (positive c))) = normalize c raw
  /\ - 2147450880 <= normalize c raw <= 2147450880.
Proof.
  unfold axis_u16, is_u16. intros Hraw (Hn & Hm & Hp) Hc.
  pose proof (proj1 (calibrated_nonzero c) Hc) as (Nn & Nm & Np).
  unfold normalize. rewrite Hc. unfold NS2_AXIS_MAX. cbn zeta.
  rewrite (int_small (raw - neutral c)) by lia.
  rewrite (int_small ((raw - neutral c) * (32767 + 1))) by lia.
  assert (Hv : - 2147450880 <= (raw - neutral c) * (32767 + 1) <= 2147450880)
    by lia.
  pose proof (quot_within ((raw - neutral c) * (32767 + 1)) (negative c)
                2147450880 ltac:(lia) ltac:(lia)).
  pose proof (quot_within ((raw - neutral c) * (32767 + 1)) (positive c)
                2147450880 ltac:(lia) ltac:(lia)).
  destruct ((raw - neutral c) * (32767 + 1) <? 0);
    rewrite int_small by lia; lia.
Qed.

Lemma fallback_branch raw :
  is_u16 raw ->
  int (int (raw - 2048) * 16) = (raw - 2048) * 16
  /\ - 2147450880 <= (raw - 2048) * 16 <= 2147450880.
Proof.
  unfold is_u16. intros Hraw.
  rewrite (int_small (raw - 2048)) by lia.
  rewrite int_small by lia. lia.
Qed.

Lemma flip_int (negate : bool) (v : Z) :
  - 2147450880 <= v <= 2147450880 ->
  (if negate then int (- v) else v) = flip negate v.
Proof.
  intros Hv. unfold flip. destruct negate; [apply int_small; lia | reflexivity].
Qed.

(** The value reported for an axis, for inputs in the range of their
    16-bit types. *)
Lemma report_axis_value calib axis raw negate :
  is_u16 raw ->
  match calib with Some c => axis_u16 c | None => True end ->
  abs_value (switch2_report_axis calib axis raw negate)
  = clamp (flip negate (match calib with
                        | Some c => normalize c raw
                        | None => (raw - 2048) * 16
                        end)) NS2_AXIS_MIN NS2_AXIS_MAX.
Proof.
  intros Hraw Hcal.
  unfold switch2_report_axis. cbn [abs_value]. f_equal.
  destruct calib as [c |].
  - destruct (calibrated c) eqn:Hc.
    + destruct (calibrated_branch c raw Hraw Hcal Hc) as [E B].
      cbn zeta in E. rewrite E. apply flip_int. exact B.
    + destruct (fallback_branch raw Hraw) as [E B].
      rewrite E. unfold normalize. rewrite Hc. apply flip_int. exact B.
  - destruct (fallback_branch raw Hraw) as [E B].
    rewrite E. apply flip_int. exact B.
Qed.

(** The raw samples that [switch2_report_stick] passes on are 12-bit
    values. *)
Lemma stick_raw_12bit data :
  Forall is_byte data ->
  is_12bit (stick_raw_x data) /\ is_12bit (stick_raw_y data).
Proof.
  intros Hall. unfold stick_raw_x, stick_raw_y, is_12bit.
  pose proof (byte_at_in_range data 0 Hall) as H0.
  pose proof (byte_at_in_range data 1 Hall) as H1.
  pose proof (byte_at_in_range data 2 Hall) as H2.
  rewrite lor_low_nibble, lor_high_nibble by assumption.
  destruct (nibble_bounds _ H1). unfold is_byte in *. lia.
Qed.

(** C5: for a raw sample and calibration values in the range of their
    16-bit types, the reported value is the normalization of the
    specification -- ((raw - neutral) * 32768 divided, truncating, by
    negative when the product is below zero and by positive otherwise) when
    neutral, negative and positive are all nonzero, (raw - 2048) * 16 when
    not or when there is no calibration -- with the sign flip applied first
    and the clamp to [-32768, 32767] last; it is always in that range. *)
Theorem report_axis_normalized :
  forall calib axis raw negate,
    is_u16 raw ->
    match calib with Some c => axis_u16 c | None => True end ->
    let v := match calib with
             | Some c => normalize c raw
             | None => (raw - 2048) * 16
             end in
    abs_value (switch2_report_axis calib axis raw negate)
    = clamp (flip negate v) NS2_AXIS_MIN NS2_AXIS_MAX
    /\ NS2_AXIS_MIN <= abs_value (switch2_report_axis calib axis raw negate)
       <= NS2_AXIS_MAX
    /\ abs_code (switch2_report_axis calib axis raw negate) = axis.
Proof.
  intros calib axis raw negate Hraw Hcal v.
  split; [| split; [| reflexivity]].
  - apply report_axis_value; assumption.
  - unfold switch2_report_axis. cbn [abs_value].
    apply clamp_range. unfold NS2_AXIS_MIN, NS2_AXIS_MAX. lia.
Qed.

Lemma sample_axis_u16 : axis_u16 (x sample_stick).
Proof. unfold axis_u16, is_u16. cbn. lia. Qed.

Lemma report_axis_normalized_witness :
  is_u16 3000 /\ axis_u16 (x sample_stick)
  /\ abs_value (switch2_report_axis (Some (x sample_stick)) ABS_X 3000 false)
     = clamp (flip false (normalize (x sample_stick) 3000))
         NS2_AXIS_MIN NS2_AXIS_MAX
  /\ NS2_AXIS_MIN
     <= abs_value (switch2_report_axis (Some (x sample_stick)) ABS_X 3000 false)
     <= NS2_AXIS_MAX.
Proof.
  assert (Hr : is_u16 3000) by (unfold is_u16; lia).
  split; [exact Hr |]. split; [exact sample_axis_u16 |].
  destruct (report_axis_normalized (Some (x sample_stick)) ABS_X 3000 false
              Hr sample_axis_u16) as (E & B & _).
  split; [exact E | exact B].
Defined.

(** With the calibration of [sample_stick] a sample of 3000 is reported as
    22282 = (3000 - 2048) * 32768 / 1400, a sample of 1000 as -22893. *)
Example report_axis_sample :
  abs_value (switch2_report_axis (Some (x sample_stick)) ABS_X 3000 false) = 22282
  /\ abs_value (switch2_report_axis (Some (x sample_stick)) ABS_X 1000 false) = -22893
  /\ abs_value (switch2_report_axis (Some (x sample_stick)) ABS_X 2048 true) = 0
  /\ abs_value (switch2_report_axis (Some zero_axis) ABS_X 4095 false) = 32752
  /\ abs_value (switch2_report_axis (Some zero_axis) ABS_Y 0 true) = 32767.
Proof. repeat split. Qed.

(** C8 (as amended): whatever calibration is stored, the axis transform
    applies it only when neutral, negative and positive are all nonzero; a
    partial calibration, with some but not all of the three nonzero, is
    never applied: the reported value is the fixed linear default
    (raw - 2048) * 16, sign-flipped and clamped. *)
Theorem partial_calibration_falls_back :
  forall c axis raw negate,
    is_u16 raw -> axis_u16 c -> partial c = true ->
    calibrated c = false
    /\ abs_value (switch2_report_axis (Some c) axis raw negate)
       = clamp (flip negate ((raw - 2048) * 16)) NS2_AXIS_MIN NS2_AXIS_MAX.
Proof.
  intros c axis raw negate Hraw Hc Hp.
  assert (Hn : calibrated c = false).
  { unfold partial in Hp. apply andb_true_iff in Hp.
    destruct Hp as [Hp _]. apply negb_true_iff in Hp. exact Hp. }
  split; [exact Hn |].
  rewrite (report_axis_value (Some c) axis raw negate Hraw Hc).
  unfold normalize. rewrite Hn. reflexivity.
Qed.

Lemma attached_reachable : reachable attached_session.
Proof. apply reach_usb_probe. apply reach_new. Qed.

(** A removal that has run to its end is the clearing of the handle
    followed by [switch2_controller_put]. *)
Lemma removed_reachable ns2 ns2' :
  reachable ns2 ->
  switch2_remove ns2 = Some ns2' \/ switch2_usb_disconnect ns2 = Some ns2' ->
  reachable ns2'.
Proof.
  intros R [E | E].
  - apply (reach_put (unbind_hdev ns2)); [apply reach_unbind_hdev; exact R
                                         | left; reflexivity | exact E].
  - apply (reach_put (unbind_cfg ns2)); [apply reach_unbind_cfg; exact R
                                        | right; reflexivity | exact E].
Qed.

Lemma in_buffer_delivered bytes fill n :
  Forall is_byte bytes -> is_byte fill ->
  (List.length bytes <= 64)%nat -> 0 <= n <= 64 ->
  delivered (in_buffer bytes fill) n.
Proof.
  intros Hb Hf Hlen Hn. unfold delivered, in_buffer. split; [| split].
  - rewrite length_app, repeat_length. lia.
  - apply Forall_app. split; [exact Hb |].
    apply Forall_forall. intros v Hv. apply repeat_spec in Hv. subst. exact Hf.
  - exact Hn.
Qed.

Lemma zero_is_byte : is_byte 0.
Proof. unfold is_byte. lia. Qed.

Lemma lone_neutral_reachable : reachable lone_neutral_session.
Proof.
  apply reach_receive; [exact attached_reachable |].
  apply in_buffer_delivered;
    [vm_compute flash_reply; bytes | exact zero_is_byte | cbn; lia | lia].
Qed.

Lemma partial_calibration_falls_back_witness :
  is_u16 3000
  /\ axis_u16 (x (stick_calib_at lone_neutral_session 0))
  /\ partial (x (stick_calib_at lone_neutral_session 0)) = true
  /\ abs_value (switch2_report_axis
                  (Some (x (stick_calib_at lone_neutral_session 0)))
                  ABS_X 3000 false)
     = clamp (flip false ((3000 - 2048) * 16)) NS2_AXIS_MIN NS2_AXIS_MAX.
Proof.
  assert (Hr : is_u16 3000) by (unfold is_u16; lia).
  assert (Hc : axis_u16 (x (stick_calib_at lone_neutral_session 0)))
    by (unfold axis_u16, is_u16; cbn; lia).
  assert (Hp : partial (x (stick_calib_at lone_neutral_session 0)) = true)
    by reflexivity.
  repeat (split; [assumption |]).
  exact (proj2 (partial_calibration_falls_back _ ABS_X 3000 false Hr Hc Hp)).
Defined.

(** A session that the driver reaches stores a partial calibration: after
    the command path attaches, a flash-read reply for the factory
    calibration of the primary stick whose block holds x-neutral = 1 and
    zeros elsewhere leaves neutral = 1, negative = 0, positive = 0. *)
Lemma partial_calibration_reachable :
  reachable lone_neutral_session
  /\ x (stick_calib_at lone_neutral_session 0)
     = {| neutral := 1; negative := 0; positive := 0 |}
  /\ partial (x (stick_calib_at lone_neutral_session 0)) = true.
Proof.
  split; [exact lone_neutral_reachable |]. split; reflexivity.
Qed.

(** ** Trigger transform *)

Lemma trigger_232_reachable :
  reachable trigger_232_session /\ lt_zero trigger_232_session = 232
  /\ rt_zero trigger_232_session = 232.
Proof.
  split; [| split; reflexivity].
  apply reach_receive; [exact attached_reachable |].
  apply in_buffer_delivered;
    [vm_compute flash_reply; bytes | exact zero_is_byte | cbn; lia | lia].
Qed.

(** Away from 232 the trigger transform returns
    4096 * (raw - zero) / (232 - zero), truncated and clamped to
    [0, 4095]. *)
Lemma report_trigger_guarded zero abs data :
  is_byte zero -> is_byte data -> zero <> 232 ->
  exists ev,
    switch2_report_trigger zero abs data = Some ev
    /\ abs_code ev = abs
    /\ abs_value ev
       = clamp (Z.quot ((NS2_TRIGGER_RANGE + 1) * (data - zero)) (232 - zero))
           0 NS2_TRIGGER_RANGE
    /\ 0 <= abs_value ev <= NS2_TRIGGER_RANGE.
Proof.
  unfold is_byte. intros Hz Hd Hne. unfold switch2_report_trigger.
  destruct (232 - zero =? 0) eqn:E; [apply Z.eqb_eq in E; lia |].
  eexists. split; [reflexivity |]. cbn [abs_code abs_value].
  unfold NS2_TRIGGER_RANGE.
  rewrite (int_small ((4095 + 1) * (data - zero))) by lia.
  assert (Hq : - 1044480 <= Z.quot ((4095 + 1) * (data - zero)) (232 - zero)
               <= 1044480).
  { destruct (Z.lt_ge_cases 0 (232 - zero)) as [Hpos | Hneg].
    - apply (quot_within ((4095 + 1) * (data - zero)) (232 - zero) 1044480);
        lia.
    - replace (232 - zero) with (- (zero - 232)) by lia.
      rewrite Z.quot_opp_r by lia.
      pose proof (quot_within ((4095 + 1) * (data - zero)) (zero - 232)
                    1044480 ltac:(lia) ltac:(lia)).
      lia. }
  rewrite int_small by lia.
  split; [reflexivity |]. split; [reflexivity |].
  apply clamp_range. lia.
Qed.

(** C1 (failing input): a trigger calibration read from flash sets the
    zero point 232; the divisor 232 - zero is then zero and the transform
    performs the division all the same: no value is returned, for any raw
    byte, where the specification asks for saturation to 4095. *)
Theorem report_trigger_unguarded_division :
  reachable trigger_232_session
  /\ lt_zero trigger_232_session = 232
  /\ (forall data,
        switch2_report_trigger (lt_zero trigger_232_session) ABS_Z data = None)
  /\ (forall abs data, switch2_report_trigger 232 abs data = None).
Proof.
  destruct trigger_232_reachable as (Hr & Hl & _).
  split; [exact Hr |]. split; [exact Hl |]. split.
  - intros data. rewrite Hl. reflexivity.
  - intros abs data. unfold switch2_report_trigger.
    change (232 - 232 =? 0) with true. reflexivity.
Qed.

(** ** Command decoder *)

Lemma byte_at_skipn n data i : byte_at (skipn n data) i = byte_at data (n + i).
Proof.
  unfold byte_at. revert data.
  induction n as [| n IH]; intros data; [reflexivity |].
  destruct data as [| d data]; [destruct i; reflexivity |].
  cbn [skipn Nat.add nth]. apply IH.
Qed.

Lemma kick_state env ns2 :
  state_of (if init_step ns2 <? NS2_INIT_DONE
            then switch2_init_controller env ns2 else (0, ns2, []))
  = kicked env ns2.
Proof. unfold kicked. destruct (init_step ns2 <? NS2_INIT_DONE); reflexivity. Qed.

(** The flash-read branch of the decoder. *)
Lemma receive_flash_read env ns2 message length :
  8 <= length ->
  byte_at message 0 = NS2_CMD_FLASH ->
  byte_at message 3 = NS2_SUBCMD_FLASH_READ ->
  let o := switch2_receive_command env ns2 message length in
  if (length <? 16) || (length <? byte_at message 8 + 16)
  then ret_of o = - EINVAL /\ state_of o = kicked env ns2
  else ret_of o = 0
       /\ state_of o
          = switch2_handle_flash_read (kicked env ns2) (byte_at message 8)
              (le32 (skipn 12 message)) (skipn 16 message).
Proof.
  intros Hlen Hc Hs o. unfold o, switch2_receive_command.
  destruct (length <? 8) eqn:E8; [apply Z.ltb_lt in E8; lia |].
  rewrite Hc, Hs, kick_state, !Z.eqb_refl.
  rewrite byte_at_skipn, !skipn_skipn. cbn [Nat.add].
  destruct (length <? 16); [split; reflexivity |].
  cbn [orb].
  destruct (length <? byte_at message 8 + 16); split; reflexivity.
Qed.

(** C7: a frame shorter than 8 bytes is rejected with -EINVAL and nothing
    else happens; a flash-read reply is rejected with -EINVAL when it is
    shorter than 16 bytes or shorter than 16 plus the size it declares, and
    then the session is the one the initialization kick left: the payload
    reached the calibration codec only in the remaining case, where all
    checks passed, the call returns 0 and the codec was given the declared
    size, the little-endian address at offset 12 and the bytes from offset
    16 on. *)
Theorem receive_command_length_checks :
  forall env ns2 message length,
    (length < 8 ->
     switch2_receive_command env ns2 message length = (- EINVAL, ns2, []))
    /\ (8 <= length ->
        byte_at message 0 = NS2_CMD_FLASH ->
        byte_at message 3 = NS2_SUBCMD_FLASH_READ ->
        length < 16 \/ length < 16 + byte_at message 8 ->
        ret_of (switch2_receive_command env ns2 message length) = - EINVAL
        /\ state_of (switch2_receive_command env ns2 message length)
           = kicked env ns2)
    /\ (8 <= length ->
        byte_at message 0 = NS2_CMD_FLASH ->
        byte_at message 3 = NS2_SUBCMD_FLASH_READ ->
        16 <= length -> 16 + byte_at message 8 <= length ->
        ret_of (switch2_receive_command env ns2 message length) = 0
        /\ state_of (switch2_receive_command env ns2 message length)
           = switch2_handle_flash_read (kicked env ns2) (byte_at message 8)
               (le32 (skipn 12 message)) (skipn 16 message)).
Proof.
  intros env ns2 message length. split; [| split].
  - intros H. unfold switch2_receive_command.
    apply Z.ltb_lt in H. rewrite H. reflexivity.
  - intros H8 Hc Hs Hshort.
    pose proof (receive_flash_read env ns2 message length H8 Hc Hs) as R.
    cbn zeta in R.
    destruct (length <? 16) eqn:E16; [exact R |].
    destruct (length <? byte_at message 8 + 16) eqn:Es; [exact R |].
    apply Z.ltb_ge in E16, Es. lia.
  - intros H8 Hc Hs H16 Hsz.
    pose proof (receive_flash_read env ns2 message length H8 Hc Hs) as R.
    cbn zeta in R.
    destruct (length <? 16) eqn:E16; [apply Z.ltb_lt in E16; lia |].
    destruct (length <? byte_at message 8 + 16) eqn:Es;
      [apply Z.ltb_lt in Es; lia | exact R].
Qed.

Lemma receive_command_length_checks_witness :
  switch2_receive_command env_ok attached_session (in_buffer [] 0) 4
  = (- EINVAL, attached_session, [])
  /\ ret_of (switch2_receive_command env_ok attached_session
               (in_buffer (flash_reply 9 NS2_FLASH_ADDR_FACTORY_PRIMARY_CALIB
                             lone_neutral_block) 0) 20) = - EINVAL
  /\ state_of (switch2_receive_command env_ok attached_session
                 (in_buffer (flash_reply 9 NS2_FLASH_ADDR_FACTORY_PRIMARY_CALIB
                               lone_neutral_block) 0) 25)
     = switch2_handle_flash_read (kicked env_ok attached_session) 9
         NS2_FLASH_ADDR_FACTORY_PRIMARY_CALIB lone_neutral_block.
Proof.
  split; [| split].
  - apply (proj1 (receive_command_length_checks env_ok attached_session
                    (in_buffer [] 0) 4)). lia.
  - apply (proj1 (proj2 (receive_command_length_checks env_ok attached_session
                           (in_buffer (flash_reply 9
                                         NS2_FLASH_ADDR_FACTORY_PRIMARY_CALIB
                                         lone_neutral_block) 0) 20)));
      [lia | reflexivity | reflexivity | right; vm_compute; reflexivity].
  - apply (proj2 (proj2 (receive_command_length_checks env_ok attached_session
                           (in_buffer (flash_reply 9
                                         NS2_FLASH_ADDR_FACTORY_PRIMARY_CALIB
                                         lone_neutral_block) 0) 25)));
      [lia | reflexivity | reflexivity | lia | vm_compute; discriminate].
Defined.

(** *** Frame locality

    Outside the firmware-info branch the decoder reads no byte beyond the
    [length] bytes of the frame: what lies in the buffer after the frame
    does not matter. *)

Lemma parse_stick_calibration_ext calib d1 d2 :
  (forall i, (i < 9)%nat -> byte_at d1 i = byte_at d2 i) ->
  switch2_parse_stick_calibration calib d1
  = switch2_parse_stick_calibration calib d2.
Proof.
  intros H. unfold switch2_parse_stick_calibration, memeq, unpack_lo, unpack_hi.
  cbn [seq forallb Nat.add].
  rewrite !(H 0%nat), !(H 1%nat), !(H 2%nat), !(H 3%nat), !(H 4%nat),
    !(H 5%nat), !(H 6%nat), !(H 7%nat), !(H 8%nat) by lia.
  reflexivity.
Qed.

Lemma parse_into_ext ns2 k d1 d2 :
  (forall i, (i < 9)%nat -> byte_at d1 i = byte_at d2 i) ->
  parse_into ns2 k d1 = parse_into ns2 k d2.
Proof.
  intros H. unfold parse_into.
  rewrite (parse_stick_calibration_ext _ d1 d2 H). reflexivity.
Qed.

Lemma memcpy_ext dst d1 d2 n :
  (forall i, (i < n)%nat -> byte_at d1 i = byte_at d2 i) ->
  memcpy dst d1 n = memcpy dst d2 n.
Proof.
  intros H. unfold memcpy. f_equal. apply map_ext_in.
  intros i Hi. apply in_seq in Hi. apply H. lia.
Qed.

Lemma handle_flash_read_ext ns2 size address d1 d2 :
  (forall i, (i < Z.to_nat size)%nat -> byte_at d1 i = byte_at d2 i) ->
  switch2_handle_flash_read ns2 size address d1
  = switch2_handle_flash_read ns2 size address d2.
Proof.
  intros H. unfold switch2_handle_flash_read.
  repeat match goal with
         | |- (if ?a =? ?b then _ else _) = _ =>
             destruct (Z.eqb_spec a b); [subst a |]
         | |- (if negb (?a =? ?b) then _ else _) = _ =>
             destruct (Z.eqb_spec a b); [subst a |]; cbn [negb]
         end; try reflexivity.
  - apply f_equal, memcpy_ext, H.
  - apply parse_into_ext. intros i Hi. apply H. cbn. lia.
  - apply parse_into_ext. intros i Hi. apply H. cbn. lia.
  - rewrite !(H 0%nat), !(H 1%nat) by (cbn; lia). reflexivity.
  - unfold le16. rewrite !(H 0%nat), !(H 1%nat) by (cbn; lia).
    destruct (negb _); [reflexivity |].
    apply parse_into_ext. intros i Hi. rewrite !byte_at_skipn.
    apply H. cbn. lia.
  - unfold le16. rewrite !(H 0%nat), !(H 1%nat) by (cbn; lia).
    destruct (negb _); [reflexivity |].
    apply parse_into_ext. intros i Hi. rewrite !byte_at_skipn.
    apply H. cbn. lia.
Qed.

Lemma byte_at_frame frame rest i :
  (i < List.length frame)%nat -> byte_at (frame ++ rest) i = byte_at frame i.
Proof. intros H. unfold byte_at. apply app_nth1. exact H. Qed.

Lemma receive_command_frame_local env ns2 frame rest1 rest2 :
  byte_at frame 0 <> NS2_CMD_FW_INFO ->
  switch2_receive_command env ns2 (frame ++ rest1) (Z.of_nat (List.length frame))
  = switch2_receive_command env ns2 (frame ++ rest2) (Z.of_nat (List.length frame)).
Proof.
  intros Hc. unfold switch2_receive_command.
  destruct (Z.of_nat (List.length frame) <? 8) eqn:E8; [reflexivity |].
  apply Z.ltb_ge in E8.
  rewrite !(byte_at_frame frame _ 0), !(byte_at_frame frame _ 3) by lia.
  destruct (byte_at frame 0 =? NS2_CMD_FLASH).
  - destruct (byte_at frame 3 =? NS2_SUBCMD_FLASH_READ); [| reflexivity].
    destruct (Z.of_nat (List.length frame) <? 16) eqn:E16; [reflexivity |].
    apply Z.ltb_ge in E16.
    rewrite !skipn_skipn. cbn [Nat.add].
    assert (Hsz : forall rest,
               byte_at (skipn 8 (frame ++ rest)) 0 = byte_at frame 8)
      by (intros rest; rewrite byte_at_skipn; apply byte_at_frame; lia).
    assert (Had : forall rest,
               le32 (skipn 12 (frame ++ rest)) = le32 (skipn 12 frame)).
    { intros rest. unfold le32. rewrite !byte_at_skipn.
      rewrite !byte_at_frame by lia. reflexivity. }
    rewrite !Hsz, !Had.
    destruct (Z.of_nat (List.length frame) <? byte_at frame 8 + 16) eqn:Es;
      [reflexivity |].
    apply Z.ltb_ge in Es. f_equal. f_equal.
    apply handle_flash_read_ext. intros i Hi.
    rewrite !byte_at_skipn, !byte_at_frame by lia. reflexivity.
  - apply Z.eqb_neq in Hc. rewrite Hc. reflexivity.
Qed.

(** The firmware-info branch of the decoder: the only length it asks for
    is the size of the version structure, and the structure is then read
    at offset 8, from the bytes 8 to 19 of the buffer. *)
Lemma receive_fw_info env ns2 message length :
  sizeof_version <= length ->
  byte_at message 0 = NS2_CMD_FW_INFO ->
  byte_at message 3 = NS2_SUBCMD_FW_INFO_GET ->
  switch2_receive_command env ns2 message length
  = (0, set_version (kicked env ns2) (read_version (skipn 8 message)),
     sent_of (if init_step ns2 <? NS2_INIT_DONE
              then switch2_init_controller env ns2 else (0, ns2, []))).
Proof.
  unfold sizeof_version. intros Hlen Hc Hs. unfold switch2_receive_command.
  destruct (length <? 8) eqn:E8; [apply Z.ltb_lt in E8; lia |].
  rewrite Hc, Hs, kick_state.
  change (NS2_CMD_FW_INFO =? NS2_CMD_FLASH) with false.
  rewrite !Z.eqb_refl. cbv iota.
  destruct (length <? sizeof_version) eqn:E12;
    [apply Z.ltb_lt in E12; unfold sizeof_version in E12; lia | reflexivity].
Qed.

(** C2 (failing input): a session holds the version 1.2.3 of a Pro
    Controller from a complete firmware-info reply.  A firmware-info reply
    of 12 bytes -- the header and four bytes of the structure -- then
    arrives in a buffer whose other bytes hold 0xAA.  The call returns 0,
    and the version and the controller type are overwritten; the eight
    bytes that the frame does not contain are taken from the buffer, so the
    same frame in a buffer that holds 0x55 leaves another version. *)
Theorem short_fw_info_overwrites_version :
  delivered (in_buffer short_fw_info_reply 0xAA) 12
  /\ version versioned_session
     = {| major := 1; minor := 2; patch := 3;
          version_ctlr_type := NS2_CTLR_TYPE_PRO; unk := 0;
          dsp_major := 4; dsp_minor := 5; dsp_patch := 6; dsp_type := 0 |}
  /\ ctlr_type versioned_session = NS2_CTLR_TYPE_PRO
  /\ ret_of (switch2_receive_command env_ok versioned_session
               (in_buffer short_fw_info_reply 0xAA) 12) = 0
  /\ version short_fw_info_session
     = {| major := 9; minor := 9; patch := 9;
          version_ctlr_type := NS2_CTLR_TYPE_GC; unk := 0xAAAAAAAA;
          dsp_major := -86; dsp_minor := -86; dsp_patch := -86;
          dsp_type := -86 |}
  /\ ctlr_type short_fw_info_session = NS2_CTLR_TYPE_GC
  /\ firstn 12 (in_buffer short_fw_info_reply 0x55)
     = firstn 12 (in_buffer short_fw_info_reply 0xAA)
  /\ version short_fw_info_session_55 <> version short_fw_info_session.
Proof.
  split.
  - apply in_buffer_delivered;
      [vm_compute short_fw_info_reply; bytes
      | apply is_byte_decide; reflexivity | cbn; lia | lia].
  - repeat split. discriminate.
Qed.

(** ** Initialization state machine *)

Section InitMachine.

Variable env : environment.

Lemma send_state ns2 c sc message : state_of (send env ns2 c sc message) = ns2.
Proof. reflexivity. Qed.

Lemma read_flash_state ns2 address size :
  state_of (switch2_read_flash env ns2 address size) = ns2.
Proof. unfold switch2_read_flash. destruct (cfg ns2); reflexivity. Qed.

Lemma features_enable_state ns2 features :
  state_of (switch2_features_enable env ns2 features) = ns2.
Proof. unfold switch2_features_enable. destruct (cfg ns2); reflexivity. Qed.

Lemma set_player_id_state ns2 id :
  state_of (switch2_set_player_id env ns2 id) = ns2.
Proof. unfold switch2_set_player_id. destruct (cfg ns2); reflexivity. Qed.

Lemma init_input_step ns2 :
  init_step (state_of (switch2_init_input env ns2)) = init_step ns2.
Proof.
  unfold switch2_init_input.
  repeat match goal with
         | |- context [if ?b then _ else _] => destruct b
         end; reflexivity.
Qed.

(** A pass through the [switch] leaves [init_step] alone. *)
Lemma init_step_action_step ns2 :
  match init_step_action env ns2 with
  | Return o => init_step (state_of o) = init_step ns2
  | Break ns2' => ns2' = ns2
  end.
Proof.
  unfold init_step_action.
  repeat match goal with
         | |- context [if ?b then _ else _] => destruct b
         end;
    rewrite ?send_state, ?read_flash_state, ?features_enable_state,
      ?set_player_id_state, ?init_input_step; reflexivity.
Qed.

Lemma init_loop_monotone n :
  forall ns2, init_step ns2 <= init_step (state_of (init_loop env n ns2)).
Proof.
  induction n as [| n IH]; intros ns2; cbn [init_loop].
  - cbn. lia.
  - pose proof (init_step_action_step
                  (set_init_step ns2 (init_step ns2 + 1))) as A.
    destruct (init_step_action env (set_init_step ns2 (init_step ns2 + 1)))
      as [o | ns2'].
    + rewrite A. cbn. lia.
    + subst ns2'. specialize (IH (set_init_step ns2 (init_step ns2 + 1))).
      cbn [init_step set_init_step] in IH. lia.
Qed.

(** The recursion on the number of steps left is the [while] loop: one
    unfolding tests [init_step < NS2_INIT_DONE], increments, runs the
    [switch] and goes round again after a [break]. *)
Lemma init_loop_while ns2 :
  init_loop env (Z.to_nat (NS2_INIT_DONE - init_step ns2)) ns2
  = if init_step ns2 <? NS2_INIT_DONE then
      match init_step_action env (set_init_step ns2 (init_step ns2 + 1)) with
      | Return o => o
      | Break ns2' =>
          init_loop env (Z.to_nat (NS2_INIT_DONE - init_step ns2')) ns2'
      end
    else (0, ns2, []).
Proof.
  destruct (init_step ns2 <? NS2_INIT_DONE) eqn:E.
  - apply Z.ltb_lt in E.
    replace (Z.to_nat (NS2_INIT_DONE - init_step ns2))
      with (S (Z.to_nat (NS2_INIT_DONE - (init_step ns2 + 1)))) by lia.
    cbn [init_loop].
    pose proof (init_step_action_step
                  (set_init_step ns2 (init_step ns2 + 1))) as A.
    destruct (init_step_action env (set_init_step ns2 (init_step ns2 + 1)))
      as [o | ns2']; [reflexivity |].
    subst ns2'. reflexivity.
  - apply Z.ltb_ge in E.
    replace (Z.to_nat (NS2_INIT_DONE - init_step ns2)) with O by lia.
    reflexivity.
Qed.

Lemma init_controller_monotone ns2 :
  init_step ns2 <= init_step (state_of (switch2_init_controller env ns2)).
Proof.
  unfold switch2_init_controller.
  destruct (init_step ns2 =? NS2_INIT_DONE); [cbn; lia |].
  destruct (cfg ns2); cbn [negb]; [apply init_loop_monotone | cbn; lia].
Qed.

Lemma init_controller_done ns2 :
  init_step ns2 = NS2_INIT_DONE ->
  switch2_init_controller env ns2 = (0, ns2, []).
Proof.
  intros H. unfold switch2_init_controller. rewrite H. reflexivity.
Qed.

Lemma init_controller_unbound ns2 :
  cfg ns2 = false ->
  state_of (switch2_init_controller env ns2) = ns2
  /\ sent_of (switch2_init_controller env ns2) = []
  /\ (init_step ns2 <> NS2_INIT_DONE ->
      ret_of (switch2_init_controller env ns2) = - ENOTCONN).
Proof.
  intros H. unfold switch2_init_controller. rewrite H. cbn [negb].
  destruct (init_step ns2 =? NS2_INIT_DONE) eqn:E.
  - apply Z.eqb_eq in E. repeat split. intros N. contradiction.
  - repeat split.
Qed.

End InitMachine.

Lemma init_calls_monotone envs :
  forall ns2, init_step ns2 <= init_step (init_calls envs ns2).
Proof.
  induction envs as [| env envs IH]; intros ns2; cbn [init_calls]; [lia |].
  pose proof (init_controller_monotone env ns2).
  specialize (IH (state_of (switch2_init_controller env ns2))). lia.
Qed.

(** The two probes call [switch2_init_controller] exactly when both
    handles are bound, on a state that [init_called] covers. *)
Lemma init_call_sites env ida ns2 :
  (exists s,
     hdev s = true
     /\ switch2_probe env ida ns2
        = (if cfg s then switch2_init_controller env s else (0, s, []))
     /\ (cfg s = true -> init_called s))
  /\ (exists s,
        cfg s = true
        /\ switch2_usb_probe env ns2
           = (if hdev s then switch2_init_controller env s else (0, s, []))
        /\ (hdev s = true -> init_called s)).
Proof.
  split.
  - eexists. split; [| split; [unfold switch2_probe; reflexivity |]].
    + reflexivity.
    + intros Hc. apply called_by_probe; [reflexivity | exact Hc].
  - eexists. split; [| split; [unfold switch2_usb_probe; reflexivity |]].
    + reflexivity.
    + intros Hh. apply called_by_probe; [exact Hh | reflexivity].
Qed.

(** The driver calls with the command path unbound only below
    NS2_INIT_DONE. *)
Lemma init_called_unbound ns2 :
  init_called ns2 -> cfg ns2 = false -> init_step ns2 < NS2_INIT_DONE.
Proof.
  intros [s Hh Hc | s Hs] Hf; [congruence | exact Hs].
Qed.

(** C6: over any sequence of calls of [switch2_init_controller], whatever
    the transport answers, [init_step] never decreases; a call at
    NS2_INIT_DONE returns 0, changes nothing and sends nothing; a call
    with the command path unbound changes nothing and sends nothing, so
    [init_step] does not advance, and each such call that the driver makes
    returns -ENOTCONN: [switch2_probe] and [switch2_usb_probe] call with
    the command path bound, and [switch2_receive_command] calls only below
    NS2_INIT_DONE. *)
Theorem init_controller_guards :
  (forall envs ns2, init_step ns2 <= init_step (init_calls envs ns2))
  /\ (forall env ns2,
        init_step ns2 = NS2_INIT_DONE ->
        switch2_init_controller env ns2 = (0, ns2, []))
  /\ (forall env ns2,
        cfg ns2 = false ->
        state_of (switch2_init_controller env ns2) = ns2
        /\ sent_of (switch2_init_controller env ns2) = [])
  /\ (forall env ns2,
        init_called ns2 -> cfg ns2 = false ->
        switch2_init_controller env ns2 = (- ENOTCONN, ns2, [])).
Proof.
  split; [| split; [| split]].
  - intros envs ns2. apply init_calls_monotone.
  - intros env ns2. apply init_controller_done.
  - intros env ns2 Hc.
    destruct (init_controller_unbound env ns2 Hc) as (Hs & Ht & _).
    split; assumption.
  - intros env ns2 Hcall Hc.
    pose proof (init_called_unbound ns2 Hcall Hc) as Hlt.
    destruct (init_controller_unbound env ns2 Hc) as (Hs & Ht & Hr).
    specialize (Hr ltac:(lia)).
    destruct (switch2_init_controller env ns2) as [[r s] t].
    cbn [ret_of state_of sent_of fst snd] in Hs, Ht, Hr.
    rewrite Hs, Ht, Hr. reflexivity.
Qed.

Lemma init_controller_guards_witness :
  (init_step done_session = NS2_INIT_DONE
   /\ switch2_init_controller env_ok done_session = (0, done_session, []))
  /\ (init_called zero_controller /\ cfg zero_controller = false
      /\ switch2_init_controller env_ok zero_controller
         = (- ENOTCONN, zero_controller, [])).
Proof.
  split.
  - split; [reflexivity |].
    apply (proj1 (proj2 init_controller_guards) env_ok done_session).
    reflexivity.
  - assert (Hcall : init_called zero_controller)
      by (apply called_by_receive_command; reflexivity).
    assert (Hc : cfg zero_controller = false) by reflexivity.
    split; [exact Hcall |]. split; [exact Hc |].
    apply (proj2 (proj2 (proj2 init_controller_guards)) env_ok
             zero_controller Hcall Hc).
Defined.

(** The steps taken by a Pro Controller whose both paths are attached, in
    an environment where every call succeeds: twelve calls reach
    NS2_INIT_DONE, the first sends the read of the serial number and the
    grip buttons step sends nothing. *)
Example init_sequence_pro :
  let start := set_version (set_hdev attached_session true)
                 (read_version (skipn 8 fw_info_reply)) in
  init_step start = NS2_INIT_STARTING
  /\ map (fun n => init_step (init_calls (repeat env_ok n) start))
       [1; 2; 3; 4; 5; 6; 7; 8; 9; 10; 11; 12; 13]%nat
     = [1; 2; 3; 5; 6; 7; 8; 9; 10; 12; 13; 14; 14]
  /\ sent_of (switch2_init_controller env_ok start)
     = [{| cmd := NS2_CMD_FLASH; subcmd := NS2_SUBCMD_FLASH_READ;
           payload := [0x10; 0x7e; 0; 0; 0x02; 0x30; 0x01; 0x00] |}].
Proof. repeat split. Qed.

(** ** The two views of the rumble storage *)

Lemma bits_mod v off width :
  0 <= width -> bits v off width = Z.shiftr v off mod 2 ^ width.
Proof. intros H. unfold bits. apply Z.land_ones. exact H. Qed.

Lemma bits_range v off width : 0 <= width -> 0 <= bits v off width < 2 ^ width.
Proof.
  intros H. rewrite bits_mod by exact H. apply Z.mod_pos_bound.
  apply Z.pow_pos_nonneg; lia.
Qed.

Lemma testbit_set_bits v off width x n :
  0 <= off -> 0 <= width -> 0 <= n ->
  Z.testbit (set_bits v off width x) n
  = if (off <=? n) && (n <? off + width) then Z.testbit x (n - off)
    else Z.testbit v n.
Proof.
  intros Ho Hw Hn. unfold set_bits.
  rewrite Z.lor_spec, Z.ldiff_spec, !Z.shiftl_spec, Z.land_spec by lia.
  destruct (Z.leb_spec off n) as [Hle | Hlt]; cbn [andb].
  - rewrite !Z.testbit_ones_nonneg by lia.
    destruct (Z.ltb_spec (n - off) width) as [H1 | H1];
      destruct (Z.ltb_spec n (off + width)) as [H2 | H2]; try lia;
      cbn [negb]; rewrite ?andb_false_r, ?andb_true_r, ?orb_false_r;
      reflexivity.
  - rewrite !(Z.testbit_neg_r _ (n - off)) by lia.
    cbn [negb]. rewrite andb_true_r, orb_false_r. reflexivity.
Qed.

Lemma testbit_bits v off width n :
  0 <= off -> 0 <= width -> 0 <= n ->
  Z.testbit (bits v off width) n
  = if n <? width then Z.testbit v (n + off) else false.
Proof.
  intros Ho Hw Hn. unfold bits.
  rewrite Z.land_spec, Z.shiftr_spec, Z.testbit_ones_nonneg by lia.
  destruct (n <? width); [apply andb_true_r | apply andb_false_r].
Qed.

Lemma bits_set_same v off width x :
  0 <= off -> 0 <= width ->
  bits (set_bits v off width x) off width = x mod 2 ^ width.
Proof.
  intros Ho Hw. rewrite <- Z.land_ones by exact Hw.
  apply Z.bits_inj'. intros n Hn.
  rewrite testbit_bits, testbit_set_bits by lia.
  rewrite Z.land_spec, Z.testbit_ones_nonneg by lia.
  destruct (Z.ltb_spec n width) as [H | H].
  - destruct (Z.leb_spec off (n + off)); [| lia].
    destruct (Z.ltb_spec (n + off) (off + width)); [| lia].
    cbn [andb]. replace (n + off - off) with n by lia.
    rewrite andb_true_r. reflexivity.
  - rewrite andb_false_r. reflexivity.
Qed.

Lemma bits_set_other v off width x off' width' :
  0 <= off -> 0 <= width -> 0 <= off' -> 0 <= width' ->
  off' + width' <= off \/ off + width <= off' ->
  bits (set_bits v off width x) off' width' = bits v off' width'.
Proof.
  intros Ho Hw Ho' Hw' Hd. apply Z.bits_inj'. intros n Hn.
  rewrite !testbit_bits, testbit_set_bits by lia.
  destruct (Z.ltb_spec n width') as [H | H]; [| reflexivity].
  destruct (Z.leb_spec off (n + off')); destruct (Z.ltb_spec (n + off') (off + width));
    cbn [andb]; try reflexivity; lia.
Qed.

(** A field is its low part plus the part above it. *)
Lemma bits_split v off w1 w2 :
  0 <= off -> 0 <= w1 -> 0 <= w2 ->
  bits v off (w1 + w2) = bits v off w1 + 2 ^ w1 * bits v (off + w1) w2.
Proof.
  intros Ho H1 H2. rewrite !bits_mod by lia.
  rewrite <- Z.shiftr_shiftr by lia.
  rewrite (Z.shiftr_div_pow2 (Z.shiftr v off) w1) by lia.
  set (u := Z.shiftr v off).
  rewrite Z.pow_add_r by lia.
  rewrite Z.rem_mul_r by (apply Z.pow_nonzero || apply Z.pow_pos_nonneg; lia).
  reflexivity.
Qed.

Lemma sd_set_error r v :
  sd (set_error r v) = {| error := u16 v; amplitude := amplitude (sd r) |}.
Proof.
  unfold sd, set_error. cbn [storage error amplitude].
  rewrite bits_set_same, bits_set_other by lia. reflexivity.
Qed.

Lemma sd_set_amplitude r v :
  sd (set_amplitude r v) = {| error := error (sd r); amplitude := u16 v |}.
Proof.
  unfold sd, set_amplitude. cbn [storage error amplitude].
  rewrite bits_set_same, bits_set_other by lia. reflexivity.
Qed.

Lemma hd_set_hi_freq r v :
  hd (set_hi_freq r v)
  = {| hi_freq := u10 v; hi_amp := hi_amp (hd r);
       lo_freq := lo_freq (hd r); lo_amp := lo_amp (hd r) |}.
Proof.
  unfold hd, set_hi_freq. cbn [storage hi_freq hi_amp lo_freq lo_amp].
  rewrite bits_set_same, !bits_set_other by lia. reflexivity.
Qed.

Lemma hd_set_hi_amp r v :
  hd (set_hi_amp r v)
  = {| hi_freq := hi_freq (hd r); hi_amp := u10 v;
       lo_freq := lo_freq (hd r); lo_amp := lo_amp (hd r) |}.
Proof.
  unfold hd, set_hi_amp. cbn [storage hi_freq hi_amp lo_freq lo_amp].
  rewrite bits_set_same, !bits_set_other by lia. reflexivity.
Qed.

Lemma hd_set_lo_freq r v :
  hd (set_lo_freq r v)
  = {| hi_freq := hi_freq (hd r); hi_amp := hi_amp (hd r);
       lo_freq := u10 v; lo_amp := lo_amp (hd r) |}.
Proof.
  unfold hd, set_lo_freq. cbn [storage hi_freq hi_amp lo_freq lo_amp].
  rewrite bits_set_same, !bits_set_other by lia. reflexivity.
Qed.

Lemma hd_set_lo_amp r v :
  hd (set_lo_amp r v)
  = {| hi_freq := hi_freq (hd r); hi_amp := hi_amp (hd r);
       lo_freq := lo_freq (hd r); lo_amp := u10 v |}.
Proof.
  unfold hd, set_lo_amp. cbn [storage hi_freq hi_amp lo_freq lo_amp].
  rewrite bits_set_same, !bits_set_other by lia. reflexivity.
Qed.

(** Whatever the storage holds, the members of [sd] are 16-bit values. *)
Lemma sd_is_u16 r : is_u16 (error (sd r)) /\ is_u16 (amplitude (sd r)).
Proof.
  unfold sd, is_u16. cbn [error amplitude].
  pose proof (bits_range (storage r) 0 16 ltac:(lia)) as H0.
  pose proof (bits_range (storage r) 16 16 ltac:(lia)) as H1.
  change (2 ^ 16) with 65536 in *. lia.
Qed.

(** The member [error] shares its bits with [hi_freq] and the low six
    bits of [hi_amp]. *)
Lemma error_aliases_hd r :
  error (sd r) = hi_freq (hd r) + 1024 * (hi_amp (hd r) mod 64).
Proof.
  unfold sd, hd. cbn [error hi_freq hi_amp].
  change 16 with (10 + 6) at 1. rewrite bits_split by lia.
  change (2 ^ 10) with 1024. f_equal. f_equal.
  change (0 + 10) with 10.
  change 10 with (6 + 4) at 3. rewrite bits_split by lia.
  pose proof (bits_range (storage r) 10 6 ltac:(lia)) as H.
  change (2 ^ 6) with 64 in *.
  rewrite (Z.mul_comm 64), Z.mod_add by lia.
  symmetry. apply Z.mod_small. exact H.
Qed.

(** ** Rumble encoder *)

Section Rumble.

Variable interval : Z.




End Rumble.





(** ** Error diffusion of the GameCube controller *)

Section ErrorDiffusion.

Variable interval : Z.

(** For any two 16-bit values the update stays within 0 .. 65534, so the
    conversion to [uint16_t] does not change it. *)
Lemma diffuse_bounds e a :
  is_u16 e -> is_u16 a -> 0 <= diffuse e a <= 65534.
Proof.
  unfold is_u16, diffuse, U16_MAX. intros He Ha.
  destruct (a =? 0) eqn:E0; [lia |]. apply Z.eqb_neq in E0.
  destruct (e <? a) eqn:El; [apply Z.ltb_lt in El | apply Z.ltb_ge in El]; lia.
Qed.

Lemma u16_small v : 0 <= v <= 65535 -> u16 v = v.
Proof.
  intros H. unfold u16. change (2 ^ 16) with 65536. apply Z.mod_small. lia.
Qed.

Lemma rumble_work_gc current_ms ns2 :
  ctlr_type ns2 = NS2_CTLR_TYPE_GC ->
  is_u16 (error (sd (rumble ns2))) -> is_u16 (amplitude (sd (rumble ns2))) ->
  sd (rumble (fst (switch2_rumble_work interval true current_ms ns2)))
  = {| error := diffuse (error (sd (rumble ns2))) (amplitude (sd (rumble ns2)));
       amplitude := amplitude (sd (rumble ns2)) |}
  /\ ctlr_type (fst (switch2_rumble_work interval true current_ms ns2))
     = NS2_CTLR_TYPE_GC.
Proof.
  intros Hgc He Ha.
  pose proof (diffuse_bounds _ _ He Ha) as Hd.
  unfold switch2_rumble_work, diffuse in *. cbn [negb].
  rewrite Hgc, Z.eqb_refl.
  destruct (amplitude (sd (rumble ns2)) =? 0).
  - destruct (hdev ns2);
      cbn [negb fst rumble ctlr_type set_rumble_state];
      rewrite sd_set_error; auto.
  - destruct (error (sd (rumble ns2)) <? amplitude (sd (rumble ns2)));
      destruct (hdev ns2);
      cbn [negb fst rumble ctlr_type set_rumble_state];
      rewrite sd_set_error, u16_small by lia; auto.
Qed.

Lemma u16_range v : is_u16 (u16 v).
Proof.
  unfold is_u16, u16. change (2 ^ 16) with 65536.
  pose proof (Z.mod_pos_bound v 65536 ltac:(lia)). lia.
Qed.

Lemma play_effect_invariant ns2 effect :
  gc_invariant ns2 -> gc_invariant (snd (switch2_play_effect ns2 effect)).
Proof.
  unfold gc_invariant. intros (Hgc & He & Ha). unfold switch2_play_effect.
  destruct (effect_type effect =? FF_RUMBLE); cbn [negb snd]; [| auto].
  rewrite Hgc, Z.eqb_refl.
  cbn [ctlr_type rumble set_rumble_state]. rewrite sd_set_amplitude.
  cbn [error amplitude].
  split; [exact Hgc |]. split; [exact He | apply u16_range].
Qed.

Lemma rumble_work_invariant buffer_ok current_ms ns2 :
  gc_invariant ns2 ->
  gc_invariant (fst (switch2_rumble_work interval buffer_ok current_ms ns2)).
Proof.
  intros Hinv. destruct buffer_ok; [| exact Hinv].
  destruct Hinv as (Hgc & He & Ha).
  assert (He' : is_u16 (error (sd (rumble ns2)))) by (unfold is_u16; lia).
  destruct (rumble_work_gc current_ms ns2 Hgc He' Ha) as [E T].
  unfold gc_invariant. rewrite E, T. cbn [error amplitude].
  split; [reflexivity |]. split; [apply diffuse_bounds; assumption | exact Ha].
Qed.

Lemma rumble_step_invariant ns2 ev :
  gc_invariant ns2 -> gc_invariant (fst (rumble_step interval ns2 ev)).
Proof.
  intros Hinv. destruct ev as [effect | buffer_ok current_ms];
    cbn [rumble_step fst].
  - apply play_effect_invariant. exact Hinv.
  - unfold run_rumble_work. destruct (rumble_work ns2); [| exact Hinv].
    apply rumble_work_invariant. exact Hinv.
Qed.

Lemma rumble_run_invariant evs :
  forall ns2,
    gc_invariant ns2 -> gc_invariant (fst (rumble_run interval ns2 evs)).
Proof.
  induction evs as [| ev evs IH]; intros ns2 Hinv; [exact Hinv |].
  cbn [rumble_run].
  pose proof (rumble_step_invariant ns2 ev Hinv) as H1.
  destruct (rumble_step interval ns2 ev) as [s1 o1]. cbn [fst] in H1.
  specialize (IH s1 H1).
  destruct (rumble_run interval s1 evs) as [s2 o2]. exact IH.
Qed.

End ErrorDiffusion.

Lemma receive_times_reachable n env message length :
  delivered message length ->
  forall ns2, reachable ns2 ->
              reachable (receive_times n env message length ns2).
Proof.
  intros Hd. induction n as [| n IH]; intros ns2 Hr; [exact Hr |].
  cbn [receive_times]. apply IH. apply reach_receive; assumption.
Qed.

Lemma fw_info_delivered :
  delivered (in_buffer fw_info_reply 0) 20
  /\ delivered (in_buffer gc_fw_info_reply 0) 20.
Proof.
  split; apply in_buffer_delivered;
    [unfold fw_info_reply; cbn [app]; bytes | exact zero_is_byte
     | cbn; lia | lia
     | unfold gc_fw_info_reply; cbn [app]; bytes | exact zero_is_byte
     | cbn; lia | lia].
Qed.

(** C10 (as amended): whatever the storage of the rumble union holds, an
    emission of a GameCube controller updates the accumulated error as on
    unbounded integers -- to 0 when the amplitude is 0, to
    error + (65535 - amplitude) when error < amplitude, to
    error - amplitude otherwise -- so the 16-bit arithmetic does not wrap
    and the error is at most 65534 after every emission; and once the
    error is at most 65534, the requests and emissions of a GameCube
    controller keep it so. *)
Theorem erm_error_bounded :
  forall interval,
    (forall ns2 current_ms,
       ctlr_type ns2 = NS2_CTLR_TYPE_GC ->
       error (sd (rumble (fst (switch2_rumble_work interval true
                                 current_ms ns2))))
       = diffuse (error (sd (rumble ns2))) (amplitude (sd (rumble ns2)))
       /\ 0 <= diffuse (error (sd (rumble ns2)))
                 (amplitude (sd (rumble ns2))) <= 65534)
    /\ (forall ns2 evs,
          ctlr_type ns2 = NS2_CTLR_TYPE_GC ->
          error (sd (rumble ns2)) <= 65534 ->
          ctlr_type (fst (rumble_run interval ns2 evs)) = NS2_CTLR_TYPE_GC
          /\ 0 <= error (sd (rumble (fst (rumble_run interval ns2 evs))))
               <= 65534).
Proof.
  intros interval. split.
  - intros ns2 current_ms Hgc.
    destruct (sd_is_u16 (rumble ns2)) as [He Ha].
    destruct (rumble_work_gc interval current_ms ns2 Hgc He Ha) as [E _].
    rewrite E. cbn [error]. split; [reflexivity |].
    apply diffuse_bounds; assumption.
  - intros ns2 evs Hgc He.
    destruct (sd_is_u16 (rumble ns2)) as [He0 Ha].
    assert (Hinv : gc_invariant ns2).
    { unfold gc_invariant, is_u16 in *. repeat split; try assumption; lia. }
    destruct (rumble_run_invariant interval evs ns2 Hinv) as (T & B & _).
    split; assumption.
Qed.

Lemma erm_error_bounded_witness :
  ctlr_type gc_probed_session = NS2_CTLR_TYPE_GC
  /\ sd (rumble gc_probed_session) = {| error := 391; amplitude := 4384 |}
  /\ error (sd (rumble (fst (switch2_rumble_work 4 true 1008
                               gc_probed_session))))
     = diffuse 391 4384
  /\ 0 <= error (sd (rumble (fst (rumble_run 4 gc_probed_session
                                    [SetIntensity gc_effect; Tick true 1000;
                                     Tick true 1004]))))
       <= 65534.
Proof.
  split; [reflexivity |]. split; [reflexivity |].
  destruct (erm_error_bounded 4) as [U B].
  split.
  - apply (proj1 (U gc_probed_session 1008 eq_refl)).
  - apply (proj2 (B gc_probed_session
                    [SetIntensity gc_effect; Tick true 1000; Tick true 1004]
                    eq_refl ltac:(apply Z.leb_le; reflexivity))).
Defined.

(** The error is not at most 65534 in every reachable state: after an
    emission has left 1023 in [error], a device that reports the type of a
    Pro Controller and then that of a GameCube controller again gets a
    request served in between through the [hd] view; the 63 written to
    [hi_amp] are the high six bits of [error], which then reads 65535 in a
    GameCube session. *)
Lemma erm_error_full_scale_reachable :
  reachable gc_aliased_session
  /\ ctlr_type gc_aliased_session = NS2_CTLR_TYPE_GC
  /\ input gc_ready_session = true
  /\ error (sd (rumble gc_emitted_session)) = 1023
  /\ error (sd (rumble gc_aliased_session)) = 65535
  /\ ~ error (sd (rumble gc_aliased_session)) <= 65534.
Proof.
  destruct fw_info_delivered as [Dp Dg].
  assert (R0 : reachable gc_ready_session).
  { unfold gc_ready_session. apply receive_times_reachable; [exact Dg |].
    apply reach_probe. apply reach_receive; [exact attached_reachable |].
    exact Dg. }
  assert (I0 : input gc_ready_session = true) by reflexivity.
  assert (R1 : reachable gc_emitted_session).
  { unfold gc_emitted_session. apply reach_rumble_work.
    apply reach_play_effect; assumption. }
  split.
  - unfold gc_aliased_session. apply reach_receive; [| exact Dg].
    apply reach_play_effect; [| reflexivity].
    apply reach_receive; [exact R1 | exact Dp].
  - split; [reflexivity |]. split; [exact I0 |]. split; [reflexivity |].
    split; [reflexivity |]. intros H.
    assert (E : error (sd (rumble gc_aliased_session)) = 65535) by reflexivity.
    rewrite E in H. lia.
Qed.

(** Three emissions at amplitude 40000: on, on, off. *)
Example erm_duty_pattern :
  map (fun n => error (sd (rumble (fst (rumble_run 4 gc_session
                 (SetIntensity gc_effect :: repeat (Tick true 1000) n))))))
      [1; 2; 3; 4]%nat
  = [25535; 51070; 11070; 36605].
Proof. reflexivity. Qed.

(** * Further properties of the driver *)

(** ** Axis and trigger transforms *)

Lemma normalize_neutral c : calibrated c = true -> normalize c (neutral c) = 0.
Proof.
  intros Hc. unfold normalize. rewrite Hc. cbn zeta.
  rewrite Z.sub_diag, Z.mul_0_l. cbn [Z.ltb Z.compare]. apply Z.quot_0_l.
  apply calibrated_nonzero in Hc. tauto.
Qed.

(** X1: with a calibration whose three values are nonzero, a raw sample
    equal to the neutral value is reported as 0, with or without the sign
    flip. *)
Theorem report_axis_neutral :
  forall c axis negate,
    axis_u16 c -> calibrated c = true ->
    abs_value (switch2_report_axis (Some c) axis (neutral c) negate) = 0.
Proof.
  intros c axis negate Hu Hc.
  rewrite (report_axis_value (Some c) axis (neutral c) negate);
    [| destruct Hu as (Hn & _); exact Hn | exact Hu].
  rewrite normalize_neutral by exact Hc.
  destruct negate; reflexivity.
Qed.

Lemma report_axis_neutral_witness :
  axis_u16 (x sample_stick) /\ calibrated (x sample_stick) = true
  /\ abs_value (switch2_report_axis (Some (x sample_stick)) ABS_Y
                  (neutral (x sample_stick)) true) = 0.
Proof.
  split; [exact sample_axis_u16 |]. split; [reflexivity |].
  apply (report_axis_neutral (x sample_stick) ABS_Y true);
    [exact sample_axis_u16 | reflexivity].
Defined.

Lemma quot_sign_split a b dn dp :
  0 < dn -> 0 < dp -> a <= b ->
  (if a <? 0 then Z.quot a dn else Z.quot a dp)
  <= (if b <? 0 then Z.quot b dn else Z.quot b dp).
Proof.
  intros Hn Hp Hab.
  destruct (a <? 0) eqn:Ea; destruct (b <? 0) eqn:Eb;
    try apply Z.ltb_lt in Ea; try apply Z.ltb_ge in Ea;
    try apply Z.ltb_lt in Eb; try apply Z.ltb_ge in Eb.
  - apply Z.quot_le_mono; lia.
  - pose proof (Z.quot_pos b dp Eb Hp).
    assert (Z.quot a dn <= 0); [| lia].
    rewrite <- (Z.opp_involutive a), Z.quot_opp_l by lia.
    pose proof (Z.quot_pos (- a) dn ltac:(lia) Hn). lia.
  - lia.
  - apply Z.quot_le_mono; lia.
Qed.

Lemma normalize_monotone c raw1 raw2 :
  axis_u16 c -> raw1 <= raw2 -> normalize c raw1 <= normalize c raw2.
Proof.
  unfold axis_u16, is_u16. intros (Hn & Hm & Hp) Hle. unfold normalize.
  destruct (calibrated c) eqn:Hc; [| lia].
  apply calibrated_nonzero in Hc. destruct Hc as (_ & Nm & Np). cbn zeta.
  apply quot_sign_split; unfold NS2_AXIS_MAX; lia.
Qed.

Lemma clamp_monotone a b lo hi : a <= b -> clamp a lo hi <= clamp b lo hi.
Proof. unfold clamp. lia. Qed.

(** X2: the axis transform is monotone in the raw sample: a larger sample
    never gives a smaller value, and with the sign flip never a larger
    one. *)
Theorem report_axis_monotone :
  forall c axis raw1 raw2,
    axis_u16 c -> is_u16 raw1 -> is_u16 raw2 -> raw1 <= raw2 ->
    abs_value (switch2_report_axis (Some c) axis raw1 false)
    <= abs_value (switch2_report_axis (Some c) axis raw2 false)
    /\ abs_value (switch2_report_axis (Some c) axis raw2 true)
       <= abs_value (switch2_report_axis (Some c) axis raw1 true).
Proof.
  intros c axis raw1 raw2 Hu H1 H2 Hle.
  rewrite !(report_axis_value (Some c)) by assumption.
  pose proof (normalize_monotone c raw1 raw2 Hu Hle).
  split; apply clamp_monotone; unfold flip; lia.
Qed.

Lemma report_axis_monotone_witness :
  abs_value (switch2_report_axis (Some (x sample_stick)) ABS_X 1000 false)
  <= abs_value (switch2_report_axis (Some (x sample_stick)) ABS_X 3000 false)
  /\ abs_value (switch2_report_axis (Some (x sample_stick)) ABS_X 3000 true)
     <= abs_value (switch2_report_axis (Some (x sample_stick)) ABS_X 1000 true).
Proof.
  apply (report_axis_monotone (x sample_stick) ABS_X 1000 3000);
    [exact sample_axis_u16 | unfold is_u16; lia | unfold is_u16; lia | lia].
Defined.

Lemma trigger_value_clamp zero data :
  is_byte zero -> is_byte data -> zero <> 232 ->
  trigger_value zero data
  = clamp (Z.quot ((NS2_TRIGGER_RANGE + 1) * (data - zero)) (232 - zero))
      0 NS2_TRIGGER_RANGE.
Proof.
  intros Hz Hd Hne. unfold trigger_value.
  destruct (report_trigger_guarded zero ABS_Z data Hz Hd Hne)
    as (ev & -> & _ & E & _). exact E.
Qed.

(** X3: for a zero point below 232 the trigger transform reports 0 for
    every raw byte up to the zero point, 4095 for every raw byte from 232
    on, and never a smaller value for a larger raw byte. *)
Theorem report_trigger_travel :
  forall zero d1 d2,
    is_byte zero -> zero < 232 -> is_byte d1 -> is_byte d2 ->
    (d1 <= zero -> trigger_value zero d1 = 0)
    /\ (232 <= d1 -> trigger_value zero d1 = NS2_TRIGGER_RANGE)
    /\ (d1 <= d2 -> trigger_value zero d1 <= trigger_value zero d2).
Proof.
  intros zero d1 d2 Hz Hlt H1 H2.
  rewrite !trigger_value_clamp by (assumption || lia).
  unfold is_byte, NS2_TRIGGER_RANGE, clamp in *.
  split; [| split].
  - intros Hle.
    assert (Z.quot ((4095 + 1) * (d1 - zero)) (232 - zero) <= 0); [| lia].
    replace ((4095 + 1) * (d1 - zero)) with (- ((4095 + 1) * (zero - d1)))
      by lia.
    rewrite Z.quot_opp_l by lia.
    pose proof (Z.quot_pos ((4095 + 1) * (zero - d1)) (232 - zero)
                  ltac:(lia) ltac:(lia)). lia.
  - intros Hge.
    assert (4096 <= Z.quot ((4095 + 1) * (d1 - zero)) (232 - zero)); [| lia].
    rewrite Z.quot_div_nonneg by lia.
    apply Z.div_le_lower_bound; nia.
  - intros Hle.
    pose proof (Z.quot_le_mono ((4095 + 1) * (d1 - zero))
                  ((4095 + 1) * (d2 - zero)) (232 - zero)
                  ltac:(lia) ltac:(lia)). lia.
Qed.

Lemma report_trigger_travel_witness :
  trigger_value 30 20 = 0 /\ trigger_value 30 240 = NS2_TRIGGER_RANGE
  /\ trigger_value 30 100 <= trigger_value 30 150.
Proof.
  assert (B : forall b, 0 <= b < 256 -> is_byte b) by (intros; assumption).
  destruct (report_trigger_travel 30 20 100 (B 30 ltac:(lia)) ltac:(lia)
              (B 20 ltac:(lia)) (B 100 ltac:(lia))) as (H0 & _ & _).
  destruct (report_trigger_travel 30 240 100 (B 30 ltac:(lia)) ltac:(lia)
              (B 240 ltac:(lia)) (B 100 ltac:(lia))) as (_ & H1 & _).
  destruct (report_trigger_travel 30 100 150 (B 30 ltac:(lia)) ltac:(lia)
              (B 100 ltac:(lia)) (B 150 ltac:(lia))) as (_ & _ & H2).
  split; [apply H0; lia |]. split; [apply H1; lia | apply H2; lia].
Defined.

(** ** Report decoder *)

Lemma bang2_bit v : bang2 v = 0 \/ bang2 v = 1.
Proof. unfold bang2. destruct (truthy v); auto. Qed.

Lemma abs_declared type c lo hi v :
  In (c, (lo, hi)) (input_abs_params type) -> lo <= v <= hi ->
  event_declared type (ReportAbs {| abs_code := c; abs_value := v |}) = true.
Proof.
  intros Hin Hv. cbn [event_declared abs_code abs_value].
  apply existsb_exists. exists (c, (lo, hi)). split; [exact Hin |].
  cbn [fst snd]. rewrite Z.eqb_refl.
  apply andb_true_iff. split; apply Z.leb_le; lia.
Qed.

Lemma hat_declared type b :
  In (hat_params ABS_HAT0X) (input_abs_params type) ->
  In (hat_params ABS_HAT0Y) (input_abs_params type) ->
  forallb (event_declared type) (report_hat b) = true.
Proof.
  intros Hx Hy. unfold report_hat. cbn [forallb].
  rewrite (abs_declared type ABS_HAT0X (-1) 1),
          (abs_declared type ABS_HAT0Y (-1) 1); try assumption; try reflexivity.
  - destruct (bang2_bit (Z.land b NS2_BTNL_DOWN)) as [-> | ->];
      destruct (bang2_bit (Z.land b NS2_BTNL_UP)) as [-> | ->]; lia.
  - destruct (bang2_bit (Z.land b NS2_BTNL_RIGHT)) as [-> | ->];
      destruct (bang2_bit (Z.land b NS2_BTNL_LEFT)) as [-> | ->]; lia.
Qed.

Lemma axis_event_declared type calib c raw negate :
  In (stick_params c) (input_abs_params type) ->
  event_declared type (ReportAbs (switch2_report_axis calib c raw negate))
  = true.
Proof.
  intros Hin. unfold switch2_report_axis.
  apply (abs_declared type c NS2_AXIS_MIN NS2_AXIS_MAX); [exact Hin |].
  apply clamp_range. unfold NS2_AXIS_MIN, NS2_AXIS_MAX. lia.
Qed.

Lemma sticks_declared type calib xc yc data :
  In (stick_params xc) (input_abs_params type) ->
  In (stick_params yc) (input_abs_params type) ->
  forallb (event_declared type) (report_stick_events calib xc yc data) = true.
Proof.
  intros Hx Hy. unfold report_stick_events, switch2_report_stick.
  cbn [map forallb].
  rewrite !axis_event_declared by assumption. reflexivity.
Qed.

Lemma buttons_declared type bytes table :
  forallb (fun b => existsb (key_code_eqb (code b))
                      (input_key_capabilities type)) table = true ->
  forallb (event_declared type) (switch2_report_buttons bytes table) = true.
Proof.
  unfold switch2_report_buttons. induction table as [| b table IH];
    [reflexivity |].
  cbn [forallb map]. intros H. apply andb_true_iff in H. destruct H as [Hb Ht].
  rewrite (IH Ht), andb_true_r. cbn [event_declared]. rewrite Hb.
  destruct (bang2_bit (Z.land (byte_at bytes (byte b)) (bit b))) as [-> | ->];
    reflexivity.
Qed.

Lemma trigger_declared type zero c data ev :
  In (trigger_params c) (input_abs_params type) ->
  switch2_report_trigger zero c data = Some ev ->
  event_declared type (ReportAbs ev) = true.
Proof.
  intros Hin H. unfold switch2_report_trigger in H.
  destruct (232 - zero =? 0); [discriminate |].
  injection H as <-.
  apply (abs_declared type c 0 NS2_TRIGGER_RANGE); [exact Hin |].
  apply clamp_range. unfold NS2_TRIGGER_RANGE. lia.
Qed.

Lemma some_pair_inv (A B : Type) (a r : A) (b evs : B) :
  Some (a, b) = Some (r, evs) -> r = a /\ evs = b.
Proof. intros H. injection H as <- <-. split; reflexivity. Qed.

Ltac declared_parts :=
  rewrite ?forallb_app, ?andb_true_iff;
  repeat split;
  first [ apply hat_declared; cbn; tauto
        | apply sticks_declared; cbn; tauto
        | apply buttons_declared; reflexivity
        | reflexivity ].

(** X4: a report with the id of the session's controller type only makes
    calls that [switch2_init_input] declared for that type: every axis
    value lies within the range set for its code (sticks -32768 .. 32767,
    pad -1 .. 1, triggers 0 .. 4095) and every key is one of the declared
    keys, with value 0 or 1. *)
Theorem switch2_event_declared :
  forall ns2 raw_data size r evs,
    known_ctlr_type (ctlr_type ns2) = true ->
    switch2_event ns2 HID_INPUT_REPORT (report_id_of (ctlr_type ns2))
      raw_data size = Some (r, evs) ->
    forallb (event_declared (ctlr_type ns2)) evs = true.
Proof.
  intros ns2 raw_data size r evs Hk H.
  unfold known_ctlr_type in Hk.
  rewrite !orb_true_iff, !Z.eqb_eq in Hk.
  unfold switch2_event in H.
  cbn [negb] in H. change (HID_INPUT_REPORT =? HID_INPUT_REPORT) with true in H.
  cbn [negb] in H.
  destruct (size <? 15); [apply some_pair_inv in H; destruct H as [_ ->]; reflexivity |].
  destruct (input ns2); cbn [negb] in H; [| apply some_pair_inv in H; destruct H as [_ ->]; reflexivity].
  destruct Hk as [[[Ht | Ht] | Ht] | Ht]; rewrite Ht in *;
    match type of H with
    | context [report_id_of ?t] =>
        let id := eval vm_compute in (report_id_of t) in
        change (report_id_of t) with id in H
    end;
    repeat match type of H with
           | context [Z.eqb (Zpos ?a) (Zpos ?b)] =>
               let v := eval vm_compute in (Z.eqb (Zpos a) (Zpos b)) in
               change (Z.eqb (Zpos a) (Zpos b)) with v in H
           end;
    cbv iota in H.
  - apply some_pair_inv in H. destruct H as [_ ->]. declared_parts.
  - apply some_pair_inv in H. destruct H as [_ ->]. declared_parts.
  - destruct (switch2_report_trigger (lt_zero ns2) ABS_Z (byte_at raw_data 13))
      as [lt |] eqn:El; [| discriminate].
    destruct (switch2_report_trigger (rt_zero ns2) ABS_RZ (byte_at raw_data 14))
      as [rt |] eqn:Er; [| discriminate].
    apply some_pair_inv in H. destruct H as [_ ->].
    rewrite !forallb_app. cbn [forallb].
    rewrite (trigger_declared NS2_CTLR_TYPE_GC _ ABS_Z _ _
               ltac:(cbn; tauto) El),
            (trigger_declared NS2_CTLR_TYPE_GC _ ABS_RZ _ _
               ltac:(cbn; tauto) Er).
    declared_parts.
  - apply some_pair_inv in H. destruct H as [_ ->]. declared_parts.
Qed.

Lemma switch2_event_declared_witness :
  known_ctlr_type (ctlr_type pro_input_session) = true
  /\ exists evs,
       switch2_event pro_input_session HID_INPUT_REPORT
         (report_id_of (ctlr_type pro_input_session)) sample_pro_report 15
       = Some (0, evs)
       /\ forallb (event_declared (ctlr_type pro_input_session)) evs = true.
Proof.
  split; [reflexivity |]. eexists. split; [reflexivity |].
  apply (switch2_event_declared pro_input_session sample_pro_report 15 0);
    reflexivity.
Defined.

Lemma no_sync_abs l : existsb is_sync (map ReportAbs l) = false.
Proof. induction l as [| e l IH]; [reflexivity | exact IH]. Qed.

Lemma no_sync_buttons bytes table :
  existsb is_sync (switch2_report_buttons bytes table) = false.
Proof.
  unfold switch2_report_buttons.
  induction table as [| b table IH]; [reflexivity | exact IH].
Qed.

Lemma event_keys_app l1 l2 :
  event_keys (l1 ++ l2) = event_keys l1 ++ event_keys l2.
Proof. apply flat_map_app. Qed.

Lemma event_keys_abs l : event_keys (map ReportAbs l) = [].
Proof. induction l as [| e l IH]; [reflexivity | exact IH]. Qed.

Lemma event_keys_buttons bytes table :
  event_keys (switch2_report_buttons bytes table) = map code table.
Proof.
  unfold switch2_report_buttons.
  induction table as [| b table IH]; [reflexivity |].
  cbn [map event_keys flat_map app]. f_equal. exact IH.
Qed.

Ltac distinct_codes :=
  repeat (apply NoDup_cons; [cbn; intuition discriminate |]); apply NoDup_nil.

Lemma table_codes_distinct :
  NoDup (map code left_joycon_button_mappings)
  /\ NoDup (map code right_joycon_button_mappings)
  /\ NoDup (map code procon_mappings)
  /\ NoDup (map code gccon_mappings).
Proof. repeat split; cbn [map code]; distinct_codes. Qed.

Lemma ends_with_one_sync_intro body :
  existsb is_sync body = false -> ends_with_one_sync (body ++ [InputSync]).
Proof. intros H. exists body. split; [reflexivity | exact H]. Qed.

Ltac event_shape :=
  split;
  [ try match goal with
        | |- context [[ReportAbs ?a; ReportAbs ?b; InputSync]] =>
            change [ReportAbs a; ReportAbs b; InputSync]
              with ([ReportAbs a; ReportAbs b] ++ [InputSync])
        end;
    rewrite !app_assoc; apply ends_with_one_sync_intro;
    rewrite ?existsb_app; unfold report_stick_events;
    rewrite ?no_sync_abs, ?no_sync_buttons; reflexivity
  | rewrite ?event_keys_app; unfold report_stick_events;
    rewrite ?event_keys_abs, ?event_keys_buttons;
    cbn [event_keys flat_map app report_hat]; rewrite ?app_nil_r;
    apply table_codes_distinct ].

(** What the decoder returns, when it returns. *)
Lemma event_outcome_shape :
  forall ns2 report_type report_id raw_data size r evs,
    switch2_event ns2 report_type report_id raw_data size = Some (r, evs) ->
    (r = 0 \/ r = - EINVAL)
    /\ (r <> 0 -> evs = [])
    /\ (report_type <> HID_INPUT_REPORT \/ size < 15 \/ input ns2 = false ->
        evs = [])
    /\ (evs <> [] -> ends_with_one_sync evs /\ NoDup (event_keys evs)).
Proof.
  intros ns2 report_type report_id raw_data size r evs H.
  unfold switch2_event in H.
  assert (Hnil : forall b : Z,
             (b = 0 \/ b = - EINVAL) ->
             (b = 0 \/ b = - EINVAL)
             /\ (b <> 0 -> @nil input_event = [])
             /\ (report_type <> HID_INPUT_REPORT \/ size < 15
                 \/ input ns2 = false -> @nil input_event = [])
             /\ (@nil input_event <> [] ->
                 ends_with_one_sync [] /\ NoDup (event_keys []))).
  { intros b Hb. split; [exact Hb |]. split; [reflexivity |].
    split; [reflexivity |]. intros N. contradiction. }
  destruct (Z.eqb_spec report_type HID_INPUT_REPORT) as [Et | Et];
    cbn [negb] in H;
    [| apply some_pair_inv in H; destruct H as [-> ->]; apply Hnil; auto].
  destruct (Z.ltb_spec size 15) as [Es | Es];
    [apply some_pair_inv in H; destruct H as [-> ->]; apply Hnil; auto |].
  destruct (input ns2) eqn:Ei; cbn [negb] in H;
    [| apply some_pair_inv in H; destruct H as [-> ->]; apply Hnil; auto].
  clear Hnil.
  assert (Hev : forall l : list input_event,
             ends_with_one_sync l /\ NoDup (event_keys l) ->
             (0 = 0 \/ 0 = - EINVAL)
             /\ (0 <> 0 -> l = [])
             /\ (report_type <> HID_INPUT_REPORT \/ size < 15
                 \/ true = false -> l = [])
             /\ (l <> [] -> ends_with_one_sync l /\ NoDup (event_keys l))).
  { intros l Hl. split; [auto |]. split; [intros N; contradiction N;
      reflexivity |]. split; [| intros _; exact Hl].
    intros [N | [N | N]]; [contradiction | lia | discriminate]. }
  destruct (report_id =? NS2_REPORT_UNIFIED).
  { apply some_pair_inv in H. destruct H as [-> ->]. apply Hev.
    split; [exists []; split; reflexivity | apply NoDup_nil]. }
  destruct (report_id =? NS2_REPORT_JCL).
  { apply some_pair_inv in H. destruct H as [-> ->]. apply Hev. event_shape. }
  destruct (report_id =? NS2_REPORT_JCR).
  { apply some_pair_inv in H. destruct H as [-> ->]. apply Hev. event_shape. }
  destruct (report_id =? NS2_REPORT_GC).
  { destruct (switch2_report_trigger (lt_zero ns2) ABS_Z (byte_at raw_data 13))
      as [lt |]; [| discriminate].
    destruct (switch2_report_trigger (rt_zero ns2) ABS_RZ (byte_at raw_data 14))
      as [rt |]; [| discriminate].
    apply some_pair_inv in H. destruct H as [-> ->]. apply Hev. event_shape. }
  destruct (report_id =? NS2_REPORT_PRO).
  { apply some_pair_inv in H. destruct H as [-> ->]. apply Hev. event_shape. }
  apply some_pair_inv in H. destruct H as [-> ->].
  split; [auto |]. split; [reflexivity |]. split; [reflexivity |].
  intros N. contradiction.
Qed.

(** Away from a trigger zero point of 232 both trigger transforms return
    a value, and so does the decoder. *)
Lemma report_trigger_returns zero abs data :
  zero <> 232 -> exists e, switch2_report_trigger zero abs data = Some e.
Proof.
  intros Hz. unfold switch2_report_trigger.
  destruct (Z.eqb_spec (232 - zero) 0); [lia |]. eexists. reflexivity.
Qed.

Lemma report_trigger_faults abs data :
  switch2_report_trigger 232 abs data = None.
Proof. reflexivity. Qed.

(** X5: unless a GameCube report meets a trigger zero point of 232, where
    the division of [switch2_report_trigger] faults, the decoder returns,
    and it returns 0 or -EINVAL; when it returns -EINVAL, when the report
    is not an input report, when it is shorter than 15 bytes and when no
    input device is registered it makes no call on the input device at
    all; and whenever it makes calls, they end with exactly one sync and
    report no key twice.  A GameCube report of at least 15 bytes that
    meets a zero point of 232 with the input device registered does not
    return. *)
Theorem switch2_event_outcomes :
  forall ns2 report_type report_id raw_data size,
    ((report_id = NS2_REPORT_GC ->
      lt_zero ns2 <> 232 /\ rt_zero ns2 <> 232) ->
     exists r evs,
       switch2_event ns2 report_type report_id raw_data size = Some (r, evs)
       /\ (r = 0 \/ r = - EINVAL)
       /\ (r <> 0 -> evs = [])
       /\ (report_type <> HID_INPUT_REPORT \/ size < 15 \/ input ns2 = false ->
           evs = [])
       /\ (evs <> [] -> ends_with_one_sync evs /\ NoDup (event_keys evs)))
    /\ (report_type = HID_INPUT_REPORT -> 15 <= size -> input ns2 = true ->
        report_id = NS2_REPORT_GC ->
        lt_zero ns2 = 232 \/ rt_zero ns2 = 232 ->
        switch2_event ns2 report_type report_id raw_data size = None).
Proof.
  intros ns2 report_type report_id raw_data size. split.
  - intros Hz.
    assert (T : exists p,
               switch2_event ns2 report_type report_id raw_data size
               = Some p).
    { unfold switch2_event.
      repeat match goal with
             | |- exists p, (if ?b then _ else _) = Some p =>
                 destruct b eqn:?
             | |- exists p, Some ?q = Some p => exists q; reflexivity
             end.
      match goal with
      | H : (report_id =? NS2_REPORT_GC) = true |- _ =>
          apply Z.eqb_eq in H; destruct (Hz H) as [Hl Hr]
      end.
      destruct (report_trigger_returns (lt_zero ns2) ABS_Z
                  (byte_at raw_data 13) Hl) as [lt ->].
      destruct (report_trigger_returns (rt_zero ns2) ABS_RZ
                  (byte_at raw_data 14) Hr) as [rt ->].
      eexists. reflexivity. }
    destruct T as [[r evs] E]. exists r, evs. split; [exact E |].
    apply (event_outcome_shape ns2 report_type report_id raw_data size r evs E).
  - intros Ht Hs Hi Hid Hz. unfold switch2_event.
    rewrite Ht, Hid, Hi. cbn [negb].
    change (HID_INPUT_REPORT =? HID_INPUT_REPORT) with true.
    change (NS2_REPORT_GC =? NS2_REPORT_UNIFIED) with false.
    change (NS2_REPORT_GC =? NS2_REPORT_JCL) with false.
    change (NS2_REPORT_GC =? NS2_REPORT_JCR) with false.
    change (NS2_REPORT_GC =? NS2_REPORT_GC) with true.
    cbn [negb].
    destruct (Z.ltb_spec size 15); [lia |].
    destruct Hz as [-> | ->]; rewrite report_trigger_faults;
      [reflexivity |].
    destruct (switch2_report_trigger (lt_zero ns2) ABS_Z
                (byte_at raw_data 13)); reflexivity.
Qed.

Lemma switch2_event_outcomes_witness :
  (exists evs,
     switch2_event pro_input_session HID_INPUT_REPORT NS2_REPORT_PRO
       sample_pro_report 15 = Some (0, evs)
     /\ evs <> []
     /\ ends_with_one_sync evs /\ NoDup (event_keys evs))
  /\ (input gc_232_session = true /\ lt_zero gc_232_session = 232
      /\ switch2_event gc_232_session HID_INPUT_REPORT NS2_REPORT_GC
           sample_pro_report 15 = None).
Proof.
  split.
  - destruct (proj1 (switch2_event_outcomes pro_input_session
                       HID_INPUT_REPORT NS2_REPORT_PRO sample_pro_report 15))
      as (r & evs & E & _ & _ & _ & S);
      [intros N; discriminate N |].
    assert (E' : switch2_event pro_input_session HID_INPUT_REPORT
                   NS2_REPORT_PRO sample_pro_report 15
                 = Some (0, snd (0, evs))).
    { rewrite E. vm_compute in E. injection E as <- <-. reflexivity. }
    exists evs. split; [exact E' |].
    assert (N : evs <> []).
    { vm_compute in E. injection E as _ <-. discriminate. }
    split; [exact N | exact (S N)].
  - split; [reflexivity |]. split; [reflexivity |].
    apply (proj2 (switch2_event_outcomes gc_232_session HID_INPUT_REPORT
                    NS2_REPORT_GC sample_pro_report 15));
      [reflexivity | lia | reflexivity | reflexivity | left; reflexivity].
Defined.

(** ** Rumble packets *)

Lemma length_store buffer i v : List.length (store buffer i v) = List.length buffer.
Proof.
  revert i. induction buffer as [| b buffer IH]; intros i; [reflexivity |].
  destruct i; cbn [store List.length]; [reflexivity | rewrite IH; reflexivity].
Qed.

Lemma byte_at_store_same buffer i v :
  (i < List.length buffer)%nat -> byte_at (store buffer i v) i = u8 v.
Proof.
  unfold byte_at. revert i. induction buffer as [| b buffer IH]; intros i Hi;
    [cbn in Hi; lia |].
  destruct i; cbn [store nth]; [reflexivity |].
  apply IH. cbn in Hi. lia.
Qed.

Lemma byte_at_store_other buffer i j v :
  i <> j -> byte_at (store buffer i v) j = byte_at buffer j.
Proof.
  unfold byte_at. revert i j. induction buffer as [| b buffer IH];
    intros i j Hne; [destruct i; reflexivity |].
  destruct i, j; cbn [store nth]; try reflexivity; [contradiction |].
  apply IH. lia.
Qed.

Lemma u8_is_byte v : is_byte (u8 v).
Proof.
  unfold is_byte, u8. change (2 ^ 8) with 256. apply Z.mod_pos_bound. lia.
Qed.

Lemma store_bytes buffer i v :
  Forall is_byte buffer -> Forall is_byte (store buffer i v).
Proof.
  intros H. revert i. induction H as [| b buffer Hb Hrest IH]; intros i.
  - destruct i; constructor.
  - destruct i; cbn [store].
    + constructor; [apply u8_is_byte | exact Hrest].
    + constructor; [exact Hb | apply IH].
Qed.

Lemma u8_small v : 0 <= v < 256 -> u8 v = v.
Proof. intros H. unfold u8. change (2 ^ 8) with 256. apply Z.mod_small. lia. Qed.

(** The five bytes of an encoded rumble, by arithmetic on its fields. *)
Lemma encode_rumble_bytes r buffer off :
  hd_10bit r -> (off + 5 <= List.length buffer)%nat ->
  let out := switch2_encode_rumble r buffer off in
  byte_at out off = hi_freq r mod 256
  /\ byte_at out (off + 1) = (hi_freq r / 256 + 4 * hi_amp r) mod 256
  /\ byte_at out (off + 2) = (hi_amp r / 64 + 16 * lo_freq r) mod 256
  /\ byte_at out (off + 3) = (lo_freq r / 16 + 64 * lo_amp r) mod 256
  /\ byte_at out (off + 4) = lo_amp r / 4.
Proof.
  unfold hd_10bit, is_10bit. intros (Hf & Ha & Lf & La) Hlen.
  unfold switch2_encode_rumble.
  repeat (rewrite ?byte_at_store_same by (rewrite ?length_store; lia);
          rewrite ?(byte_at_store_other _ _ _ _) by lia).
  rewrite !Z.shiftr_div_pow2 by lia.
  change (2 ^ 8) with 256. change (2 ^ 6) with 64.
  change (2 ^ 4) with 16. change (2 ^ 2) with 4.
  assert (0 <= hi_freq r / 256 < 4) by (Z.div_mod_to_equations; lia).
  assert (0 <= hi_amp r / 64 < 16) by (Z.div_mod_to_equations; lia).
  assert (0 <= lo_freq r / 16 < 64) by (Z.div_mod_to_equations; lia).
  assert (0 <= lo_amp r / 4 < 256) by (Z.div_mod_to_equations; lia).
  rewrite (lor_shiftl_add (hi_freq r / 256) (hi_amp r) 2)
    by (change (2 ^ 2) with 4; lia).
  rewrite (lor_shiftl_add (hi_amp r / 64) (lo_freq r) 4)
    by (change (2 ^ 4) with 16; lia).
  rewrite (lor_shiftl_add (lo_freq r / 16) (lo_amp r) 6)
    by (change (2 ^ 6) with 64; lia).
  change (2 ^ 6) with 64. change (2 ^ 4) with 16. change (2 ^ 2) with 4.
  unfold u8. change (2 ^ 8) with 256.
  repeat split; try (f_equal; lia).
  apply Z.mod_small. lia.
Qed.

Lemma decode_encode_rumble r buffer off :
  hd_10bit r -> (off + 5 <= List.length buffer)%nat ->
  decode_rumble (switch2_encode_rumble r buffer off) off = r.
Proof.
  intros Hr Hlen.
  destruct (encode_rumble_bytes r buffer off Hr Hlen)
    as (E0 & E1 & E2 & E3 & E4).
  unfold decode_rumble. rewrite E0, E1, E2, E3, E4.
  destruct r as [hf ha lf la]. unfold hd_10bit, is_10bit in Hr.
  cbn [hi_freq hi_amp lo_freq lo_amp] in *.
  f_equal; Z.div_mod_to_equations; lia.
Qed.

Lemma encode_rumble_length r buffer off :
  List.length (switch2_encode_rumble r buffer off) = List.length buffer.
Proof. unfold switch2_encode_rumble. rewrite !length_store. reflexivity. Qed.

Lemma encode_rumble_frame r buffer off i :
  (i < off \/ off + 5 <= i)%nat ->
  byte_at (switch2_encode_rumble r buffer off) i = byte_at buffer i.
Proof.
  intros Hi. unfold switch2_encode_rumble.
  rewrite !byte_at_store_other by lia. reflexivity.
Qed.

Lemma encode_rumble_is_bytes r buffer off :
  Forall is_byte buffer -> Forall is_byte (switch2_encode_rumble r buffer off).
Proof.
  intros H. unfold switch2_encode_rumble. repeat apply store_bytes. exact H.
Qed.

Lemma decode_rumble_ext b1 b2 off :
  (forall i, (off <= i < off + 5)%nat -> byte_at b1 i = byte_at b2 i) ->
  decode_rumble b1 off = decode_rumble b2 off.
Proof.
  intros H. unfold decode_rumble.
  rewrite (H off), (H (off + 1)%nat), (H (off + 2)%nat), (H (off + 3)%nat),
    (H (off + 4)%nat) by lia.
  reflexivity.
Qed.

(** X6: [switch2_encode_rumble] writes the five bytes at its offset and no
    other byte of the buffer, keeps the length of the buffer, and loses
    nothing: the four 10-bit fields are read back from the five bytes. *)
Theorem encode_rumble_round_trip :
  forall r buffer off,
    hd_10bit r -> (off + 5 <= List.length buffer)%nat ->
    decode_rumble (switch2_encode_rumble r buffer off) off = r
    /\ List.length (switch2_encode_rumble r buffer off) = List.length buffer
    /\ (forall i, (i < off \/ off + 5 <= i)%nat ->
                  byte_at (switch2_encode_rumble r buffer off) i
                  = byte_at buffer i).
Proof.
  intros r buffer off Hr Hlen. split; [| split].
  - apply decode_encode_rumble; assumption.
  - apply encode_rumble_length.
  - intros i Hi. apply encode_rumble_frame. exact Hi.
Qed.

Lemma encode_rumble_round_trip_witness :
  hd_10bit sample_hd
  /\ decode_rumble (switch2_encode_rumble sample_hd (repeat 0 64) 2) 2
     = sample_hd
  /\ byte_at (switch2_encode_rumble sample_hd (repeat 0 64) 2) 7 = 0.
Proof.
  assert (H : hd_10bit sample_hd)
    by (unfold hd_10bit, is_10bit, sample_hd, RUMBLE_HI_FREQ, RUMBLE_LO_FREQ;
        cbn; lia).
  split; [exact H |].
  destruct (encode_rumble_round_trip sample_hd (repeat 0 64) 2 H
              ltac:(cbn; lia)) as (E & _ & F).
  split; [exact E |]. rewrite (F 7%nat) by lia. reflexivity.
Defined.

(** ** Force-feedback requests *)

Lemma scaled_amplitude m :
  is_u16 m ->
  u10 (Z.shiftr (u32 (m * RUMBLE_MAX)) 16) = m * RUMBLE_MAX / 65536
  /\ 0 <= m * RUMBLE_MAX / 65536 < RUMBLE_MAX.
Proof.
  unfold is_u16, u10, u32, RUMBLE_MAX. intros Hm.
  change (2 ^ 32) with 4294967296. change (2 ^ 10) with 1024.
  rewrite (Z.mod_small (m * 450)) by lia.
  rewrite Z.shiftr_div_pow2 by lia. change (2 ^ 16) with 65536.
  assert (0 <= m * 450 / 65536 < 450) by (Z.div_mod_to_equations; lia).
  rewrite Z.mod_small by lia. lia.
Qed.

(** X7: a request that is not a rumble effect changes nothing.  A rumble
    request to a controller that is not a GameCube controller sets the two
    amplitudes to weak * 450 / 65536 and strong * 450 / 65536, which stay
    below RUMBLE_MAX = 450 and are 0 for magnitudes up to 145, and leaves
    the two frequencies alone; as the two views share their storage, the
    error of the other view then reads the high frequency plus 1024 times
    the low six bits of the new high amplitude.  To a GameCube controller
    the request sets the amplitude to the larger of strong and weak / 2 and
    leaves the accumulated error, and with it the high frequency of the
    other view, alone. *)
Theorem play_effect_amplitudes :
  forall ns2 effect,
    (effect_type effect <> FF_RUMBLE ->
     switch2_play_effect ns2 effect = (0, ns2))
    /\ (effect_type effect = FF_RUMBLE ->
        is_u16 (strong_magnitude effect) -> is_u16 (weak_magnitude effect) ->
        let r := rumble ns2 in
        let r' := rumble (snd (switch2_play_effect ns2 effect)) in
        (ctlr_type ns2 <> NS2_CTLR_TYPE_GC ->
         hi_amp (hd r') = weak_magnitude effect * RUMBLE_MAX / 65536
         /\ lo_amp (hd r') = strong_magnitude effect * RUMBLE_MAX / 65536
         /\ hi_amp (hd r') < RUMBLE_MAX /\ lo_amp (hd r') < RUMBLE_MAX
         /\ (hi_amp (hd r') = 0 <-> weak_magnitude effect <= 145)
         /\ (lo_amp (hd r') = 0 <-> strong_magnitude effect <= 145)
         /\ hi_freq (hd r') = hi_freq (hd r)
         /\ lo_freq (hd r') = lo_freq (hd r)
         /\ error (sd r')
            = hi_freq (hd r) + 1024 * (hi_amp (hd r') mod 64))
        /\ (ctlr_type ns2 = NS2_CTLR_TYPE_GC ->
            amplitude (sd r')
            = Z.max (strong_magnitude effect) (weak_magnitude effect / 2)
            /\ error (sd r') = error (sd r)
            /\ hi_freq (hd r') = hi_freq (hd r))).
Proof.
  intros ns2 effect. split.
  - intros Hne. unfold switch2_play_effect.
    apply Z.eqb_neq in Hne. rewrite Hne. reflexivity.
  - intros He Hs Hw r r'. unfold r', r, switch2_play_effect.
    rewrite He, Z.eqb_refl. cbn [negb snd].
    split.
    + intros Hgc. apply Z.eqb_neq in Hgc. rewrite Hgc.
      cbn [rumble set_rumble_state].
      rewrite error_aliases_hd, hd_set_lo_amp, hd_set_hi_amp.
      cbn [hi_amp lo_amp hi_freq lo_freq].
      destruct (scaled_amplitude _ Hs) as [Es Bs].
      destruct (scaled_amplitude _ Hw) as [Ew Bw].
      rewrite Es, Ew. unfold is_u16, RUMBLE_MAX in *.
      split; [reflexivity |]. split; [reflexivity |].
      split; [lia |]. split; [lia |].
      split; [split; intros H; Z.div_mod_to_equations; lia |].
      split; [split; intros H; Z.div_mod_to_equations; lia |].
      split; [reflexivity |]. split; reflexivity.
    + intros Hgc. rewrite Hgc, Z.eqb_refl.
      cbn [rumble set_rumble_state]. rewrite sd_set_amplitude.
      cbn [amplitude error].
      split; [| split; [reflexivity |]].
      * unfold is_u16 in *.
        rewrite Z.shiftr_div_pow2 by lia. change (2 ^ 1) with 2.
        assert (0 <= weak_magnitude effect / 2 <= 65535)
          by (Z.div_mod_to_equations; lia).
        apply u16_small. lia.
      * unfold hd, set_amplitude. cbn [storage hi_freq].
        apply bits_set_other; lia.
Qed.

Lemma play_effect_amplitudes_witness :
  switch2_play_effect pro_session
    {| effect_type := 0x51; strong_magnitude := 1; weak_magnitude := 1 |}
  = (0, pro_session)
  /\ hi_amp (hd (rumble (snd (switch2_play_effect pro_session strong_effect))))
     = 0
  /\ lo_amp (hd (rumble (snd (switch2_play_effect pro_session strong_effect))))
     = 449
  /\ sd (rumble (snd (switch2_play_effect pro_session strong_effect)))
     = {| error := 391; amplitude := 20768 |}
  /\ amplitude (sd (rumble (snd (switch2_play_effect gc_probed_session
                                   gc_effect))))
     = 40000
  /\ error (sd (rumble (snd (switch2_play_effect gc_probed_session
                               gc_effect))))
     = 391.
Proof.
  split.
  - apply (proj1 (play_effect_amplitudes pro_session _)). discriminate.
  - assert (U : forall v, 0 <= v <= 65535 -> is_u16 v) by (intros; assumption).
    destruct (proj2 (play_effect_amplitudes pro_session strong_effect)
                eq_refl (U 65535 ltac:(lia)) (U 0 ltac:(lia))) as [Hhd _].
    destruct (Hhd ltac:(discriminate)) as (Eh & El & _).
    destruct (proj2 (play_effect_amplitudes gc_probed_session gc_effect)
                eq_refl (U 40000 ltac:(lia)) (U 0 ltac:(lia))) as [_ Hgc].
    destruct (Hgc eq_refl) as (Ea & Ee & _).
    split; [exact Eh |]. split; [exact El |]. split; [reflexivity |].
    split; [exact Ea | exact Ee].
Defined.

(** ** Emission of rumble packets *)

Lemma zeros_are_bytes n : Forall is_byte (repeat 0 n).
Proof.
  apply Forall_forall. intros v Hv. apply repeat_spec in Hv. subst.
  exact zero_is_byte.
Qed.

Lemma lor_sequence seq : 0 <= seq <= 15 -> Z.lor 0x50 seq = 0x50 + seq.
Proof.
  intros H. rewrite Z.lor_comm. change 0x50 with (Z.shiftl 5 4) at 1.
  rewrite lor_shiftl_add by (change (2 ^ 4) with 16; lia).
  change (2 ^ 4) with 16. lia.
Qed.

Lemma next_sequence seq :
  0 <= seq <= 15 -> u8 (Z.land (seq + 1) 0xF) = (seq + 1) mod 16.
Proof.
  intros H. change 0xF with (Z.ones 4). rewrite Z.land_ones by lia.
  change (2 ^ 4) with 16. apply u8_small.
  pose proof (Z.mod_pos_bound (seq + 1) 16 ltac:(lia)). lia.
Qed.

Ltac buffer_length :=
  repeat first [rewrite length_store | rewrite encode_rumble_length];
  rewrite ?repeat_length.

(** Reading one byte of a buffer built by stores and encodings. *)
Ltac read_byte :=
  repeat first
    [ rewrite byte_at_store_other by lia
    | rewrite encode_rumble_frame by lia ];
  rewrite byte_at_store_same by (buffer_length; lia).

Ltac packet_length := buffer_length; reflexivity.

Ltac packet_bytes :=
  repeat first [apply store_bytes | apply encode_rumble_is_bytes];
  apply zeros_are_bytes.

(** A run of the rumble work with the data path bound hands over the
    report it built, and moves the sequence counter on. *)
Lemma rumble_work_output interval current_ms ns2 :
  hdev ns2 = true ->
  snd (switch2_rumble_work interval true current_ms ns2) = [rumble_packet ns2]
  /\ rumble_seq (fst (switch2_rumble_work interval true current_ms ns2))
     = u8 (Z.land (rumble_seq ns2 + 1) 0xF)
  /\ hdev (fst (switch2_rumble_work interval true current_ms ns2)) = true
  /\ ctlr_type (fst (switch2_rumble_work interval true current_ms ns2))
     = ctlr_type ns2.
Proof.
  intros Hh. unfold switch2_rumble_work, rumble_packet. cbn [negb]. rewrite Hh.
  destruct (ctlr_type ns2 =? NS2_CTLR_TYPE_GC).
  - destruct (amplitude (sd (rumble ns2)) =? 0);
      [| destruct (error (sd (rumble ns2)) <? amplitude (sd (rumble ns2)))];
      cbn [negb fst snd rumble_seq hdev ctlr_type set_rumble_state];
      repeat split; assumption.
  - destruct (ctlr_type ns2 =? NS2_CTLR_TYPE_PRO);
      destruct (truthy (hi_amp (hd (rumble ns2)))
                || truthy (lo_amp (hd (rumble ns2))));
      cbn [negb fst snd rumble_seq hdev ctlr_type set_rumble_state];
      repeat split; assumption.
Qed.

(** X8: with the data path bound and the sequence counter in 0 .. 15, a run
    of the rumble work hands over exactly one report: 64 bytes, the first
    being 3 for a GameCube controller, 2 for a Pro Controller and 1
    otherwise, the second 0x50 plus the sequence counter; the counter
    moves on by one modulo 16.  For a controller that is not a GameCube
    controller the report carries the four rumble fields at offset 2, and
    for a Pro Controller the same fields and header again at offset 0x12
    and 0x11. *)
Theorem rumble_packet_shape :
  forall interval current_ms ns2,
    hdev ns2 = true -> 0 <= rumble_seq ns2 <= 15 ->
    exists p,
      snd (switch2_rumble_work interval true current_ms ns2) = [p]
      /\ List.length p = 64%nat /\ Forall is_byte p
      /\ byte_at p 0 = rumble_report_kind (ctlr_type ns2)
      /\ byte_at p 1 = 0x50 + rumble_seq ns2
      /\ rumble_seq (fst (switch2_rumble_work interval true current_ms ns2))
         = (rumble_seq ns2 + 1) mod 16
      /\ (ctlr_type ns2 <> NS2_CTLR_TYPE_GC -> hd_10bit (hd (rumble ns2)) ->
          decode_rumble p 2 = hd (rumble ns2)
          /\ (ctlr_type ns2 = NS2_CTLR_TYPE_PRO ->
              byte_at p 0x11 = 0x50 + rumble_seq ns2
              /\ decode_rumble p 0x12 = hd (rumble ns2))).
Proof.
  intros interval current_ms ns2 Hh Hs.
  pose proof (lor_sequence _ Hs) as Hl.
  destruct (rumble_work_output interval current_ms ns2 Hh) as (Eo & Eq & _).
  exists (rumble_packet ns2). split; [exact Eo |].
  rewrite Eq, (next_sequence _ Hs).
  unfold rumble_packet, rumble_report_kind. cbv zeta.
  destruct (Z.eqb_spec (ctlr_type ns2) NS2_CTLR_TYPE_GC) as [G | G].
  - split; [packet_length |]. split; [packet_bytes |].
    split; [read_byte; reflexivity |].
    split; [read_byte; rewrite Hl; apply u8_small; lia |].
    split; [reflexivity | intros N; contradiction].
  - assert (D2 : hd_10bit (hd (rumble ns2)) ->
                 decode_rumble
                   (switch2_encode_rumble (hd (rumble ns2))
                      (store (store (repeat 0 64) 1
                                (Z.lor 0x50 (rumble_seq ns2))) 0 1) 2) 2
                 = hd (rumble ns2)).
    { intros H10. apply decode_encode_rumble; [exact H10 |].
      rewrite !length_store, repeat_length. cbn. lia. }
    destruct (Z.eqb_spec (ctlr_type ns2) NS2_CTLR_TYPE_PRO) as [P | P].
    + split; [packet_length |]. split; [packet_bytes |].
      split; [read_byte; reflexivity |].
      split; [read_byte; rewrite Hl; apply u8_small; lia |].
      split; [reflexivity |]. intros _ H10. split.
      * etransitivity; [| exact (D2 H10)]. apply decode_rumble_ext.
        intros i Hi. rewrite encode_rumble_frame by lia.
        rewrite !byte_at_store_other by lia. reflexivity.
      * intros _. split.
        -- read_byte. rewrite Hl. apply u8_small. lia.
        -- apply decode_encode_rumble; [exact H10 |].
           buffer_length. cbn. lia.
    + split; [packet_length |]. split; [packet_bytes |].
      split; [read_byte; reflexivity |].
      split; [read_byte; rewrite Hl; apply u8_small; lia |].
      split; [reflexivity |]. intros _ H10.
      split; [exact (D2 H10) | intros N; contradiction].
Qed.

Lemma rumble_packet_shape_witness :
  hdev pro_session = true /\ 0 <= rumble_seq pro_session <= 15
  /\ exists p,
       snd (switch2_rumble_work 4 true 1000 pro_session) = [p]
       /\ List.length p = 64%nat /\ byte_at p 0 = 2 /\ byte_at p 1 = 0x50.
Proof.
  assert (Hh : hdev pro_session = true) by reflexivity.
  assert (Hs : 0 <= rumble_seq pro_session <= 15)
    by (split; apply Z.leb_le; reflexivity).
  split; [exact Hh |]. split; [exact Hs |].
  destruct (rumble_packet_shape 4 1000 pro_session Hh Hs)
    as (p & E & L & _ & B0 & B1 & _).
  exists p. split; [exact E |]. split; [exact L |].
  split; [exact B0 | exact B1].
Defined.

Section RumbleRuns.

Variable interval : Z.

Lemma play_effect_keeps ns2 effect :
  hdev (snd (switch2_play_effect ns2 effect)) = hdev ns2
  /\ ctlr_type (snd (switch2_play_effect ns2 effect)) = ctlr_type ns2.
Proof.
  unfold switch2_play_effect.
  destruct (effect_type effect =? FF_RUMBLE); split; reflexivity.
Qed.

Lemma rumble_work_without_hdev buffer_ok current_ms ns2 :
  hdev ns2 = false -> rumble_work ns2 = None ->
  snd (switch2_rumble_work interval buffer_ok current_ms ns2) = []
  /\ hdev (fst (switch2_rumble_work interval buffer_ok current_ms ns2)) = false
  /\ rumble_work (fst (switch2_rumble_work interval buffer_ok current_ms ns2))
     = None.
Proof.
  intros Hh Hw. unfold switch2_rumble_work.
  destruct buffer_ok; cbn [negb]; [| auto].
  rewrite Hh.
  destruct (ctlr_type ns2 =? NS2_CTLR_TYPE_GC).
  - destruct (amplitude (sd (rumble ns2)) =? 0);
      [| destruct (error (sd (rumble ns2)) <? amplitude (sd (rumble ns2)))];
      cbn; auto.
  - destruct (ctlr_type ns2 =? NS2_CTLR_TYPE_PRO);
      destruct (truthy (hi_amp (hd (rumble ns2)))
                || truthy (lo_amp (hd (rumble ns2)))); cbn; auto.
Qed.

Lemma rumble_step_without_hdev ns2 ev :
  hdev ns2 = false ->
  snd (rumble_step interval ns2 ev) = []
  /\ hdev (fst (rumble_step interval ns2 ev)) = false
  /\ (is_tick ev -> rumble_work (fst (rumble_step interval ns2 ev)) = None).
Proof.
  intros Hh. destruct ev as [effect | buffer_ok current_ms];
    cbn [rumble_step fst snd is_tick].
  - destruct (play_effect_keeps ns2 effect) as [E _]. rewrite E.
    split; [reflexivity |]. split; [exact Hh | intros N; contradiction].
  - unfold run_rumble_work. destruct (rumble_work ns2) as [d |] eqn:Ew.
    + destruct (rumble_work_without_hdev buffer_ok current_ms
                  (set_rumble_state ns2 (rumble_seq ns2) (rumble ns2)
                     (last_rumble_work ns2) None) Hh eq_refl)
        as (Eo & Eh & En).
      split; [exact Eo |]. split; [exact Eh | intros _; exact En].
    + cbn [fst snd]. auto.
Qed.

Lemma rumble_run_app ns2 evs1 evs2 :
  rumble_run interval ns2 (evs1 ++ evs2)
  = (fst (rumble_run interval (fst (rumble_run interval ns2 evs1)) evs2),
     snd (rumble_run interval ns2 evs1)
     ++ snd (rumble_run interval (fst (rumble_run interval ns2 evs1)) evs2)).
Proof.
  revert ns2. induction evs1 as [| ev evs1 IH]; intros ns2.
  - cbn [app rumble_run fst snd]. destruct (rumble_run interval ns2 evs2).
    reflexivity.
  - cbn [app rumble_run]. destruct (rumble_step interval ns2 ev) as [s1 o1].
    rewrite IH. destruct (rumble_run interval s1 evs1) as [s2 o2].
    cbn [fst snd].
    destruct (rumble_run interval s2 evs2) as [s3 o3]. cbn [fst snd].
    rewrite app_assoc. reflexivity.
Qed.

Lemma rumble_run_without_hdev evs :
  forall ns2, hdev ns2 = false ->
              snd (rumble_run interval ns2 evs) = []
              /\ hdev (fst (rumble_run interval ns2 evs)) = false.
Proof.
  induction evs as [| ev evs IH]; intros ns2 Hh; [cbn; auto |].
  cbn [rumble_run].
  destruct (rumble_step_without_hdev ns2 ev Hh) as (Eo & Eh & _).
  destruct (rumble_step interval ns2 ev) as [s1 o1]. cbn [fst snd] in Eo, Eh.
  destruct (IH s1 Eh) as [Eo' Eh'].
  destruct (rumble_run interval s1 evs) as [s2 o2]. cbn [fst snd] in *.
  subst. auto.
Qed.

End RumbleRuns.

(** X9: while the data path is unbound the rumble encoder never hands
    over a report, whatever requests and ticks arrive, and after any tick
    no work is left pending. *)
Theorem rumble_needs_data_path :
  forall interval ns2 evs,
    hdev ns2 = false ->
    snd (rumble_run interval ns2 evs) = []
    /\ (forall buffer_ok current_ms,
          rumble_work (fst (rumble_run interval ns2
                              (evs ++ [Tick buffer_ok current_ms]))) = None).
Proof.
  intros interval ns2 evs Hh.
  destruct (rumble_run_without_hdev interval evs ns2 Hh) as [Eo Eh].
  split; [exact Eo |]. intros buffer_ok current_ms.
  rewrite rumble_run_app. cbn [fst].
  cbn [rumble_run].
  destruct (rumble_step_without_hdev interval _
              (Tick buffer_ok current_ms) Eh) as (_ & _ & En).
  destruct (rumble_step interval (fst (rumble_run interval ns2 evs))
              (Tick buffer_ok current_ms)) as [s1 o1].
  cbn [fst] in *. apply En. exact I.
Qed.

Lemma rumble_needs_data_path_witness :
  hdev attached_session = false
  /\ snd (rumble_run 4 attached_session
            [SetIntensity strong_effect; Tick true 1000; Tick true 1004]) = []
  /\ rumble_work (fst (rumble_run 4 attached_session
                         ([SetIntensity strong_effect] ++ [Tick true 1000])))
     = None.
Proof.
  assert (Hh : hdev attached_session = false) by reflexivity.
  split; [exact Hh |]. split.
  - apply (proj1 (rumble_needs_data_path 4 attached_session _ Hh)).
  - apply (proj2 (rumble_needs_data_path 4 attached_session
                    [SetIntensity strong_effect] Hh)).
Defined.

(** ** Duty cycle of the GameCube controller *)

Lemma on_packets_cons p out :
  on_packets (p :: out)
  = (if byte_at p 2 =? GC_RUMBLE_ON then 1 else 0) + on_packets out.
Proof.
  unfold on_packets. cbn [filter].
  destruct (byte_at p 2 =? GC_RUMBLE_ON); cbn [List.length]; lia.
Qed.

Lemma gc_packet_command ns2 :
  ctlr_type ns2 = NS2_CTLR_TYPE_GC -> amplitude (sd (rumble ns2)) <> 0 ->
  byte_at (rumble_packet ns2) 2
  = if error (sd (rumble ns2)) <? amplitude (sd (rumble ns2)) then GC_RUMBLE_ON
    else GC_RUMBLE_OFF.
Proof.
  intros Hgc Ha. unfold rumble_packet. cbv zeta.
  rewrite Hgc, Z.eqb_refl. read_byte.
  apply Z.eqb_neq in Ha. rewrite Ha.
  destruct (error (sd (rumble ns2)) <? amplitude (sd (rumble ns2)));
    reflexivity.
Qed.

Lemma gc_active_tick interval current_ms ns2 :
  ctlr_type ns2 = NS2_CTLR_TYPE_GC -> hdev ns2 = true ->
  rumble_work ns2 <> None -> amplitude (sd (rumble ns2)) <> 0 ->
  is_u16 (error (sd (rumble ns2))) -> is_u16 (amplitude (sd (rumble ns2))) ->
  let res := run_rumble_work interval true current_ms ns2 in
  snd res = [rumble_packet ns2]
  /\ sd (rumble (fst res))
     = {| error := diffuse (error (sd (rumble ns2)))
                     (amplitude (sd (rumble ns2)));
          amplitude := amplitude (sd (rumble ns2)) |}
  /\ ctlr_type (fst res) = NS2_CTLR_TYPE_GC
  /\ hdev (fst res) = true
  /\ rumble_work (fst res) <> None.
Proof.
  intros Hgc Hh Hw Ha He Hu res. unfold res, run_rumble_work.
  destruct (rumble_work ns2) as [d |]; [| contradiction].
  set (s0 := set_rumble_state ns2 (rumble_seq ns2) (rumble ns2)
               (last_rumble_work ns2) None).
  destruct (rumble_work_output interval current_ms s0 Hh) as (Eo & _ & Eh & _).
  destruct (rumble_work_gc interval current_ms s0 Hgc He Hu) as [Es Et].
  split; [exact Eo |]. split; [exact Es |]. split; [exact Et |].
  split; [exact Eh |].
  unfold switch2_rumble_work. cbn [negb].
  change (ctlr_type s0) with (ctlr_type ns2). rewrite Hgc, Z.eqb_refl.
  change (rumble s0) with (rumble ns2).
  apply Z.eqb_neq in Ha. rewrite Ha.
  change (hdev s0) with (hdev ns2). rewrite Hh.
  destruct (error (sd (rumble ns2)) <? amplitude (sd (rumble ns2)));
    cbn; discriminate.
Qed.

Lemma gc_run_duty interval times :
  forall ns2,
    ctlr_type ns2 = NS2_CTLR_TYPE_GC -> hdev ns2 = true ->
    rumble_work ns2 <> None ->
    1 <= amplitude (sd (rumble ns2)) <= 65535 ->
    is_u16 (error (sd (rumble ns2))) ->
    let res := rumble_run interval ns2 (ticks_at times) in
    List.length (snd res) = List.length times
    /\ on_packets (snd res) * 65535
       = Z.of_nat (List.length times) * amplitude (sd (rumble ns2))
         + error (sd (rumble (fst res))) - error (sd (rumble ns2))
    /\ is_u16 (error (sd (rumble (fst res)))).
Proof.
  induction times as [| t times IH]; intros ns2 Hgc Hh Hw Ha He res.
  - unfold res. cbn [ticks_at map rumble_run fst snd List.length].
    split; [reflexivity |]. split; [| exact He].
    unfold on_packets. cbn. lia.
  - unfold res. cbn [ticks_at map rumble_run rumble_step].
    fold (ticks_at times).
    assert (Hu : is_u16 (amplitude (sd (rumble ns2))))
      by (unfold is_u16; lia).
    destruct (gc_active_tick interval t ns2 Hgc Hh Hw ltac:(lia) He Hu)
      as (Eo & Es & Et & Eh & Ep).
    pose proof (gc_packet_command ns2 Hgc ltac:(lia)) as Eb.
    pose proof (diffuse_bounds _ _ He Hu) as Hd.
    destruct (run_rumble_work interval true t ns2) as [s1 o1].
    cbn [fst snd] in Eo, Es, Et, Eh, Ep. subst o1.
    assert (Ha1 : amplitude (sd (rumble s1)) = amplitude (sd (rumble ns2)))
      by (rewrite Es; reflexivity).
    assert (He1 : error (sd (rumble s1))
                  = diffuse (error (sd (rumble ns2)))
                      (amplitude (sd (rumble ns2))))
      by (rewrite Es; reflexivity).
    specialize (IH s1 Et Eh Ep ltac:(rewrite Ha1; lia)
                  ltac:(rewrite He1; unfold is_u16; lia)).
    cbn zeta in IH. destruct IH as (Il & Io & Iu).
    destruct (rumble_run interval s1 (ticks_at times)) as [s2 o2].
    cbn [fst snd app] in *.
    split; [cbn [List.length]; rewrite Il; reflexivity |].
    split; [| exact Iu].
    rewrite on_packets_cons, Eb. rewrite Ha1, He1 in Io.
    unfold diffuse, U16_MAX, GC_RUMBLE_ON, GC_RUMBLE_OFF in *.
    cbn [List.length]. rewrite Nat2Z.inj_succ.
    destruct (Z.eqb_spec (amplitude (sd (rumble ns2))) 0) as [Z0 | Z0];
      [lia |].
    destruct (error (sd (rumble ns2)) <? amplitude (sd (rumble ns2)));
      cbn [Z.eqb Pos.eqb]; lia.
Qed.

(** X10: a GameCube controller with the data path bound, the work pending
    and a nonzero amplitude a hands over one report per tick, and the number
    of "on" reports follows the amplitude: after n ticks from an
    accumulated error e it is (n * a + e' - e) / 65535 for the new error
    e', so it differs from n * a / 65535 by less than one report in either
    direction. *)
Theorem gc_duty_cycle :
  forall interval times ns2,
    ctlr_type ns2 = NS2_CTLR_TYPE_GC -> hdev ns2 = true ->
    rumble_work ns2 <> None ->
    1 <= amplitude (sd (rumble ns2)) <= 65535 ->
    is_u16 (error (sd (rumble ns2))) ->
    let n := Z.of_nat (List.length times) in
    let a := amplitude (sd (rumble ns2)) in
    let res := rumble_run interval ns2 (ticks_at times) in
    List.length (snd res) = List.length times
    /\ on_packets (snd res) * 65535
       = n * a + error (sd (rumble (fst res))) - error (sd (rumble ns2))
    /\ n * a - 65535 <= on_packets (snd res) * 65535 <= n * a + 65535.
Proof.
  intros interval times ns2 Hgc Hh Hw Ha He n a res.
  destruct (gc_run_duty interval times ns2 Hgc Hh Hw Ha He) as (El & Eo & Eu).
  fold res in El, Eo, Eu. fold n a in Eo.
  split; [exact El |]. split; [exact Eo |].
  unfold is_u16 in *. lia.
Qed.

Lemma gc_duty_cycle_witness :
  ctlr_type gc_requested_session = NS2_CTLR_TYPE_GC
  /\ hdev gc_requested_session = true
  /\ rumble_work gc_requested_session <> None
  /\ on_packets (snd (rumble_run 4 gc_requested_session
                        (ticks_at [1000; 1004; 1008; 1012; 1016]))) * 65535
     = 5 * 40000 + error (sd (rumble (fst (rumble_run 4 gc_requested_session
                        (ticks_at [1000; 1004; 1008; 1012; 1016])))))
       - 0.
Proof.
  assert (Hgc : ctlr_type gc_requested_session = NS2_CTLR_TYPE_GC)
    by reflexivity.
  assert (Hh : hdev gc_requested_session = true) by reflexivity.
  assert (Hw : rumble_work gc_requested_session <> None) by discriminate.
  repeat (split; [assumption |]).
  apply (proj1 (proj2 (gc_duty_cycle 4 [1000; 1004; 1008; 1012; 1016]
                         gc_requested_session Hgc Hh Hw
                         ltac:(split; apply Z.leb_le; reflexivity)
                         ltac:(split; apply Z.leb_le; reflexivity)))).
Defined.

(** ** Rescheduling *)

Lemma rumble_work_reschedule interval current_ms ns2 :
  hdev ns2 = true -> rumble_work ns2 = None -> rumble_requested ns2 = true ->
  let last := if last_rumble_work ns2 =? 0 then ulong current_ms
              else ulong (last_rumble_work ns2 + interval) in
  last_rumble_work (fst (switch2_rumble_work interval true current_ms ns2))
  = last
  /\ rumble_work (fst (switch2_rumble_work interval true current_ms ns2))
     = Some (ulong (last + interval - current_ms)).
Proof.
  intros Hh Hw Hr. unfold rumble_requested in Hr.
  unfold switch2_rumble_work. cbn [negb]. rewrite Hh, Hw.
  destruct (ctlr_type ns2 =? NS2_CTLR_TYPE_GC).
  - apply negb_true_iff in Hr. rewrite Hr.
    destruct (error (sd (rumble ns2)) <? amplitude (sd (rumble ns2)));
      cbn; split; reflexivity.
  - rewrite Hr.
    destruct (ctlr_type ns2 =? NS2_CTLR_TYPE_PRO); cbn; split; reflexivity.
Qed.

Lemma ulong_small v : 0 <= v < 18446744073709551616 -> ulong v = v.
Proof.
  intros H. unfold ulong. change (2 ^ 64) with 18446744073709551616.
  apply Z.mod_small. exact H.
Qed.

Lemma ulong_negative v :
  - 18446744073709551616 <= v < 0 -> ulong v = v + 18446744073709551616.
Proof.
  intros H. unfold ulong. change (2 ^ 64) with 18446744073709551616.
  symmetry. apply (Z.mod_unique v _ (-1)); lia.
Qed.

(** X11: a run of the rumble work that finds something to play, with the
    data path bound, plans the next run from the previous deadline and not
    from the time it reads.  On the first run after idle the deadline is
    the current time and the next run is one interval away.  Later the
    deadline moves on by exactly one interval; the delay of the next run
    is the time left until one interval after the new deadline, and when
    the run comes later than that, the unsigned subtraction wraps and the
    delay is 2^64 less the lateness. *)
Theorem rumble_deadline :
  forall interval current_ms ns2,
    hdev ns2 = true -> rumble_work ns2 = None ->
    rumble_requested ns2 = true ->
    0 < interval < 2 ^ 62 -> 0 <= current_ms < 2 ^ 62 ->
    0 <= last_rumble_work ns2 < 2 ^ 62 ->
    let last := last_rumble_work ns2 in
    let ns2' := fst (switch2_rumble_work interval true current_ms ns2) in
    (last = 0 ->
     last_rumble_work ns2' = current_ms /\ rumble_work ns2' = Some interval)
    /\ (last <> 0 ->
        last_rumble_work ns2' = last + interval
        /\ (current_ms <= last + 2 * interval ->
            rumble_work ns2' = Some (last + 2 * interval - current_ms))
        /\ (last + 2 * interval < current_ms ->
            rumble_work ns2'
            = Some (2 ^ 64 - (current_ms - (last + 2 * interval))))).
Proof.
  intros interval current_ms ns2 Hh Hw Hr Hi Hc Hl last ns2'.
  destruct (rumble_work_reschedule interval current_ms ns2 Hh Hw Hr)
    as [El Ew].
  fold ns2' in El, Ew. cbn zeta in El, Ew. fold last in El, Ew, Hl.
  change (2 ^ 62) with 4611686018427387904 in *.
  change (2 ^ 64) with 18446744073709551616.
  split.
  - intros H0. rewrite H0 in El, Ew. cbn [Z.eqb] in El, Ew.
    rewrite (ulong_small current_ms) in El, Ew by lia.
    split; [exact El |]. rewrite Ew. f_equal. rewrite ulong_small; lia.
  - intros Hn. apply Z.eqb_neq in Hn. rewrite Hn in El, Ew.
    rewrite (ulong_small (last + interval)) in El, Ew by lia.
    split; [exact El |]. split; intros Ht; rewrite Ew; f_equal.
    + rewrite ulong_small; lia.
    + rewrite ulong_negative; lia.
Qed.

Lemma rumble_deadline_witness :
  last_rumble_work second_run_session = 1000
  /\ last_rumble_work (fst (switch2_rumble_work 4 true 1004
                              second_run_session)) = 1004
  /\ rumble_work (fst (switch2_rumble_work 4 true 1004 second_run_session))
     = Some 4
  /\ rumble_work (fst (switch2_rumble_work 4 true 1010 second_run_session))
     = Some (2 ^ 64 - 2).
Proof.
  assert (Hh : hdev second_run_session = true) by reflexivity.
  assert (Hw : rumble_work second_run_session = None) by reflexivity.
  assert (Hr : rumble_requested second_run_session = true) by reflexivity.
  assert (Hi : 0 < 4 < 2 ^ 62) by (split; reflexivity).
  assert (Hl : 0 <= last_rumble_work second_run_session < 2 ^ 62)
    by (split; [apply Z.leb_le | apply Z.ltb_lt]; reflexivity).
  assert (H4 : 0 <= 1004 < 2 ^ 62)
    by (split; [apply Z.leb_le | apply Z.ltb_lt]; reflexivity).
  assert (H10 : 0 <= 1010 < 2 ^ 62)
    by (split; [apply Z.leb_le | apply Z.ltb_lt]; reflexivity).
  split; [reflexivity |].
  destruct (proj2 (rumble_deadline 4 1004 second_run_session Hh Hw Hr Hi H4 Hl)
              ltac:(discriminate)) as (E1 & E2 & _).
  destruct (proj2 (rumble_deadline 4 1010 second_run_session Hh Hw Hr Hi H10 Hl)
              ltac:(discriminate)) as (_ & _ & E3).
  split; [exact E1 |]. split.
  - apply E2. apply Z.leb_le. reflexivity.
  - apply E3. apply Z.ltb_lt. reflexivity.
Defined.

(** ** Progress of the initialization *)

Section InitProgress.

Variable env : environment.

Lemma send_outcome ns2 c sc message :
  List.length (sent_of (send env ns2 c sc message)) = 1%nat.
Proof. reflexivity. Qed.

Lemma init_input_outcome ns2 :
  sent_of (switch2_init_input env ns2) = []
  /\ cfg (state_of (switch2_init_input env ns2)) = cfg ns2
  /\ ctlr_type (state_of (switch2_init_input env ns2)) = ctlr_type ns2.
Proof.
  unfold switch2_init_input.
  repeat match goal with
         | |- context [if ?b then _ else _] => destruct b
         end; repeat split.
Qed.

Lemma init_loop_bounds n :
  forall ns2,
    let o := init_loop env n ns2 in
    init_step ns2 + (if Nat.eqb n 0 then 0 else 1) <= init_step (state_of o)
    /\ init_step (state_of o) <= init_step ns2 + Z.of_nat n
    /\ cfg (state_of o) = cfg ns2
    /\ ctlr_type (state_of o) = ctlr_type ns2.
Proof.
  induction n as [| n IH]; intros ns2; cbn [init_loop Nat.eqb].
  - cbn. repeat split; lia.
  - set (s1 := set_init_step ns2 (init_step ns2 + 1)).
    pose proof (init_step_action_step env s1) as A.
    destruct (init_step_action env s1) as [o | s2] eqn:Ea.
    + cbn zeta. rewrite A. cbn [init_step s1 set_init_step].
      split; [lia |]. split; [lia |].
      unfold init_step_action in Ea.
      repeat match type of Ea with
             | context [if ?b then _ else _] => destruct b
             end;
        try discriminate; injection Ea as <-;
        unfold switch2_read_flash, switch2_features_enable,
          switch2_set_player_id, send;
        try (destruct (cfg s1); split; reflexivity);
        try (split; reflexivity);
        destruct (init_input_outcome s1) as (_ & E1 & E2); split; assumption.
    + subst s2. specialize (IH s1). cbn zeta in IH.
      destruct IH as (I1 & I2 & I3 & I4).
      cbn [init_step cfg ctlr_type s1 set_init_step] in *.
      destruct (Nat.eqb n 0); repeat split; try assumption; lia.
Qed.

End InitProgress.

Lemma init_controller_bounds env ns2 :
  cfg ns2 = true -> 0 <= init_step ns2 <= NS2_INIT_DONE ->
  let o := switch2_init_controller env ns2 in
  (init_step ns2 < NS2_INIT_DONE -> init_step ns2 < init_step (state_of o))
  /\ init_step (state_of o) <= NS2_INIT_DONE
  /\ cfg (state_of o) = true.
Proof.
  intros Hc Hs. unfold switch2_init_controller.
  destruct (Z.eqb_spec (init_step ns2) NS2_INIT_DONE) as [E | E].
  - cbn. repeat split; try assumption; lia.
  - rewrite Hc. cbn [negb].
    destruct (init_loop_bounds env
                (Z.to_nat (NS2_INIT_DONE - init_step ns2)) ns2)
      as (I1 & I2 & I3 & _).
    destruct (Nat.eqb_spec (Z.to_nat (NS2_INIT_DONE - init_step ns2)) 0)
      as [N | N]; [lia |].
    cbn zeta. repeat split; try lia. rewrite I3. exact Hc.
Qed.

Lemma init_calls_reach_done envs :
  forall ns2,
    cfg ns2 = true -> 0 <= init_step ns2 <= NS2_INIT_DONE ->
    NS2_INIT_DONE - init_step ns2 <= Z.of_nat (List.length envs) ->
    init_step (init_calls envs ns2) = NS2_INIT_DONE.
Proof.
  induction envs as [| env envs IH]; intros ns2 Hc Hs Hn;
    cbn [init_calls List.length] in *; [lia |].
  destruct (init_controller_bounds env ns2 Hc Hs) as (P1 & P2 & P3).
  pose proof (init_controller_monotone env ns2) as M.
  apply IH; [exact P3 | lia |].
  destruct (Z.eq_dec (init_step ns2) NS2_INIT_DONE) as [D | D]; [lia |].
  specialize (P1 ltac:(lia)). lia.
Qed.

(** X12: with the command path bound and [init_step] below NS2_INIT_DONE,
    every call of [switch2_init_controller] moves [init_step] forward by at
    least one step and not beyond NS2_INIT_DONE, whatever the transport
    answers -- also when sending fails; so fourteen calls bring every
    session to NS2_INIT_DONE. *)
Theorem init_controller_progress :
  forall envs env ns2,
    cfg ns2 = true -> 0 <= init_step ns2 <= NS2_INIT_DONE ->
    (init_step ns2 < NS2_INIT_DONE ->
     init_step ns2 < init_step (state_of (switch2_init_controller env ns2)))
    /\ init_step (state_of (switch2_init_controller env ns2)) <= NS2_INIT_DONE
    /\ (List.length envs = 14%nat ->
        init_step (init_calls envs ns2) = NS2_INIT_DONE).
Proof.
  intros envs env ns2 Hc Hs.
  destruct (init_controller_bounds env ns2 Hc Hs) as (P1 & P2 & _).
  split; [exact P1 |]. split; [exact P2 |].
  intros Hl. apply init_calls_reach_done; try assumption.
  rewrite Hl. unfold NS2_INIT_DONE in *. lia.
Qed.

Lemma init_controller_progress_witness :
  cfg attached_session = true
  /\ ret_of (switch2_init_controller env_failing attached_session) = - 105
  /\ init_step attached_session
     < init_step (state_of (switch2_init_controller env_failing
                              attached_session))
  /\ init_step (init_calls (repeat env_failing 14) attached_session)
     = NS2_INIT_DONE.
Proof.
  assert (Hc : cfg attached_session = true) by reflexivity.
  assert (Hs : 0 <= init_step attached_session <= NS2_INIT_DONE)
    by (split; apply Z.leb_le; reflexivity).
  split; [exact Hc |]. split; [reflexivity |].
  destruct (init_controller_progress (repeat env_failing 14) env_failing
              attached_session Hc Hs) as (P1 & _ & P3).
  split; [apply P1; reflexivity | apply P3; reflexivity].
Defined.

(** ** What the initialization sends *)

Ltac one_command :=
  right; eexists; split; [reflexivity |]; split; [cbn; lia |];
  unfold command_fits_type, flash_request_address; cbn [cmd payload];
  repeat split; intros; try discriminate;
  try match goal with
      | H : _ \/ _ |- _ => destruct H; discriminate
      end;
  try assumption.

Lemma init_step_action_sends env ns2 o :
  init_step_action env ns2 = Return o ->
  modest_send (ctlr_type ns2) (sent_of o).
Proof.
  unfold init_step_action, switch2_read_flash, switch2_features_enable,
    switch2_set_player_id, send.
  intros H.
  repeat match type of H with
         | context [if negb ?b then _ else _] =>
             let E := fresh "E" in destruct b eqn:E; cbn [negb] in H
         | context [if ?b then _ else _] =>
             let E := fresh "E" in destruct b eqn:E
         end;
    try discriminate; injection H as <-; unfold modest_send, sent_of;
    cbn [snd];
    try (left; reflexivity);
    try one_command.
  all: try (apply Z.eqb_eq; assumption).
  all: left; apply (proj1 (init_input_outcome env ns2)).
Qed.

Lemma init_loop_sends env n :
  forall ns2, modest_send (ctlr_type ns2) (sent_of (init_loop env n ns2)).
Proof.
  induction n as [| n IH]; intros ns2; cbn [init_loop].
  - left. reflexivity.
  - set (s1 := set_init_step ns2 (init_step ns2 + 1)).
    pose proof (init_step_action_step env s1) as A.
    destruct (init_step_action env s1) as [o | s2] eqn:Ea.
    + apply (init_step_action_sends env s1 o Ea).
    + subst s2. apply (IH s1).
Qed.

Lemma init_controller_sends env ns2 :
  modest_send (ctlr_type ns2) (sent_of (switch2_init_controller env ns2)).
Proof.
  unfold switch2_init_controller.
  destruct (init_step ns2 =? NS2_INIT_DONE); [left; reflexivity |].
  destruct (cfg ns2); cbn [negb]; [apply init_loop_sends | left; reflexivity].
Qed.

(** X13: one call of [switch2_init_controller] hands at most one command
    to the transport, and so does one call of [switch2_receive_command];
    the message of the command has at most eight bytes, well within the 56
    bytes the transport accepts. *)
Theorem init_sends_one_small_command :
  forall env ns2 message length,
    (List.length (sent_of (switch2_init_controller env ns2)) <= 1)%nat
    /\ (List.length (sent_of (switch2_receive_command env ns2 message length))
        <= 1)%nat
    /\ (forall c,
          In c (sent_of (switch2_init_controller env ns2))
          \/ In c (sent_of (switch2_receive_command env ns2 message length)) ->
          (List.length (payload c) <= 8)%nat).
Proof.
  intros env ns2 message length.
  pose proof (init_controller_sends env ns2) as Hi.
  assert (Hr : sent_of (switch2_receive_command env ns2 message length) = []
               \/ sent_of (switch2_receive_command env ns2 message length)
                  = sent_of (switch2_init_controller env ns2)).
  { unfold switch2_receive_command.
    destruct (length <? 8); [left; reflexivity |].
    destruct (init_step ns2 <? NS2_INIT_DONE);
      repeat match goal with
             | |- context [if ?b then _ else _] => destruct b
             end; auto. }
  destruct Hi as [Hi | (c0 & Hi & Hp & _)]; rewrite Hi in *.
  - destruct Hr as [-> | ->];
      (split; [cbn; lia |]); (split; [cbn; lia |]);
      intros c Hin; cbn [In] in Hin; tauto.
  - destruct Hr as [-> | ->];
      (split; [cbn; lia |]); (split; [cbn; lia |]);
      intros c Hin; cbn [In] in Hin;
      assert (c0 = c) by tauto; subst c; exact Hp.
Qed.

(** X14: the initialization asks for the calibration of the secondary
    stick only when the controller is not a Joy-Con, for the trigger
    calibration only when it is a GameCube controller, and enables the grip
    buttons only when it is a Joy-Con. *)
Theorem init_sends_by_type :
  forall env ns2 c,
    In c (sent_of (switch2_init_controller env ns2)) ->
    command_fits_type (ctlr_type ns2) c.
Proof.
  intros env ns2 c Hin.
  destruct (init_controller_sends env ns2) as [E | (c0 & E & _ & Hf)];
    rewrite E in Hin.
  - destruct Hin.
  - destruct Hin as [<- | []]. exact Hf.
Qed.

Lemma init_sends_one_small_command_witness :
  exists c,
    In c (sent_of (switch2_init_controller env_ok attached_session))
    /\ (List.length (payload c) <= 8)%nat.
Proof.
  eexists. split; [left; reflexivity |].
  apply (proj2 (proj2 (init_sends_one_small_command env_ok attached_session
                         [] 0)) _).
  left. left. reflexivity.
Defined.

Lemma init_sends_by_type_witness :
  exists c,
    In c (sent_of (switch2_init_controller env_ok gc_before_trigger_session))
    /\ cmd c = NS2_CMD_FLASH
    /\ flash_request_address c = NS2_FLASH_ADDR_FACTORY_TRIGGER_CALIB
    /\ command_fits_type (ctlr_type gc_before_trigger_session) c.
Proof.
  eexists. split; [left; reflexivity |]. split; [reflexivity |].
  split; [reflexivity |].
  apply (init_sends_by_type env_ok gc_before_trigger_session).
  left. reflexivity.
Defined.

(** ** Requests and their replies *)

Lemma le32_cpu_to_le32 a :
  0 <= a < 4294967296 ->
  le32 (cpu_to_le32 a) = a /\ Forall is_byte (cpu_to_le32 a).
Proof.
  intros Ha. unfold le32, cpu_to_le32, byte_at. cbn [nth].
  change 0xFF with (Z.ones 8). rewrite !Z.land_ones, !Z.shiftr_div_pow2 by lia.
  change (2 ^ 8) with 256. change (2 ^ 16) with 65536.
  change (2 ^ 24) with 16777216.
  assert (B0 : 0 <= a mod 256 < 256) by (apply Z.mod_pos_bound; lia).
  assert (B1 : 0 <= (a / 256) mod 256 < 256) by (apply Z.mod_pos_bound; lia).
  assert (B2 : 0 <= (a / 65536) mod 256 < 256) by (apply Z.mod_pos_bound; lia).
  assert (B3 : 0 <= (a / 16777216) mod 256 < 256)
    by (apply Z.mod_pos_bound; lia).
  split.
  - rewrite (lor_shiftl_add (a mod 256)) by (change (2 ^ 8) with 256; lia).
    replace (Z.shiftl ((a / 16777216) mod 256) 24)
      with (Z.shiftl (Z.shiftl ((a / 16777216) mod 256) 8) 16)
      by (rewrite Z.shiftl_shiftl by lia; reflexivity).
    rewrite <- Z.shiftl_lor.
    rewrite (lor_shiftl_add ((a / 65536) mod 256))
      by (change (2 ^ 8) with 256; lia).
    rewrite lor_shiftl_add by (change (2 ^ 8) with 256;
                               change (2 ^ 16) with 65536; lia).
    change (2 ^ 8) with 256. change (2 ^ 16) with 65536.
    Z.div_mod_to_equations. lia.
  - repeat (apply Forall_cons; [assumption |]). apply Forall_nil.
Qed.

(** X15: the message of a flash-read request carries the size in its first
    byte and the address, little-endian, in bytes 4 to 7.  A reply that
    repeats this message behind an eight-byte header with the same command
    and subcommand, followed by the data read, is decoded to the same size
    and address: [switch2_handle_flash_read] gets them, with the data. *)
Theorem flash_request_reply_round_trip :
  forall env ns2 address size,
    cfg ns2 = true -> 0 <= address < 4294967296 -> is_byte size ->
    exists c,
      sent_of (switch2_read_flash env ns2 address size) = [c]
      /\ cmd c = NS2_CMD_FLASH /\ subcmd c = NS2_SUBCMD_FLASH_READ
      /\ Forall is_byte (payload c)
      /\ flash_request_address c = address
      /\ forall env' ns2' header data rest,
           List.length header = 8%nat ->
           byte_at header 0 = cmd c -> byte_at header 3 = subcmd c ->
           (Z.to_nat size <= List.length data)%nat ->
           let frame := header ++ payload c ++ data in
           ret_of (switch2_receive_command env' ns2' (frame ++ rest)
                     (Z.of_nat (List.length frame))) = 0
           /\ state_of (switch2_receive_command env' ns2' (frame ++ rest)
                          (Z.of_nat (List.length frame)))
              = switch2_handle_flash_read (kicked env' ns2') size address
                  (data ++ rest).
Proof.
  intros env ns2 address size Hc Ha Hs.
  destruct (le32_cpu_to_le32 address Ha) as [Er Eb].
  unfold switch2_read_flash. rewrite Hc. cbn [negb].
  eexists. split; [reflexivity |]. cbn [cmd subcmd payload].
  split; [reflexivity |]. split; [reflexivity |].
  split; [cbn [app]; repeat (apply Forall_cons; [try assumption;
            apply is_byte_decide; reflexivity |]); exact Eb |].
  split; [exact Er |].
  intros env' ns2' header data rest Hh H0 H3 Hd.
  do 8 (destruct header as [| ? header]; [discriminate Hh |]).
  destruct header; [| discriminate Hh].
  unfold byte_at in H0, H3. cbn [nth] in H0, H3. subst.
  match goal with
  | |- context [Z.of_nat (List.length ?f)] => set (frame := f)
  end.
  assert (Hlen : List.length frame = (16 + List.length data)%nat)
    by reflexivity.
  pose proof (receive_flash_read env' ns2' (frame ++ rest)
                (Z.of_nat (List.length frame))) as R.
  rewrite Hlen in *.
  specialize (R ltac:(lia) eq_refl eq_refl). cbn zeta in R.
  change (byte_at (frame ++ rest) 8) with size in R.
  change (le32 (skipn 12 (frame ++ rest))) with (le32 (cpu_to_le32 address))
    in R.
  replace (skipn 16 (frame ++ rest)) with (data ++ rest) in R
    by (unfold frame, cpu_to_le32; cbn [app skipn]; reflexivity).
  rewrite Er in R. unfold is_byte in Hs.
  destruct (Z.ltb_spec (Z.of_nat (16 + List.length data)) 16); [lia |].
  destruct (Z.ltb_spec (Z.of_nat (16 + List.length data)) (size + 16));
    [lia |].
  exact R.
Qed.

Lemma flash_request_reply_round_trip_witness :
  exists c,
    sent_of (switch2_read_flash env_ok attached_session
               NS2_FLASH_ADDR_FACTORY_PRIMARY_CALIB 9) = [c]
    /\ state_of (switch2_receive_command env_ok attached_session
                   (([cmd c; 0x01; 0x00; subcmd c; 0x00; 0x10; 0x00; 0x00]
                     ++ payload c ++ sample_block) ++ [0xAA; 0xAA])
                   (Z.of_nat
                      (List.length
                         ([cmd c; 0x01; 0x00; subcmd c; 0x00; 0x10; 0x00; 0x00]
                          ++ payload c ++ sample_block))))
       = switch2_handle_flash_read (kicked env_ok attached_session) 9
           NS2_FLASH_ADDR_FACTORY_PRIMARY_CALIB (sample_block ++ [0xAA; 0xAA]).
Proof.
  destruct (flash_request_reply_round_trip env_ok attached_session
              NS2_FLASH_ADDR_FACTORY_PRIMARY_CALIB 9 eq_refl
              ltac:(split; [apply Z.leb_le | apply Z.ltb_lt]; reflexivity)
              ltac:(apply is_byte_decide; reflexivity))
    as (c & E & _ & _ & _ & _ & R).
  exists c. split; [exact E |].
  apply (proj2 (R env_ok attached_session
                  [cmd c; 0x01; 0x00; subcmd c; 0x00; 0x10; 0x00; 0x00]
                  sample_block [0xAA; 0xAA] eq_refl eq_refl eq_refl
                  ltac:(cbn; lia))).
Defined.

(** ** Invariants of the session *)

Lemma init_only_refl a : init_only a a.
Proof. unfold init_only. destruct a. reflexivity. Qed.

Lemma init_only_trans a b c : init_only a b -> init_only b c -> init_only a c.
Proof.
  unfold init_only. intros H1 H2. rewrite H2. rewrite H1 at 1.
  destruct a. reflexivity.
Qed.

Lemma init_only_step a k : init_only a (set_init_step a k).
Proof. unfold init_only. destruct a. reflexivity. Qed.

Lemma init_only_input a b : init_only a (set_input a b).
Proof. unfold init_only. destruct a. reflexivity. Qed.

Section SessionInvariants.

Variable env : environment.

(** [switch2_init_input] touches [input] only, and sets it only when it
    has a device in hand. *)
Lemma init_input_frame ns2 :
  let s := state_of (switch2_init_input env ns2) in
  init_only ns2 s
  /\ (input s = true -> input ns2 = true \/ hdev s = hdev ns2).
Proof.
  unfold switch2_init_input.
  repeat match goal with
         | |- context [if ?b then _ else _] => destruct b eqn:?
         end; cbn [state_of fst snd]; split;
    try apply init_only_refl; try apply init_only_input; intros; tauto.
Qed.

Lemma init_step_action_frame ns2 :
  match init_step_action env ns2 with
  | Return o =>
      init_only ns2 (state_of o)
      /\ init_step (state_of o) = init_step ns2
      /\ (input (state_of o) = true ->
          input ns2 = true
          \/ (hdev ns2 = true /\ init_step ns2 = NS2_INIT_DONE))
  | Break s => s = ns2
  end.
Proof.
  pose proof (init_input_frame ns2) as [F _].
  pose proof (init_input_step env ns2) as S.
  unfold init_step_action.
  repeat match goal with
         | |- context [if ?b then _ else _] => destruct b eqn:?
         end;
    rewrite ?send_state, ?read_flash_state, ?features_enable_state,
      ?set_player_id_state;
    try reflexivity;
    try (split; [apply init_only_refl | split; [reflexivity | tauto]]).
  split; [exact F | split; [exact S |]].
  intros Hi.
  destruct (input ns2) eqn:Ei; [left; reflexivity | right].
  split; [reflexivity |].
  repeat match goal with
         | H : (_ =? _) = true |- _ => apply Z.eqb_eq in H
         end.
  assumption.
Qed.

Lemma init_loop_frame n :
  forall ns2,
    let s := state_of (init_loop env n ns2) in
    init_only ns2 s
    /\ (input s = true ->
        input ns2 = true \/ (hdev ns2 = true /\ init_step s = NS2_INIT_DONE)).
Proof.
  induction n as [| n IH]; intros ns2; cbn [init_loop].
  - cbn [state_of fst snd]. split; [apply init_only_refl | tauto].
  - set (s1 := set_init_step ns2 (init_step ns2 + 1)).
    pose proof (init_step_action_frame s1) as A.
    destruct (init_step_action env s1) as [o | s2].
    + destruct A as (A1 & A2 & A3). split.
      * apply (init_only_trans ns2 s1); [apply init_only_step | exact A1].
      * intros Hi. specialize (A3 Hi). rewrite A2. exact A3.
    + subst s2. destruct (IH s1) as [I1 I2]. split.
      * apply (init_only_trans ns2 s1); [apply init_only_step | exact I1].
      * exact I2.
Qed.

Lemma init_controller_frame ns2 :
  let s := state_of (switch2_init_controller env ns2) in
  init_only ns2 s
  /\ (input s = true ->
      input ns2 = true \/ (hdev ns2 = true /\ init_step s = NS2_INIT_DONE)).
Proof.
  unfold switch2_init_controller.
  destruct (init_step ns2 =? NS2_INIT_DONE);
    [split; [apply init_only_refl | cbn; tauto] |].
  destruct (cfg ns2); cbn [negb];
    [apply init_loop_frame | split; [apply init_only_refl | cbn; tauto]].
Qed.

Lemma init_controller_lifecycle ns2 :
  lifecycle_invariant ns2 ->
  lifecycle_invariant (state_of (switch2_init_controller env ns2)).
Proof.
  intros (L1 & L3).
  destruct (init_controller_frame ns2) as [_ F2].
  pose proof (init_controller_monotone env ns2) as M.
  set (s := state_of (switch2_init_controller env ns2)) in *.
  destruct (cfg ns2) eqn:Ec.
  - destruct (init_controller_bounds env ns2 Ec L1) as (_ & B & _).
    fold s in B. split; [lia |].
    intros Hi. destruct (F2 Hi) as [Hi0 | [_ Hd]]; [| exact Hd].
    specialize (L3 Hi0). lia.
  - destruct (init_controller_unbound env ns2 Ec) as (U & _). fold s in U.
    rewrite U. split; assumption.
Qed.

(** The call registers the input device only when it finds both paths
    bound. *)
Lemma init_controller_registers ns2 :
  input ns2 = false ->
  input (state_of (switch2_init_controller env ns2)) = true ->
  hdev ns2 = true /\ cfg ns2 = true
  /\ init_step (state_of (switch2_init_controller env ns2)) = NS2_INIT_DONE.
Proof.
  intros Hi Hs. destruct (init_controller_frame ns2) as [_ F2].
  destruct (F2 Hs) as [N | [Hh Hd]]; [congruence |].
  split; [exact Hh |]. split; [| exact Hd].
  destruct (cfg ns2) eqn:Ec; [reflexivity |].
  destruct (init_controller_unbound env ns2 Ec) as (U & _).
  rewrite U in Hs. congruence.
Qed.

Lemma init_controller_data ns2 :
  data_invariant ns2 ->
  data_invariant (state_of (switch2_init_controller env ns2)).
Proof.
  destruct (init_controller_frame ns2) as [F _]. rewrite F. exact (fun H => H).
Qed.

Lemma kicked_lifecycle ns2 :
  lifecycle_invariant ns2 -> lifecycle_invariant (kicked env ns2).
Proof.
  unfold kicked. destruct (init_step ns2 <? NS2_INIT_DONE);
    [apply init_controller_lifecycle | exact (fun H => H)].
Qed.

Lemma kicked_data ns2 : data_invariant ns2 -> data_invariant (kicked env ns2).
Proof.
  unfold kicked. destruct (init_step ns2 <? NS2_INIT_DONE);
    [apply init_controller_data | exact (fun H => H)].
Qed.

End SessionInvariants.

(** A flash reply changes the serial number, the stick calibrations and
    the trigger zero points at most. *)
Lemma handle_flash_read_lifecycle ns2 size address data :
  let s := switch2_handle_flash_read ns2 size address data in
  hdev s = hdev ns2 /\ cfg s = cfg ns2 /\ init_step s = init_step ns2
  /\ input s = input ns2.
Proof.
  unfold switch2_handle_flash_read, parse_into, set_stick_calib.
  repeat match goal with
         | |- context [if ?b then _ else _] => destruct b
         end; cbn; tauto.
Qed.

Lemma parse_12bit calib data :
  Forall is_byte data -> stick_12bit calib ->
  stick_12bit (snd (switch2_parse_stick_calibration calib data)).
Proof.
  intros Hall Hc. unfold switch2_parse_stick_calibration.
  destruct (memeq UNCALIBRATED data 9); [exact Hc |].
  unfold stick_12bit, axis_12bit. cbn [snd x y neutral negative positive].
  pose proof (unpack_lo_arith data 0 Hall) as [-> ?].
  pose proof (unpack_lo_arith data 3 Hall) as [-> ?].
  pose proof (unpack_lo_arith data 6 Hall) as [-> ?].
  pose proof (unpack_hi_arith data 0 Hall) as [-> ?].
  pose proof (unpack_hi_arith data 3 Hall) as [-> ?].
  pose proof (unpack_hi_arith data 6 Hall) as [-> ?].
  tauto.
Qed.

Lemma parse_into_data ns2 i data :
  Forall is_byte data -> data_invariant ns2 ->
  data_invariant (parse_into ns2 i data).
Proof.
  intros Hall (D1 & D2 & D3 & D4 & D5 & D6 & D7).
  unfold parse_into, set_stick_calib, stick_calib_at, data_invariant.
  destruct i; cbn [set_stick_calibs serial stick_calib lt_zero rt_zero fst snd];
    (split; [exact D1 |]); (split; [exact D2 |]); (split; [exact D3 |]);
    (split; [try exact D4; apply parse_12bit; assumption |]);
    (split; [try exact D5; apply parse_12bit; assumption |]);
    split; assumption.
Qed.

Lemma forall_skipn (P : Z -> Prop) n l : Forall P l -> Forall P (skipn n l).
Proof.
  intros H. rewrite <- (firstn_skipn n l) in H.
  apply Forall_app in H. tauto.
Qed.

Lemma memcpy_serial dst data :
  List.length dst = 17%nat -> Forall is_byte dst -> byte_at dst 16 = 0 ->
  Forall is_byte data ->
  let s := memcpy dst data (Z.to_nat NS2_FLASH_SIZE_SERIAL) in
  List.length s = 17%nat /\ Forall is_byte s /\ byte_at s 16 = 0.
Proof.
  intros Hl Hb Hz Hd.
  do 17 (destruct dst as [| ? dst]; [discriminate Hl |]).
  destruct dst; [| discriminate Hl].
  unfold memcpy. cbn [NS2_FLASH_SIZE_SERIAL Z.to_nat Pos.to_nat Pos.iter_op
                      Nat.add seq map skipn app List.length].
  split; [reflexivity |]. split.
  - repeat (apply Forall_cons; [apply byte_at_in_range; exact Hd |]).
    apply (forall_skipn is_byte 16) in Hb. exact Hb.
  - exact Hz.
Qed.

Lemma handle_flash_read_data ns2 size address data :
  Forall is_byte data -> data_invariant ns2 ->
  data_invariant (switch2_handle_flash_read ns2 size address data).
Proof.
  intros Hall Hd. unfold switch2_handle_flash_read.
  repeat match goal with
         | |- context [?a =? ?b] =>
             destruct (Z.eqb_spec a b); cbn [negb andb]
         end;
    try exact Hd;
    try (apply parse_into_data; [try apply forall_skipn; exact Hall
                                | exact Hd]).
  - match goal with H : size = _ |- _ => rewrite H end.
    destruct Hd as (D1 & D2 & D3 & D).
    destruct (memcpy_serial (serial ns2) data D1 D2 D3 Hall) as (M1 & M2 & M3).
    unfold data_invariant. cbn [set_serial serial stick_calib lt_zero rt_zero].
    tauto.
  - destruct Hd as (D1 & D2 & D3 & D4 & D5 & _).
    unfold data_invariant.
    cbn [set_trigger_zero serial stick_calib lt_zero rt_zero].
    pose proof (byte_at_in_range data 0 Hall).
    pose proof (byte_at_in_range data 1 Hall).
    tauto.
Qed.

Lemma receive_command_cases env ns2 message length :
  let s := state_of (switch2_receive_command env ns2 message length) in
  s = ns2 \/ s = kicked env ns2
  \/ s = set_version (kicked env ns2) (read_version (skipn 8 message))
  \/ s = switch2_handle_flash_read (kicked env ns2)
           (byte_at (skipn 8 message) 0) (le32 (skipn 4 (skipn 8 message)))
           (skipn 8 (skipn 8 message)).
Proof.
  unfold switch2_receive_command.
  destruct (length <? 8); [left; reflexivity |].
  rewrite kick_state.
  repeat match goal with
         | |- context [if ?b then _ else _] => destruct b
         end; cbn [state_of fst snd]; tauto.
Qed.

Lemma put_resets ns2 ns2' :
  switch2_controller_put ns2 = Some ns2' ->
  ns2' = set_init_step (set_input ns2 false) 0.
Proof.
  unfold switch2_controller_put. cbv zeta.
  destruct (hdev (set_init_step (set_input ns2 false) 0)
            || cfg (set_init_step (set_input ns2 false) 0));
    [| discriminate].
  intros H. injection H as H. subst ns2'. reflexivity.
Qed.

(** A force-feedback request and a run of the rumble work change the
    rumble state only. *)
Lemma play_effect_rumble_only ns2 effect :
  exists seq r last work,
    snd (switch2_play_effect ns2 effect)
    = set_rumble_state ns2 seq r last work.
Proof.
  unfold switch2_play_effect.
  destruct (effect_type effect =? FF_RUMBLE); cbn [negb snd].
  - do 4 eexists. reflexivity.
  - exists (rumble_seq ns2), (rumble ns2), (last_rumble_work ns2),
      (rumble_work ns2). destruct ns2. reflexivity.
Qed.

Lemma rumble_work_rumble_only interval buffer_ok current_ms ns2 :
  exists seq r last work,
    fst (run_rumble_work interval buffer_ok current_ms ns2)
    = set_rumble_state ns2 seq r last work.
Proof.
  assert (Same : exists seq r last work,
             ns2 = set_rumble_state ns2 seq r last work).
  { exists (rumble_seq ns2), (rumble ns2), (last_rumble_work ns2),
      (rumble_work ns2). destruct ns2. reflexivity. }
  unfold run_rumble_work.
  destruct (rumble_work ns2); [| exact Same].
  unfold switch2_rumble_work.
  destruct buffer_ok; cbn [negb fst]; [| do 4 eexists; reflexivity].
  repeat match goal with
         | |- context [if ?b then _ else _] => destruct b
         end; cbn [fst]; do 4 eexists; reflexivity.
Qed.

(** X16: in every state that the probes, the two halves of a removal,
    received frames, force-feedback requests and runs of the rumble work
    can produce, [init_step] lies between 0 and NS2_INIT_DONE and an input
    device is registered only at NS2_INIT_DONE.  A call of
    [switch2_init_controller] registers the input device only when it
    finds both paths bound, and [switch2_controller_put] leaves
    [init_step] at 0 and no input device registered, whichever handle is
    still bound. *)
Theorem reachable_lifecycle :
  (forall ns2, reachable ns2 -> lifecycle_invariant ns2)
  /\ (forall env ns2,
        input ns2 = false ->
        input (state_of (switch2_init_controller env ns2)) = true ->
        hdev ns2 = true /\ cfg ns2 = true
        /\ init_step (state_of (switch2_init_controller env ns2))
           = NS2_INIT_DONE)
  /\ (forall ns2 ns2',
        switch2_controller_put ns2 = Some ns2' ->
        init_step ns2' = 0 /\ input ns2' = false
        /\ hdev ns2' = hdev ns2 /\ cfg ns2' = cfg ns2).
Proof.
  split; [| split].
  - intros ns2 R.
    induction R as [| env ida ns2 R IH | env ns2 R IH | ns2 R IH | ns2 R IH
                    | ns2 ns2' R IH Hu E | env ns2 message length R IH D
                    | ns2 effect R IH Hi
                    | interval buffer_ok current_ms ns2 R IH].
    + unfold lifecycle_invariant, NS2_INIT_DONE.
      cbn [zero_controller init_step input]. split; [lia | discriminate].
    + unfold switch2_probe.
      match goal with
      | |- context [switch2_init_controller env ?s] => set (s1 := s)
      end.
      assert (L1 : lifecycle_invariant s1) by exact IH.
      change (cfg (set_rumble_state _ _ _ _ _)) with (cfg s1).
      destruct (cfg s1); [apply init_controller_lifecycle; exact L1 | exact L1].
    + unfold switch2_usb_probe.
      assert (L1 : lifecycle_invariant (set_cfg ns2 true)) by exact IH.
      destruct (hdev (set_cfg ns2 true));
        [apply init_controller_lifecycle; exact L1 | exact L1].
    + exact IH.
    + exact IH.
    + apply put_resets in E. subst ns2'. unfold lifecycle_invariant.
      cbn [set_input set_init_step init_step input].
      split; [unfold NS2_INIT_DONE; lia | discriminate].
    + pose proof (kicked_lifecycle env ns2 IH) as K.
      destruct (receive_command_cases env ns2 message length)
        as [-> | [-> | [-> | ->]]]; try assumption.
      destruct (handle_flash_read_lifecycle (kicked env ns2)
                  (byte_at (skipn 8 message) 0)
                  (le32 (skipn 4 (skipn 8 message)))
                  (skipn 8 (skipn 8 message))) as (_ & _ & H3 & H4).
      unfold lifecycle_invariant. rewrite H3, H4. exact K.
    + destruct (play_effect_rumble_only ns2 effect) as (a & b & c & d & ->).
      exact IH.
    + destruct (rumble_work_rumble_only interval buffer_ok current_ms ns2)
        as (a & b & c & d & ->).
      exact IH.
  - intros env ns2. apply init_controller_registers.
  - intros ns2 ns2' E. apply put_resets in E. subst ns2'.
    repeat split.
Qed.

Lemma reachable_lifecycle_witness :
  lifecycle_invariant lone_neutral_session
  /\ (input last_step_session = false
      /\ input (state_of (switch2_init_controller env_ok last_step_session))
         = true
      /\ hdev last_step_session = true /\ cfg last_step_session = true)
  /\ (switch2_controller_put (unbind_hdev done_session)
      = Some (set_init_step (set_input (unbind_hdev done_session) false) 0)
      /\ init_step (set_init_step (set_input (unbind_hdev done_session) false)
                      0) = 0).
Proof.
  destruct reachable_lifecycle as (A & B & C).
  split; [apply (A lone_neutral_session lone_neutral_reachable) |]. split.
  - assert (Hi : input last_step_session = false) by reflexivity.
    assert (Hs : input (state_of (switch2_init_controller env_ok
                                    last_step_session)) = true)
      by reflexivity.
    destruct (B env_ok last_step_session Hi Hs) as (Hh & Hc & _).
    repeat (split; [assumption |]). exact Hc.
  - assert (E : switch2_controller_put (unbind_hdev done_session)
                = Some (set_init_step
                          (set_input (unbind_hdev done_session) false) 0))
      by reflexivity.
    split; [exact E | apply (proj1 (C _ _ E))].
Defined.

Lemma put_data ns2 ns2' :
  data_invariant ns2 -> switch2_controller_put ns2 = Some ns2' ->
  data_invariant ns2'.
Proof.
  intros Hd. unfold switch2_controller_put. cbv zeta.
  destruct (hdev (set_init_step (set_input ns2 false) 0)
            || cfg (set_init_step (set_input ns2 false) 0));
    [| discriminate].
  intros H. injection H as H. subst ns2'. exact Hd.
Qed.

(** X17: in every state that the probes, the two halves of a removal,
    received frames, force-feedback requests and runs of the rumble work
    can produce, [serial] holds seventeen bytes of which the last is NUL,
    every stick calibration value is a 12-bit number, and the two trigger
    zero points are bytes other than 0xFF. *)
Theorem reachable_data :
  forall ns2, reachable ns2 -> data_invariant ns2.
Proof.
  intros ns2 R.
  induction R as [| env ida ns2 R IH | env ns2 R IH | ns2 R IH | ns2 R IH
                  | ns2 ns2' R IH Hu E | env ns2 message length R IH D
                  | ns2 effect R IH Hi
                  | interval buffer_ok current_ms ns2 R IH].
  - unfold data_invariant, stick_12bit, axis_12bit, is_12bit, is_byte.
    cbn [zero_controller serial stick_calib lt_zero rt_zero fst snd
         zero_stick zero_axis x y neutral negative positive List.length].
    split; [reflexivity |].
    split; [repeat (apply Forall_cons; [lia |]); apply Forall_nil |].
    split; [reflexivity |]. lia.
  - unfold switch2_probe.
    match goal with
    | |- context [switch2_init_controller env ?s] => set (s1 := s)
    end.
    assert (L1 : data_invariant s1) by exact IH.
    change (cfg (set_rumble_state _ _ _ _ _)) with (cfg s1).
    destruct (cfg s1); [apply init_controller_data; exact L1 | exact L1].
  - unfold switch2_usb_probe.
    assert (L1 : data_invariant (set_cfg ns2 true)) by exact IH.
    destruct (hdev (set_cfg ns2 true));
      [apply init_controller_data; exact L1 | exact L1].
  - exact IH.
  - exact IH.
  - apply put_data in E; [exact E | exact IH].
  - pose proof (kicked_data env ns2 IH) as K.
    destruct D as (_ & Hb & _).
    destruct (receive_command_cases env ns2 message length)
      as [-> | [-> | [-> | ->]]]; try assumption.
    apply handle_flash_read_data; [| exact K].
    apply forall_skipn, forall_skipn, Hb.
  - destruct (play_effect_rumble_only ns2 effect) as (a & b & c & d & ->).
    exact IH.
  - destruct (rumble_work_rumble_only interval buffer_ok current_ms ns2)
      as (a & b & c & d & ->).
    exact IH.
Qed.

Lemma reachable_data_witness : data_invariant trigger_232_session.
Proof.
  apply (reachable_data trigger_232_session (proj1 trigger_232_reachable)).
Defined.

(** ** Registering the input device *)

Lemma receive_command_lifecycle env ns2 message length :
  init_step ns2 = NS2_INIT_DONE ->
  let s := state_of (switch2_receive_command env ns2 message length) in
  init_step s = NS2_INIT_DONE /\ input s = input ns2.
Proof.
  intros Hd. cbv zeta.
  assert (K : kicked env ns2 = ns2) by (unfold kicked; rewrite Hd; reflexivity).
  destruct (receive_command_cases env ns2 message length)
    as [-> | [-> | [-> | ->]]]; rewrite ?K; try tauto.
  destruct (handle_flash_read_lifecycle ns2
              (byte_at (skipn 8 message) 0)
              (le32 (skipn 4 (skipn 8 message)))
              (skipn 8 (skipn 8 message))) as (_ & _ & H3 & H4).
  rewrite H3, H4. tauto.
Qed.

(** X18: the call of [switch2_init_controller] that takes a session with
    both paths bound from NS2_INIT_INPUT to NS2_INIT_DONE is the only one
    that sets up the input device.  It sends nothing; [input] is set
    exactly when the device could be allocated, the controller type is one
    of the four known ones and the force-feedback setup succeeded, and then
    the result is that of [input_register_device], with [input] set also
    when the registration failed; when [input] is left unset the result is
    an error.  Whatever the outcome, later calls return
    0 without doing anything and received frames leave [input] as it
    is. *)
Theorem input_setup_is_tried_once :
  forall env ns2,
    cfg ns2 = true -> hdev ns2 = true -> input ns2 = false ->
    init_step ns2 = NS2_INIT_INPUT ->
    let o := switch2_init_controller env ns2 in
    init_step (state_of o) = NS2_INIT_DONE
    /\ sent_of o = []
    /\ (input (state_of o) = true <->
        input_allocate_device env = true
        /\ known_ctlr_type (ctlr_type ns2) = true
        /\ input_ff_create_memless env = 0)
    /\ (input (state_of o) = true -> ret_of o = input_register_device env)
    /\ (input (state_of o) = false -> ret_of o <> 0)
    /\ (forall env',
          switch2_init_controller env' (state_of o) = (0, state_of o, []))
    /\ (forall env' message length,
          input (state_of (switch2_receive_command env' (state_of o)
                             message length))
          = input (state_of o)).
Proof.
  intros env ns2 Hc Hh Hi Hs o.
  assert (E : o = switch2_init_input env (set_init_step ns2 NS2_INIT_DONE)).
  { unfold o, switch2_init_controller. rewrite Hs, Hc.
    change (NS2_INIT_INPUT =? NS2_INIT_DONE) with false. cbn [negb].
    change (Z.to_nat (NS2_INIT_DONE - NS2_INIT_INPUT)) with 1%nat.
    cbn [init_loop]. rewrite Hs.
    change (NS2_INIT_INPUT + 1) with NS2_INIT_DONE.
    unfold init_step_action. cbn [set_init_step init_step hdev ctlr_type].
    rewrite Hh. reflexivity. }
  assert (D : init_step (state_of o) = NS2_INIT_DONE)
    by (rewrite E, init_input_step; reflexivity).
  split; [exact D |].
  split; [rewrite E; apply (proj1 (init_input_outcome env _)) |].
  split; [| split; [| split; [| split]]].
  - rewrite E. unfold switch2_init_input.
    cbn [set_init_step input ctlr_type]. rewrite Hi.
    destruct (input_allocate_device env); cbn [negb state_of fst snd set_init_step set_input input];
      [| rewrite Hi; split; [discriminate | intros (N & _); discriminate]].
    destruct (known_ctlr_type (ctlr_type ns2)); cbn [negb state_of fst snd set_init_step set_input input];
      [| rewrite Hi; split; [discriminate | intros (_ & N & _); discriminate]].
    destruct (input_ff_create_memless env =? 0) eqn:Ef;
      cbn [negb state_of fst snd set_init_step set_input input].
    + apply Z.eqb_eq in Ef. tauto.
    + apply Z.eqb_neq in Ef. rewrite Hi.
      split; [discriminate | intros (_ & _ & N); contradiction].
  - rewrite E. unfold switch2_init_input.
    cbn [set_init_step input ctlr_type]. rewrite Hi.
    repeat match goal with
           | |- context [if ?b then _ else _] => destruct b
           end; cbn [state_of ret_of fst snd set_input set_init_step input];
      rewrite ?Hi; try discriminate; reflexivity.
  - rewrite E. unfold switch2_init_input.
    cbn [set_init_step input ctlr_type]. rewrite Hi.
    destruct (input_allocate_device env); cbn [negb state_of ret_of fst snd set_init_step set_input input];
      [| discriminate].
    destruct (known_ctlr_type (ctlr_type ns2));
      cbn [negb state_of ret_of fst snd set_init_step set_input input]; [| discriminate].
    destruct (input_ff_create_memless env =? 0) eqn:Ef;
      cbn [negb state_of ret_of fst snd set_init_step set_input input];
      [discriminate | intros _; apply Z.eqb_neq; exact Ef].
  - intros env'. apply init_controller_done. exact D.
  - intros env' message length.
    apply (receive_command_lifecycle env' (state_of o) message length D).
Qed.

Lemma input_setup_is_tried_once_witness :
  ret_of (switch2_init_controller env_failing last_step_session) = - ENOMEM
  /\ input (state_of (switch2_init_controller env_failing last_step_session))
     = true
  /\ switch2_init_controller env_ok
       (state_of (switch2_init_controller env_failing last_step_session))
     = (0, state_of (switch2_init_controller env_failing last_step_session),
        []).
Proof.
  destruct (input_setup_is_tried_once env_failing last_step_session
              eq_refl eq_refl eq_refl eq_refl) as (_ & _ & _ & _ & _ & P & _).
  split; [reflexivity |]. split; [reflexivity | apply P].
Defined.

(** ** The output URBs of the USB transport *)

Lemma map_byte_at_seq m n :
  (n <= List.length m)%nat -> map (byte_at m) (seq 0 n) = firstn n m.
Proof.
  revert n. induction m as [| b m IH]; intros n Hn.
  - cbn in Hn. assert (n = 0%nat) by lia. subst n. reflexivity.
  - destruct n as [| n]; [reflexivity |].
    cbn [seq map firstn]. f_equal. rewrite <- seq_shift, map_map.
    cbn in Hn. rewrite <- (IH n) by lia. reflexivity.
Qed.

Lemma forallb_filter (f : Usb.switch2_urb -> bool) l :
  forallb f l = true -> filter f l = l.
Proof.
  induction l as [| a l IH]; [reflexivity |].
  cbn [forallb filter]. intros H. apply andb_true_iff in H as [Ha Hl].
  rewrite Ha, (IH Hl). reflexivity.
Qed.

Lemma in_flight_middle pre u post :
  Usb.in_flight (pre ++ u :: post)
  = (Usb.in_flight pre + (if Usb.active u then 1 else 0)
     + Usb.in_flight post)%nat.
Proof.
  unfold Usb.in_flight. rewrite filter_app, length_app. cbn [filter].
  destruct (Usb.active u); cbn [List.length]; lia.
Qed.

Lemma in_flight_le q : (Usb.in_flight q <= List.length q)%nat.
Proof. unfold Usb.in_flight. apply filter_length_le. Qed.

Lemma in_flight_full q :
  forallb Usb.active q = true -> Usb.in_flight q = List.length q.
Proof. intros H. unfold Usb.in_flight. rewrite forallb_filter; auto. Qed.

(** Either every URB is active, or there is a first one that is not. *)
Lemma out_urbs_split q :
  forallb Usb.active q = true
  \/ exists pre u post,
       q = pre ++ u :: post /\ forallb Usb.active pre = true
       /\ Usb.active u = false.
Proof.
  induction q as [| a q IH]; [left; reflexivity |].
  destruct (Usb.active a) eqn:Ea.
  - destruct IH as [H | (pre & u & post & -> & Hp & Hu)].
    + left. cbn [forallb]. rewrite Ea, H. reflexivity.
    + right. exists (a :: pre), u, post. cbn [forallb app].
      rewrite Ea, Hp. auto.
  - right. exists [], a, q. auto.
Qed.

Lemma first_inactive_full q k :
  forallb Usb.active q = true -> Usb.first_inactive q k = None.
Proof.
  revert k. induction q as [| a q IH]; intros k H; [reflexivity |].
  cbn [forallb] in H. apply andb_true_iff in H as [Ha Hq].
  cbn [Usb.first_inactive]. rewrite Ha. apply IH, Hq.
Qed.

Lemma first_inactive_middle pre u post k :
  forallb Usb.active pre = true -> Usb.active u = false ->
  Usb.first_inactive (pre ++ u :: post) k = Some (k + List.length pre)%nat.
Proof.
  revert k. induction pre as [| a pre IH]; intros k Hp Hu.
  - cbn [app Usb.first_inactive List.length]. rewrite Hu. f_equal. lia.
  - cbn [forallb] in Hp. apply andb_true_iff in Hp as [Ha Hp].
    cbn [app Usb.first_inactive List.length]. rewrite Ha, (IH (S k) Hp Hu).
    f_equal. lia.
Qed.

Lemma set_urb_middle pre u post v :
  Usb.set_urb (pre ++ u :: post) (List.length pre) v = pre ++ v :: post.
Proof.
  induction pre as [| a pre IH]; [reflexivity |].
  cbn [app List.length Usb.set_urb]. rewrite IH. reflexivity.
Qed.

(** The buffer of the URB once the header and the message are copied in. *)
Lemma out_buffer_filled old command subcommand m size :
  List.length old = 64%nat -> 0 <= size <= 56 ->
  (Z.to_nat size <= List.length m)%nat ->
  let header := Usb.switch2_cmd_header command subcommand size in
  let buffer := memcpy old header 8 in
  (if negb (size =? 0)
   then firstn 8 buffer ++ memcpy (skipn 8 buffer) m (Z.to_nat size)
   else buffer)
  = header ++ firstn (Z.to_nat size) m
    ++ skipn (8 + Z.to_nat size) old.
Proof.
  intros Hl Hs Hm header buffer.
  assert (Eb : buffer = header ++ skipn 8 old) by reflexivity.
  destruct (Z.eqb_spec size 0) as [-> | Hne]; cbn [negb].
  - rewrite Eb. reflexivity.
  - rewrite Eb. unfold memcpy at 1.
    change (firstn 8 (header ++ skipn 8 old)) with header.
    change (skipn 8 (header ++ skipn 8 old)) with (skipn 8 old).
    rewrite map_byte_at_seq by exact Hm. rewrite skipn_skipn.
    rewrite (Nat.add_comm (Z.to_nat size) 8). reflexivity.
Qed.

Lemma out_transfer (header m old : list Z) (n : nat) :
  List.length header = 8%nat -> (n <= List.length m)%nat ->
  firstn (8 + n) (header ++ firstn n m ++ old) = header ++ firstn n m.
Proof.
  intros Hh Hm. rewrite app_assoc.
  rewrite firstn_app. rewrite length_app, length_firstn, Hh.
  replace (8 + n - (8 + Nat.min n (List.length m)))%nat with 0%nat by lia.
  cbn [firstn]. rewrite app_nil_r. apply firstn_all2.
  rewrite length_app, length_firstn, Hh. lia.
Qed.

Section OutQueue.

Variable usb_submit_urb : Z.
Variables command subcommand : Z.
Variable message : option (list Z).
Variable size : Z.

Lemma usb_send_cmd_too_long q :
  56 < size ->
  Usb.switch2_usb_send_cmd usb_submit_urb q command subcommand message size
  = (- EINVAL, q, None).
Proof.
  intros H. unfold Usb.switch2_usb_send_cmd.
  destruct (Z.gtb_spec size 56); [reflexivity | lia].
Qed.

Lemma usb_send_cmd_full q :
  size <= 56 -> List.length q = Usb.NS2_OUT_URBS ->
  forallb Usb.active q = true ->
  Usb.switch2_usb_send_cmd usb_submit_urb q command subcommand message size
  = (- Usb.ENOBUFS, q, None).
Proof.
  intros H Hl Hf. unfold Usb.switch2_usb_send_cmd.
  destruct (Z.gtb_spec size 56); [lia |].
  rewrite firstn_all2 by lia. rewrite first_inactive_full by exact Hf.
  reflexivity.
Qed.

Lemma usb_send_cmd_slot pre u post :
  size <= 56 -> List.length (pre ++ u :: post) = Usb.NS2_OUT_URBS ->
  forallb Usb.active pre = true -> Usb.active u = false ->
  let header := Usb.switch2_cmd_header command subcommand size in
  let buffer := memcpy (Usb.data u) header 8 in
  let buffer :=
    match message with
    | Some m =>
        if negb (size =? 0)
        then firstn 8 buffer ++ memcpy (skipn 8 buffer) m (Z.to_nat size)
        else buffer
    | None => buffer
    end in
  Usb.switch2_usb_send_cmd usb_submit_urb (pre ++ u :: post) command
    subcommand message size
  = (usb_submit_urb,
     pre ++ {| Usb.data := buffer; Usb.active := usb_submit_urb =? 0;
               Usb.transfer_buffer_length := size + 8 |} :: post,
     Some (firstn (Z.to_nat (size + 8)) buffer)).
Proof.
  intros H Hl Hp Hu header buffer0 buffer.
  unfold Usb.switch2_usb_send_cmd.
  destruct (Z.gtb_spec size 56); [lia |].
  rewrite firstn_all2 by lia.
  rewrite (first_inactive_middle pre u post 0 Hp Hu). cbn [Nat.add].
  rewrite nth_middle, !set_urb_middle. fold header. fold buffer0. fold buffer.
  destruct (Z.eqb_spec usb_submit_urb 0) as [-> | Hne]; reflexivity.
Qed.

End OutQueue.

Lemma memcpy_length dst src n :
  (n <= List.length dst)%nat ->
  List.length (memcpy dst src n) = List.length dst.
Proof.
  intros H. unfold memcpy.
  rewrite length_app, length_map, length_seq, length_skipn. lia.
Qed.

Lemma out_buffer_length old header message size :
  List.length old = 64%nat -> size <= 56 ->
  let buffer := memcpy old header 8 in
  List.length
    match message with
    | Some m =>
        if negb (size =? 0)
        then firstn 8 buffer ++ memcpy (skipn 8 buffer) m (Z.to_nat size)
        else buffer
    | None => buffer
    end = 64%nat.
Proof.
  intros Hl Hs buffer.
  assert (Hb : List.length buffer = 64%nat)
    by (unfold buffer; rewrite memcpy_length; lia).
  destruct message as [m |]; [| exact Hb].
  destruct (negb (size =? 0)); [| exact Hb].
  rewrite length_app, length_firstn, memcpy_length;
    rewrite ?length_skipn, ?Hb; lia.
Qed.

Lemma nth_error_middle (pre : list Usb.switch2_urb) u post :
  nth_error (pre ++ u :: post) (List.length pre) = Some u.
Proof.
  induction pre as [| a pre IH]; [reflexivity | exact IH].
Qed.

Lemma bulk_out_middle status pre u post :
  List.length (pre ++ u :: post) = Usb.NS2_OUT_URBS ->
  Usb.switch2_bulk_out status (List.length pre) (pre ++ u :: post)
  = if status =? 0 then pre ++ Usb.set_active u false :: post
    else pre ++ u :: post.
Proof.
  intros Hl. unfold Usb.switch2_bulk_out.
  destruct (status =? 0); [| reflexivity].
  rewrite firstn_all2 by lia. rewrite nth_error_middle, set_urb_middle.
  reflexivity.
Qed.

(** The header as bytes, for ids and a size that fit a byte. *)
Lemma cmd_header_bytes command subcommand size :
  is_byte command -> is_byte subcommand -> 0 <= size <= 56 ->
  Usb.switch2_cmd_header command subcommand size
  = [command; 0x91; 0x00; subcommand; 0x00; size; 0x00; 0x00].
Proof.
  intros Hc Hsc Hs. unfold Usb.switch2_cmd_header.
  rewrite (u8_small command), (u8_small subcommand), (u8_small size)
    by (unfold is_byte in *; lia).
  reflexivity.
Qed.

(** A free URB is found whenever fewer than four are in flight. *)
Lemma free_urb q :
  Usb.out_urbs q -> (Usb.in_flight q < 4)%nat ->
  exists pre u post,
    q = pre ++ u :: post /\ forallb Usb.active pre = true
    /\ Usb.active u = false /\ List.length (Usb.data u) = 64%nat.
Proof.
  intros [Hl Hd] Hf.
  destruct (out_urbs_split q) as [Hfull | (pre & u & post & -> & Hp & Hu)];
    [rewrite (in_flight_full q Hfull), Hl in Hf; unfold Usb.NS2_OUT_URBS in Hf;
     lia |].
  exists pre, u, post. repeat (split; [assumption || reflexivity |]).
  rewrite Forall_forall in Hd. apply Hd, in_elt.
Qed.

(** The transfer built in a free URB from a message. *)
Lemma usb_send_cmd_free submit q command subcommand m size :
  Usb.out_urbs q -> (Usb.in_flight q < 4)%nat -> 0 <= size <= 56 ->
  (Z.to_nat size <= List.length m)%nat ->
  let r := Usb.switch2_usb_send_cmd submit q command subcommand (Some m)
             size in
  fst (fst r) = submit
  /\ snd r = Some (Usb.switch2_cmd_header command subcommand size
                   ++ firstn (Z.to_nat size) m).
Proof.
  intros Hq Hf Hs Hm.
  destruct (free_urb q Hq Hf) as (pre & u & post & -> & Hp & Hu & Hu64).
  destruct Hq as [Hl _].
  rewrite (usb_send_cmd_slot submit command subcommand (Some m) size pre u post)
    by (try assumption; lia).
  cbv zeta. cbn [fst snd]. split; [reflexivity |]. f_equal.
  replace (Z.to_nat (size + 8)) with (8 + Z.to_nat size)%nat by lia.
  rewrite (out_buffer_filled (Usb.data u) command subcommand m size Hu64 Hs Hm).
  apply out_transfer; [reflexivity | exact Hm].
Qed.

(** X19: with a free output URB, [switch2_usb_send_cmd] hands
    [usb_submit_urb] a transfer of [size + 8] bytes: the header, whose
    bytes 0, 3 and 5 are the command, the subcommand and the size and
    whose byte 1 is 0x91, followed by the first [size] bytes of the
    message and nothing of what the buffer held before; a null message of
    size 0 gives the header alone.  The function returns what
    [usb_submit_urb] returned. *)
Theorem usb_send_cmd_frame :
  forall usb_submit_urb bulk_out command subcommand message size,
    Usb.out_urbs bulk_out -> (Usb.in_flight bulk_out < 4)%nat ->
    is_byte command -> is_byte subcommand -> 0 <= size <= 56 ->
    match message with
    | Some m => (Z.to_nat size <= List.length m)%nat
    | None => size = 0
    end ->
    let r := Usb.switch2_usb_send_cmd usb_submit_urb bulk_out command
               subcommand message size in
    fst (fst r) = usb_submit_urb
    /\ snd r
       = Some ([command; 0x91; 0x00; subcommand; 0x00; size; 0x00; 0x00]
               ++ match message with
                  | Some m => firstn (Z.to_nat size) m
                  | None => []
                  end).
Proof.
  intros submit q command subcommand message size Hq Hf Hc Hsc Hs Hm.
  pose proof (cmd_header_bytes command subcommand size Hc Hsc Hs) as Hh.
  destruct message as [m |].
  - rewrite <- Hh.
    apply (usb_send_cmd_free submit q command subcommand m size Hq Hf Hs Hm).
  - subst size.
    destruct (free_urb q Hq Hf) as (pre & u & post & -> & Hp & Hu & Hu64).
    destruct Hq as [Hl _].
    rewrite (usb_send_cmd_slot submit command subcommand None 0 pre u post)
      by (try assumption; lia).
    cbv zeta. cbn [fst snd]. split; [reflexivity |]. f_equal.
    rewrite Hh, app_nil_r. reflexivity.
Qed.

Lemma usb_send_cmd_frame_witness :
  snd (Usb.switch2_usb_send_cmd 0 busy_out NS2_CMD_FLASH
         NS2_SUBCMD_FLASH_READ
         (Some [0x10; 0x7e; 0; 0; 0x02; 0x30; 0x01; 0x00]) 8)
  = Some ([NS2_CMD_FLASH; 0x91; 0x00; NS2_SUBCMD_FLASH_READ; 0x00; 8;
           0x00; 0x00]
          ++ [0x10; 0x7e; 0; 0; 0x02; 0x30; 0x01; 0x00]).
Proof.
  apply (proj2 (usb_send_cmd_frame 0 busy_out NS2_CMD_FLASH
                  NS2_SUBCMD_FLASH_READ
                  (Some [0x10; 0x7e; 0; 0; 0x02; 0x30; 0x01; 0x00]) 8
                  ltac:(split; [reflexivity |];
                        repeat (apply Forall_cons; [reflexivity |]);
                        apply Forall_nil)
                  ltac:(cbn; lia)
                  ltac:(apply is_byte_decide; reflexivity)
                  ltac:(apply is_byte_decide; reflexivity)
                  ltac:(lia) ltac:(cbn; lia))).
Defined.

(** X20: [switch2_usb_send_cmd] keeps the four output URBs and their
    64-byte buffers.  It returns 0 exactly when the size is at most 56, a
    URB is free and the submission succeeded; then one more URB is in
    flight, and the completion of that URB releases it when its status is
    0 and leaves it marked active otherwise.  After every other return the
    [active] flags are as before.  With a size of at most 56 and all four
    URBs in flight the result is -ENOBUFS. *)
Theorem usb_out_queue :
  forall usb_submit_urb bulk_out command subcommand message size,
    Usb.out_urbs bulk_out ->
    let r := Usb.switch2_usb_send_cmd usb_submit_urb bulk_out command
               subcommand message size in
    let ret := fst (fst r) in
    let bulk_out' := snd (fst r) in
    Usb.out_urbs bulk_out'
    /\ (ret = 0 <->
        size <= 56 /\ (Usb.in_flight bulk_out < 4)%nat /\ usb_submit_urb = 0)
    /\ (ret = 0 ->
        Usb.in_flight bulk_out' = S (Usb.in_flight bulk_out)
        /\ exists i,
             (i < 4)%nat
             /\ forall status,
                  map Usb.active (Usb.switch2_bulk_out status i bulk_out')
                  = if status =? 0 then map Usb.active bulk_out
                    else map Usb.active bulk_out')
    /\ (ret <> 0 -> map Usb.active bulk_out' = map Usb.active bulk_out)
    /\ (size <= 56 -> Usb.in_flight bulk_out = 4%nat -> ret = - Usb.ENOBUFS).
Proof.
  intros submit q command subcommand message size Hq r ret q'.
  destruct (Z.lt_ge_cases 56 size) as [Hlong | Hfit].
  { subst ret q' r. rewrite usb_send_cmd_too_long by exact Hlong.
    cbn [fst snd]. split; [exact Hq |].
    split; [split; [discriminate | lia] |].
    split; [discriminate |]. split; [reflexivity | lia]. }
  destruct Hq as [Hl Hd].
  destruct (out_urbs_split q) as [Hfull | (pre & u & post & -> & Hp & Hu)].
  { subst ret q' r. rewrite usb_send_cmd_full by assumption.
    pose proof (in_flight_full q Hfull) as Hn. rewrite Hl in Hn.
    unfold Usb.NS2_OUT_URBS in Hn.
    cbn [fst snd]. split; [split; assumption |].
    split; [split; [discriminate | lia] |].
    split; [discriminate |]. split; reflexivity. }
  assert (Hlen : (List.length pre + List.length post = 3)%nat)
    by (rewrite length_app in Hl; cbn [List.length] in Hl;
        unfold Usb.NS2_OUT_URBS in Hl; lia).
  assert (Hn : (Usb.in_flight (pre ++ u :: post) < 4)%nat).
  { rewrite in_flight_middle, Hu.
    pose proof (in_flight_le pre). pose proof (in_flight_le post). lia. }
  assert (Hu64 : List.length (Usb.data u) = 64%nat).
  { rewrite Forall_forall in Hd. apply Hd, in_elt. }
  subst ret q' r.
  rewrite (usb_send_cmd_slot submit command subcommand message size pre u post)
    by assumption.
  cbv zeta. cbn [fst snd].
  match goal with
  | |- context [{| Usb.data := ?b; Usb.active := _;
                   Usb.transfer_buffer_length := _ |}] => set (buffer := b)
  end.
  assert (Hb : List.length buffer = 64%nat)
    by (apply out_buffer_length; assumption).
  split; [| split; [| split; [| split]]].
  - split.
    + rewrite length_app in *. exact Hl.
    + apply Forall_app in Hd as [Hd1 Hd2]. apply Forall_app. split; [exact Hd1 |].
      inversion Hd2; subst. apply Forall_cons; assumption.
  - tauto.
  - intros ->. change (0 =? 0) with true. split.
    + rewrite !in_flight_middle, Hu. cbn [Usb.active]. lia.
    + exists (List.length pre). split; [lia |]. intros status.
      rewrite bulk_out_middle
        by (rewrite length_app in *; exact Hl).
      destruct (status =? 0); [| reflexivity].
      rewrite !map_app. cbn [map Usb.set_active Usb.active]. rewrite Hu.
      reflexivity.
  - intros Hne. apply Z.eqb_neq in Hne. rewrite Hne.
    rewrite !map_app. cbn [map Usb.active]. rewrite Hu. reflexivity.
  - intros _ H4. lia.
Qed.

Lemma usb_out_queue_witness :
  fst (fst (Usb.switch2_usb_send_cmd 0 busy_out NS2_CMD_FW_INFO
              NS2_SUBCMD_FW_INFO_GET None 0)) = 0
  /\ Usb.in_flight
       (snd (fst (Usb.switch2_usb_send_cmd 0 busy_out NS2_CMD_FW_INFO
                    NS2_SUBCMD_FW_INFO_GET None 0)))
     = 3%nat.
Proof.
  assert (H : Usb.out_urbs busy_out).
  { split; [reflexivity |].
    repeat (apply Forall_cons; [reflexivity |]). apply Forall_nil. }
  destruct (usb_out_queue 0 busy_out NS2_CMD_FW_INFO NS2_SUBCMD_FW_INFO_GET
              None 0 H) as (_ & _ & P & _).
  split; [reflexivity | apply (proj1 (P eq_refl))].
Defined.


(** ** The initialization over the USB transport *)

Ltac answered_command :=
  right; eexists; split; [reflexivity |]; split; [reflexivity |];
  split; apply is_byte_decide; reflexivity.

Lemma init_step_action_answered env ns2 o :
  init_step_action env ns2 = Return o -> answered env o.
Proof.
  unfold init_step_action, switch2_read_flash, switch2_features_enable,
    switch2_set_player_id, send.
  intros H.
  repeat match type of H with
         | context [if negb ?b then _ else _] =>
             let E := fresh "E" in destruct b eqn:E; cbn [negb] in H
         | context [if ?b then _ else _] =>
             let E := fresh "E" in destruct b eqn:E
         end;
    try discriminate; injection H as <-; unfold answered, sent_of, ret_of;
    cbn [fst snd cmd subcmd payload];
    try (left; reflexivity);
    try answered_command.
  all: left; apply (proj1 (init_input_outcome env ns2)).
Qed.

Lemma init_loop_answered env n :
  forall ns2, answered env (init_loop env n ns2).
Proof.
  induction n as [| n IH]; intros ns2; cbn [init_loop].
  - left. reflexivity.
  - set (s1 := set_init_step ns2 (init_step ns2 + 1)).
    destruct (init_step_action env s1) as [o | s2] eqn:Ea.
    + apply (init_step_action_answered env s1 o Ea).
    + apply IH.
Qed.

Lemma init_controller_answered env ns2 :
  answered env (switch2_init_controller env ns2).
Proof.
  unfold switch2_init_controller.
  destruct (init_step ns2 =? NS2_INIT_DONE); [left; reflexivity |].
  destruct (cfg ns2); cbn [negb];
    [apply init_loop_answered | left; reflexivity].
Qed.

(** X21: when the command path runs on the USB transport, every command
    that [switch2_init_controller] sends passes the size check of
    [switch2_usb_send_cmd]: the call returns -ENOBUFS when all four output
    URBs are in flight and the result of [usb_submit_urb] otherwise, and in
    that case the transfer is the eight-byte header with the command, 0x91,
    the subcommand and the length of the message, followed by the whole
    message. *)
Theorem init_over_usb :
  forall usb_submit_urb bulk_out env ns2 c,
    Usb.out_urbs bulk_out ->
    let usb := usb_environment usb_submit_urb bulk_out env in
    In c (sent_of (switch2_init_controller usb ns2)) ->
    let r := Usb.switch2_usb_send_cmd usb_submit_urb bulk_out (cmd c)
               (subcmd c) (Some (payload c))
               (Z.of_nat (List.length (payload c))) in
    ret_of (switch2_init_controller usb ns2)
    = (if (Usb.in_flight bulk_out <? 4)%nat then usb_submit_urb
       else - Usb.ENOBUFS)
    /\ ((Usb.in_flight bulk_out < 4)%nat ->
        snd r
        = Some ([cmd c; 0x91; 0x00; subcmd c; 0x00;
                 Z.of_nat (List.length (payload c)); 0x00; 0x00]
                ++ payload c)).
Proof.
  intros submit q env ns2 c Hq usb Hin r.
  pose proof (init_controller_sends usb ns2) as [Hs | (c1 & Hs & Hp & _)];
    [rewrite Hs in Hin; contradiction |].
  pose proof (init_controller_answered usb ns2)
    as [Ha | (c2 & Ha & Hr & Hc & Hsc)];
    [rewrite Ha in Hs; discriminate |].
  rewrite Hs in Hin, Ha. injection Ha as <-.
  destruct Hin as [<- | []].
  assert (Hsize : 0 <= Z.of_nat (List.length (payload c1)) <= 56) by lia.
  assert (Hm : (Z.to_nat (Z.of_nat (List.length (payload c1)))
                <= List.length (payload c1))%nat) by lia.
  rewrite Hr. cbn [usb send_command usb_environment]. unfold Usb.send_command.
  fold r. split.
  - destruct (Nat.ltb_spec (Usb.in_flight q) 4) as [Hf | Hf].
    + apply (usb_send_cmd_free submit q (cmd c1) (subcmd c1)
               (payload c1) _ Hq Hf Hsize Hm).
    + destruct Hq as [Hl Hd].
      destruct (out_urbs_split q) as [Hfull | (pre & u & post & E & Hp' & Hu)].
      * unfold r. rewrite usb_send_cmd_full by (try assumption; lia).
        reflexivity.
      * subst q. rewrite in_flight_middle, Hu in Hf.
        rewrite length_app in Hl. cbn [List.length] in Hl.
        unfold Usb.NS2_OUT_URBS in Hl.
        pose proof (in_flight_le pre). pose proof (in_flight_le post). lia.
  - intros Hf.
    destruct (usb_send_cmd_free submit q (cmd c1) (subcmd c1)
                (payload c1) _ Hq Hf Hsize Hm)
      as [_ T].
    fold r in T. rewrite T.
    rewrite (cmd_header_bytes _ _ _ Hc Hsc Hsize), Nat2Z.id, firstn_all.
    reflexivity.
Qed.

Lemma init_over_usb_witness :
  exists c,
    In c (sent_of (switch2_init_controller
                     (usb_environment 0 busy_out env_ok) attached_session))
    /\ ret_of (switch2_init_controller
                 (usb_environment 0 busy_out env_ok) attached_session) = 0
    /\ snd (Usb.switch2_usb_send_cmd 0 busy_out (cmd c) (subcmd c)
              (Some (payload c)) (Z.of_nat (List.length (payload c))))
       = Some [NS2_CMD_FLASH; 0x91; 0x00; NS2_SUBCMD_FLASH_READ; 0x00; 8;
               0x00; 0x00; 0x10; 0x7e; 0x00; 0x00; 0x02; 0x30; 0x01; 0x00].
Proof.
  assert (H : Usb.out_urbs busy_out).
  { split; [reflexivity |].
    repeat (apply Forall_cons; [reflexivity |]). apply Forall_nil. }
  eexists. split; [left; reflexivity |].
  destruct (init_over_usb 0 busy_out env_ok attached_session _ H
              (or_introl eq_refl)) as [P1 P2].
  split; [exact P1 |]. apply P2. apply Nat.ltb_lt. reflexivity.
Defined.

(** ** The list of sessions *)

(** Two arrays compare equal when they agree up to and including the first
    NUL of the first one, within the bytes compared. *)
Lemma strncmp_zero_iff a b :
  forall count i,
    Registry.strncmp a b i count = 0
    <-> (forall j, (i <= j < i + count)%nat ->
                   (forall k, (i <= k < j)%nat -> byte_at a k <> 0) ->
                   byte_at a j = byte_at b j).
Proof.
  induction count as [| count IH]; intros i; cbn [Registry.strncmp].
  - split; [intros _ j Hj; lia | reflexivity].
  - destruct (Z.eqb_spec (byte_at a i) (byte_at b i)) as [E | N]; cbn [negb].
    + destruct (Z.eqb_spec (byte_at a i) 0) as [Z0 | NZ].
      * split; [| reflexivity]. intros _ j Hj Hk.
        destruct (Nat.eq_dec j i) as [-> |]; [exact E |].
        exfalso. apply (Hk i); [lia | exact Z0].
      * rewrite IH. split.
        -- intros H j Hj Hk.
           destruct (Nat.eq_dec j i) as [-> |]; [exact E |].
           apply H; [lia |]. intros k Hk'. apply Hk. lia.
        -- intros H j Hj Hk. apply H; [lia |]. intros k Hk'.
           destruct (Nat.eq_dec k i) as [-> |]; [exact NZ |].
           apply Hk. lia.
    + split.
      * intros H. destruct (byte_at a i <? byte_at b i); discriminate.
      * intros H. exfalso. apply N. apply H; [lia |]. intros k Hk. lia.
Qed.

Lemma strncmp_refl a n : Registry.strncmp a a 0 n = 0.
Proof. apply strncmp_zero_iff. reflexivity. Qed.

Lemma strncmp_sym a b n :
  Registry.strncmp a b 0 n = 0 -> Registry.strncmp b a 0 n = 0.
Proof.
  rewrite !strncmp_zero_iff. intros H.
  assert (Q : forall j, (j < n)%nat ->
                        (forall k, (k < j)%nat -> byte_at b k <> 0) ->
                        forall k, (k <= j)%nat -> byte_at a k = byte_at b k).
  { induction j as [| j IHj]; intros Hj Hb k Hk.
    - assert (k = 0%nat) by lia. subst k. apply H; [lia | intros; lia].
    - assert (P : forall k', (k' <= j)%nat -> byte_at a k' = byte_at b k')
        by (apply IHj; [lia | intros; apply Hb; lia]).
      destruct (Nat.eq_dec k (S j)) as [-> |]; [| apply P; lia].
      apply H; [lia |]. intros k' Hk'. rewrite P by lia. apply Hb. lia. }
  intros j Hj Hb. symmetry.
  apply (Q j); [lia | intros k Hk; apply Hb; lia | lia].
Qed.

(** Comparing with [b] or with an array that agrees with [b] up to a NUL
    of [b] gives the same. *)
Lemma strncmp_agree a b b' n n0 :
  (n0 < n)%nat -> byte_at b n0 = 0 ->
  (forall j, (j <= n0)%nat -> byte_at b' j = byte_at b j) ->
  Registry.strncmp a b' 0 n = 0 -> Registry.strncmp a b 0 n = 0.
Proof.
  rewrite !strncmp_zero_iff. intros Hn Hz Hag H j Hj Hk.
  destruct (le_gt_dec j n0) as [Hle | Hgt].
  - rewrite <- Hag by lia. apply H; assumption.
  - exfalso. apply (Hk n0); [lia |].
    rewrite (H n0) by (try lia; intros k Hk'; apply Hk; lia).
    rewrite Hag by lia. exact Hz.
Qed.

Lemma first_nul p :
  forall n, byte_at p n = 0 ->
            exists m, (m <= n)%nat /\ byte_at p m = 0
                      /\ forall k, (k < m)%nat -> byte_at p k <> 0.
Proof.
  induction n as [n IH] using lt_wf_ind. intros Hz.
  assert (D : forall m, (forall k, (k < m)%nat -> byte_at p k <> 0)
                        \/ exists k, (k < m)%nat /\ byte_at p k = 0).
  { induction m as [| m [A | (k & Hk & Hk0)]].
    - left. intros k Hk. lia.
    - destruct (Z.eq_dec (byte_at p m) 0) as [E | N].
      + right. exists m. split; [lia | exact E].
      + left. intros k Hk. destruct (Nat.eq_dec k m) as [-> |];
          [exact N | apply A; lia].
    - right. exists k. split; [lia | exact Hk0]. }
  destruct (D n) as [A | (k & Hk & Hk0)].
  - exists n. auto.
  - destruct (IH k Hk Hk0) as (m & Hm & Hm0 & Hmin).
    exists m. split; [lia | auto].
Qed.

(** [strscpy] of a string that ends within the bytes to copy: the string
    and its NUL are copied, the rest of the destination stays. *)
Lemma strscpy_agree src :
  Forall is_byte src ->
  forall count res dest n,
    (res <= n < res + count)%nat -> byte_at src n = 0 ->
    (forall k, (res <= k < n)%nat -> byte_at src k <> 0) ->
    (n < List.length dest)%nat ->
    let d := Registry.strscpy dest src res count in
    List.length d = List.length dest
    /\ (forall j, (j < res \/ n < j)%nat -> byte_at d j = byte_at dest j)
    /\ (forall j, (res <= j <= n)%nat -> byte_at d j = byte_at src j).
Proof.
  intros Hb. induction count as [| count IH]; intros res dest n Hn Hz Hmin Hl;
    [lia |].
  cbn [Registry.strscpy]. cbv zeta.
  assert (Hc : u8 (byte_at src res) = byte_at src res).
  { apply u8_small. apply (byte_at_in_range src res Hb). }
  destruct (Z.eqb_spec (byte_at src res) 0) as [E | N].
  - assert (n = res).
    { destruct (Nat.eq_dec n res) as [-> | Hne]; [reflexivity |].
      exfalso. apply (Hmin res); [lia | exact E]. }
    subst n. split; [apply length_store |]. split.
    + intros j Hj. apply byte_at_store_other. lia.
    + intros j Hj. assert (j = res) by lia. subst j.
      rewrite byte_at_store_same by exact Hl. exact Hc.
  - assert (Hres : res <> n) by (intros ->; contradiction).
    destruct (IH (S res) (store dest res (byte_at src res)) n
                ltac:(lia) Hz ltac:(intros k Hk; apply Hmin; lia)
                ltac:(rewrite length_store; exact Hl)) as (L & O & S).
    split; [rewrite L; apply length_store |]. split.
    + intros j Hj. rewrite O by lia. apply byte_at_store_other. lia.
    + intros j Hj. destruct (Nat.eq_dec j res) as [-> |]; [| apply S; lia].
      rewrite O by lia. rewrite byte_at_store_same by lia. exact Hc.
Qed.

(** The [phys] of a new session compares equal to the path it was copied
    from, and it is terminated. *)
Lemma new_phys p :
  Registry.is_path p ->
  let d := Registry.strscpy (repeat 0 64) p 0 64 in
  Registry.terminated d
  /\ Registry.strncmp d p 0 64 = 0
  /\ forall a, Registry.strncmp a d 0 64 = 0 -> Registry.strncmp a p 0 64 = 0.
Proof.
  intros [Hb (n & Hn & Hz)] d.
  destruct (first_nul p n Hz) as (m & Hm & Hm0 & Hmin).
  destruct (strscpy_agree p Hb 64 0 (repeat 0 64) m ltac:(lia) Hm0
              ltac:(intros k Hk; apply Hmin; lia)
              ltac:(rewrite repeat_length; lia)) as (_ & _ & S).
  fold d in S.
  assert (A : forall a, Registry.strncmp a d 0 64 = 0 ->
                        Registry.strncmp a p 0 64 = 0).
  { intros a. apply (strncmp_agree a p d 64 m); [lia | exact Hm0 |].
    intros j Hj. apply S. lia. }
  split; [exists m; split; [lia | rewrite S by lia; exact Hm0] |].
  split; [| exact A].
  apply strncmp_sym. apply (strncmp_agree p d p 64 m);
    [lia | rewrite S by lia; exact Hm0
     | intros j Hj; symmetry; apply S; lia | apply strncmp_refl].
Qed.

Lemma find_phys_none reg p :
  forall k,
    Registry.find_phys reg p k = None
    <-> Forall (fun ns2 => Registry.strncmp (Registry.phys ns2) p 0 64 <> 0)
          reg.
Proof.
  induction reg as [| e reg IH]; intros k; cbn [Registry.find_phys].
  - split; [intros _; apply Forall_nil | reflexivity].
  - destruct (Z.eqb_spec (Registry.strncmp (Registry.phys e) p 0 64) 0)
      as [E | N].
    + split; [discriminate |]. intros H. inversion H; subst. contradiction.
    + rewrite IH. split.
      * intros H. apply Forall_cons; assumption.
      * intros H. inversion H; subst. assumption.
Qed.

Lemma find_phys_middle a e b p k :
  Forall (fun ns2 => Registry.strncmp (Registry.phys ns2) p 0 64 <> 0) a ->
  Registry.strncmp (Registry.phys e) p 0 64 = 0 ->
  Registry.find_phys (a ++ e :: b) p k = Some (k + List.length a)%nat.
Proof.
  revert k. induction a as [| x a IH]; intros k Ha He;
    cbn [app Registry.find_phys List.length].
  - rewrite He. cbn. f_equal. lia.
  - inversion Ha; subst.
    destruct (Z.eqb_spec (Registry.strncmp (Registry.phys x) p 0 64) 0);
      [contradiction |].
    rewrite IH by assumption. f_equal. lia.
Qed.

Lemma find_phys_some reg p :
  forall k i,
    Registry.find_phys reg p k = Some i ->
    exists a e b,
      reg = a ++ e :: b /\ i = (k + List.length a)%nat
      /\ Registry.strncmp (Registry.phys e) p 0 64 = 0.
Proof.
  induction reg as [| x reg IH]; intros k i; cbn [Registry.find_phys];
    [discriminate |].
  destruct (Z.eqb_spec (Registry.strncmp (Registry.phys x) p 0 64) 0)
    as [E | N].
  - intros H. injection H as <-. exists [], x, reg. cbn. auto with arith.
  - intros H. destruct (IH _ _ H) as (a & e & b & -> & -> & He).
    exists (x :: a), e, b. cbn [app List.length]. split; [reflexivity |].
    split; [lia | exact He].
Qed.

Lemma distinct_phys_middle a e b :
  Registry.distinct_phys (a ++ e :: b) ->
  Forall (fun ns2 => Registry.strncmp (Registry.phys ns2) (Registry.phys e)
                       0 64 <> 0) a
  /\ Registry.distinct_phys (a ++ b)
  /\ forall e', Registry.phys e' = Registry.phys e ->
                Registry.distinct_phys (a ++ e' :: b).
Proof.
  induction a as [| x a IH]; cbn [app Registry.distinct_phys].
  - intros [Hf Hd]. split; [apply Forall_nil |]. split; [exact Hd |].
    intros e' ->. split; assumption.
  - intros [Hf Hd]. destruct (IH Hd) as (I1 & I2 & I3).
    apply Forall_app in Hf as [Hfa Hfe]. inversion Hfe; subst.
    split; [apply Forall_cons; assumption |].
    split; [split; [apply Forall_app; split; assumption | exact I2] |].
    intros e' He'. split; [| apply I3; exact He'].
    apply Forall_app. split; [exact Hfa |].
    apply Forall_cons; [rewrite He'; assumption | assumption].
Qed.

(** X22: [switch2_get_controller] fails only when no session has the path
    and the allocation fails, and then with -ENOMEM and the list
    unchanged.  Otherwise the session it returns has a [phys] that compares
    equal to the path; it is a new, zeroed session at the head of the list
    when none had the path, and the list is unchanged when one had.  A
    second call with the same path returns the same session and leaves the
    list alone, whether or not memory is available. *)
Theorem get_controller_finds_again :
  forall kzalloc kzalloc' switch2_controllers p,
    Registry.is_path p ->
    match Registry.switch2_get_controller kzalloc switch2_controllers p with
    | (inr e, after) =>
        e = - ENOMEM /\ after = switch2_controllers /\ kzalloc = false
        /\ Registry.find_phys switch2_controllers p 0 = None
    | (inl i, after) =>
        Registry.switch2_get_controller kzalloc' after p = (inl i, after)
        /\ exists ns2,
             nth_error after i = Some ns2
             /\ Registry.strncmp (Registry.phys ns2) p 0 64 = 0
             /\ (after = switch2_controllers
                 \/ (after = ns2 :: switch2_controllers
                     /\ Registry.controller ns2 = zero_controller
                     /\ Registry.find_phys switch2_controllers p 0 = None))
    end.
Proof.
  intros kz kz' reg p Hp. unfold Registry.switch2_get_controller at 1.
  destruct (Registry.find_phys reg p 0) as [i |] eqn:Ef.
  - split; [unfold Registry.switch2_get_controller; rewrite Ef; reflexivity |].
    destruct (find_phys_some reg p 0 i Ef) as (a & e & b & -> & -> & He).
    exists e. cbn [Nat.add]. rewrite nth_error_app2, Nat.sub_diag by lia.
    auto.
  - destruct kz; cbn [negb]; [| auto].
    destruct (new_phys p Hp) as (_ & Hn & _).
    split.
    + unfold Registry.switch2_get_controller. cbn [Registry.find_phys
        Registry.phys]. rewrite Hn. reflexivity.
    + eexists. split; [reflexivity |]. split; [exact Hn |]. right. auto.
Qed.

Lemma get_controller_finds_again_witness :
  Registry.switch2_get_controller false
    (snd (Registry.switch2_get_controller true [] sample_phys)) sample_phys
  = (inl 0%nat, snd (Registry.switch2_get_controller true [] sample_phys)).
Proof.
  assert (H : Registry.is_path sample_phys).
  { split; [unfold sample_phys; apply Forall_app; split;
            [bytes | apply Forall_forall; intros v Hv;
                     apply repeat_spec in Hv; subst; exact zero_is_byte] |].
    exists 7%nat. split; [lia | reflexivity]. }
  apply (proj1 (get_controller_finds_again true false [] sample_phys H)).
Defined.

Lemma nth_error_replaced (a b : list Registry.entry) e e' j :
  j <> List.length a ->
  nth_error (a ++ e' :: b) j = nth_error (a ++ e :: b) j.
Proof.
  intros Hj. destruct (Nat.lt_ge_cases j (List.length a)) as [Hlt | Hge].
  - rewrite !nth_error_app1 by exact Hlt. reflexivity.
  - rewrite !nth_error_app2 by exact Hge.
    destruct (j - List.length a)%nat as [| k] eqn:E; [lia | reflexivity].
Qed.

Lemma put_middle a e b :
  Registry.switch2_controller_put (a ++ e :: b) (List.length a)
  = match switch2_controller_put (Registry.controller e) with
    | Some ns2' =>
        a ++ {| Registry.phys := Registry.phys e;
                Registry.controller := ns2' |} :: b
    | None => a ++ b
    end.
Proof.
  unfold Registry.switch2_controller_put.
  rewrite nth_error_app2, Nat.sub_diag by lia. cbn [nth_error].
  rewrite firstn_app, firstn_all, Nat.sub_diag. cbn [firstn].
  rewrite app_nil_r.
  replace (skipn (S (List.length a)) (a ++ e :: b)) with b
    by (rewrite skipn_app, skipn_all2 by lia;
        replace (S (List.length a) - List.length a)%nat with 1%nat by lia;
        reflexivity).
  reflexivity.
Qed.

(** X23: a list of sessions in which every [phys] is terminated and no two
    compare equal stays so under [switch2_get_controller] with a path of
    fewer than 64 characters and under [switch2_controller_put]; in such a
    list looking up the [phys] of a session returns that session.  A put
    of a session with a handle still bound keeps it in its place, with
    [init_step] 0 and no input device, and leaves the other sessions as
    they are; a put of a session with neither handle bound takes this
    session off the list, after which its [phys] is not found any more,
    and keeps the other sessions in their order. *)
Theorem registry_stays_well_formed :
  forall switch2_controllers,
    Registry.well_formed switch2_controllers ->
    (forall kzalloc p,
       Registry.is_path p ->
       Registry.well_formed
         (snd (Registry.switch2_get_controller kzalloc switch2_controllers p)))
    /\ (forall i,
          Registry.well_formed
            (Registry.switch2_controller_put switch2_controllers i))
    /\ (forall kzalloc i ns2,
          nth_error switch2_controllers i = Some ns2 ->
          Registry.switch2_get_controller kzalloc switch2_controllers
            (Registry.phys ns2)
          = (inl i, switch2_controllers)
          /\ let after :=
               Registry.switch2_controller_put switch2_controllers i in
             if hdev (Registry.controller ns2) || cfg (Registry.controller ns2)
             then
               nth_error after i
               = Some {| Registry.phys := Registry.phys ns2;
                         Registry.controller :=
                           set_init_step
                             (set_input (Registry.controller ns2) false) 0 |}
               /\ (forall j, j <> i ->
                              nth_error after j
                              = nth_error switch2_controllers j)
             else
               after = firstn i switch2_controllers
                       ++ skipn (S i) switch2_controllers
               /\ Registry.find_phys after (Registry.phys ns2) 0 = None).
Proof.
  intros reg [Ht Hd]. split; [| split].
  - intros kz p Hp. unfold Registry.switch2_get_controller.
    destruct (Registry.find_phys reg p 0) eqn:Ef; [split; assumption |].
    destruct kz; cbn [negb snd]; [| split; assumption].
    destruct (new_phys p Hp) as (Hn1 & _ & Hn3).
    apply find_phys_none in Ef.
    split; [apply Forall_cons; assumption |].
    cbn [Registry.distinct_phys Registry.phys]. split; [| exact Hd].
    rewrite Forall_forall in *. intros e He N.
    apply (Ef e He). apply Hn3. apply strncmp_sym. exact N.
  - intros i. unfold Registry.switch2_controller_put.
    destruct (nth_error reg i) as [e |] eqn:En; [| split; assumption].
    pose proof En as En'.
    apply nth_error_split in En as (a & b & -> & <-).
    pose proof (put_middle a e b) as P.
    unfold Registry.switch2_controller_put in P. rewrite En' in P.
    rewrite P. clear P.
    destruct (distinct_phys_middle a e b Hd) as (_ & D2 & D3).
    apply Forall_app in Ht as [Ta Tb]. inversion Tb; subst.
    destruct (switch2_controller_put (Registry.controller e)).
    + split; [| apply D3; reflexivity].
      apply Forall_app. split; [exact Ta |]. apply Forall_cons; assumption.
    + split; [| exact D2]. apply Forall_app. split; assumption.
  - intros kz i e En.
    apply nth_error_split in En as (a & b & -> & <-).
    destruct (distinct_phys_middle a e b Hd) as (D1 & _ & _).
    split.
    + unfold Registry.switch2_get_controller.
      rewrite (find_phys_middle a e b (Registry.phys e) 0 D1
                 (strncmp_refl _ _)).
      reflexivity.
    + cbv zeta. rewrite put_middle.
      unfold switch2_controller_put. cbv zeta.
      cbn [set_init_step set_input hdev cfg].
      destruct (hdev (Registry.controller e) || cfg (Registry.controller e)).
      * split.
        -- rewrite nth_error_app2, Nat.sub_diag by lia. reflexivity.
        -- intros j Hj. apply nth_error_replaced. exact Hj.
      * split.
        -- rewrite firstn_app, firstn_all, Nat.sub_diag. cbn [firstn].
           rewrite app_nil_r, skipn_app, skipn_all2 by lia.
           replace (S (List.length a) - List.length a)%nat with 1%nat by lia.
           reflexivity.
        -- apply find_phys_none. apply Forall_app. split; [exact D1 |].
           clear D1 Ht. induction a as [| x a IH];
             cbn [app Registry.distinct_phys] in Hd.
           ++ destruct Hd as [Hf _].
              rewrite Forall_forall in *. intros y Hy N.
              apply (Hf y Hy). apply strncmp_sym. exact N.
           ++ apply IH. exact (proj2 Hd).
Qed.

Lemma sample_sessions_well_formed : Registry.well_formed sample_sessions.
Proof.
  split.
  - repeat (apply Forall_cons;
            [exists 7%nat; split; [lia | reflexivity] |]).
    apply Forall_nil.
  - cbn [sample_sessions Registry.distinct_phys]. split; [| split; auto].
    apply Forall_cons; [| apply Forall_nil].
    vm_compute. discriminate.
Qed.

Lemma registry_stays_well_formed_witness :
  Registry.switch2_get_controller false sample_sessions sample_phys
  = (inl 1%nat, sample_sessions)
  /\ Registry.switch2_controller_put sample_sessions 1
     = firstn 1 sample_sessions
  /\ Registry.find_phys (Registry.switch2_controller_put sample_sessions 1)
       sample_phys 0 = None
  /\ nth_error (Registry.switch2_controller_put sample_sessions 0) 1
     = nth_error sample_sessions 1
  /\ Registry.well_formed (Registry.switch2_controller_put sample_sessions 0).
Proof.
  destruct (registry_stays_well_formed sample_sessions
              sample_sessions_well_formed) as (_ & P & L).
  destruct (L false 1%nat _ eq_refl) as [G [E F]].
  destruct (L false 0%nat _ eq_refl) as [_ [_ O]].
  split; [exact G |]. split; [exact E |]. split; [exact F |].
  split; [apply O; discriminate | apply P].
Defined.
